(** * S25FL064L SPI flash driver: a shallow embedding and its properties

    The driver of [S25FL064L.c] talks to the chip through four function
    pointers of the device structure (reset, chip select, bus exchange, busy
    hook).  Here every call through one of them is an event appended to the
    bus log of the world, and the answer of the bus exchange is given by the
    [p_RW] field itself, a function of the log so far and of the bytes
    sent.  The driver functions are written in a small state monad whose
    outcomes are a normal return, a fault (a call through a NULL pointer,
    which is undefined in C) and a spin (the busy poll has not finished
    within the number of polls the model was given). *)

From Stdlib Require Import ZArith List Bool Lia.
Import ListNotations.
Open Scope Z_scope.

(** ** Constants of [S25FL064L.c] and [S25FL064L_Defs.h] *)

Definition S25FL064L_CMD_RSFDP : Z := 0x5A.
Definition S25FL064L_CMD_SPRP : Z := 0xFB.
Definition S25FL064L_CMD_DPD : Z := 0xB9.
Definition S25FL064L_CMD_RES : Z := 0xAB.
Definition S25FL064L_CMD_RDID : Z := 0x9F.
Definition S25FL064L_CMD_RST : Z := 0x99.
Definition S25FL064L_CMD_RSTEN : Z := 0x66.
Definition S25FL064L_CMD_CE : Z := 0x60.
Definition S25FL064L_CMD_RUID : Z := 0x4B.
Definition S25FL064L_CMD_RDCR1 : Z := 0x35.
Definition S25FL064L_CMD_RDCR3 : Z := 0x33.
Definition S25FL064L_CMD_CLSR : Z := 0x30.
Definition S25FL064L_CMD_SE : Z := 0x21.
Definition S25FL064L_CMD_RDCR2 : Z := 0x15.
Definition S25FL064L_CMD_4READ : Z := 0x13.
Definition S25FL064L_CMD_4PP : Z := 0x12.
Definition S25FL064L_CMD_WREN : Z := 0x06.
Definition S25FL064L_CMD_WRDI : Z := 0x04.
Definition S25FL064L_CMD_RDSR2 : Z := 0x07.
Definition S25FL064L_CMD_RDSR1 : Z := 0x05.
Definition S25FL064L_CMD_READ : Z := 0x03.
Definition S25FL064L_CMD_PAGE_PROGRAM : Z := 0x02.

Definition S25FL064L_BIT_ADDR_LENGTH : Z := 0x00.
Definition S25FL064L_BIT_BUSY : Z := 0x00.
Definition S25FL064L_BIT_WEL : Z := 0x01.

Definition S25FL064L_MASK_PROG_ERROR : Z := Z.shiftl 0x01 0x00.
Definition S25FL064L_MASK_ERASE_ERROR : Z := Z.shiftl 0x01 0x01.
Definition S25FL064L_PAGE_SIZE : Z := 256.
Definition S25FL064L_SECTOR_COUNT : Z := 2048.
Definition S25FL064L_SECTOR_SIZE : Z := 4096.
Definition S25FL064L_DEVICE_ID : Z := 0x6017.

(** Size of the packed [flash_params_t] of [SFDP.h]: one header and two
    parameter headers of eight bytes each. *)
Definition sizeof_flash_params_t : Z := 24.

(** ** Machine integers *)

Definition uint8 (z : Z) : Z := z mod 2 ^ 8.
Definition uint16 (z : Z) : Z := z mod 2 ^ 16.
Definition uint32 (z : Z) : Z := z mod 2 ^ 32.

(** ** Types of [S25FL064L_Defs.h] *)

Inductive s25fl064_error_t : Type :=
| S25FL064_NO_ERROR
| S25FL064_INVALID_PARAM
| S25FL064_NOT_INITIALIZED
| S25FL064_WRITE_PROTECTED.

Definition error_code (e : s25fl064_error_t) : Z :=
  match e with
  | S25FL064_NO_ERROR => 0x00
  | S25FL064_INVALID_PARAM => 0x01
  | S25FL064_NOT_INITIALIZED => 0x03
  | S25FL064_WRITE_PROTECTED => 0x04
  end.

(** The test [Error != S25FL064_NO_ERROR]. *)
Definition is_error (e : s25fl064_error_t) : bool :=
  match e with
  | S25FL064_NO_ERROR => false
  | _ => true
  end.

Inductive s25fl064_imp_t : Type :=
| S25FL064_IMP_0
| S25FL064_IMP_1
| S25FL064_IMP_2
| S25FL064_IMP_3.

Definition imp_of_Z (z : Z) : s25fl064_imp_t :=
  if z =? 0 then S25FL064_IMP_0
  else if z =? 1 then S25FL064_IMP_1
  else if z =? 2 then S25FL064_IMP_2
  else S25FL064_IMP_3.

(** What goes over the transport, in the order of the calls. *)
Inductive event : Type :=
| EvReset
| EvCS (Select : bool)
| EvRW (Tx_Data : list Z) (Rx_Length : Z)
       (err : s25fl064_error_t) (Rx_Data : list Z)
| EvBusy.

(** A void callback: the driver can only test the pointer against NULL and
    call it; what the call does is its event on the bus log. *)
Inductive callback : Type := Callback.

(** The bus exchange [s25fl06_rw_fptr_t]: from the log so far, the bytes
    sent and the number of bytes asked for, the status and the bytes
    received. *)
Definition s25fl06_rw_fptr_t : Type :=
  list event -> list Z -> Z -> s25fl064_error_t * list Z.

Record s25fl064_t : Type := mk_s25fl064_t {
  p_Reset : option callback;
  p_CS : option callback;
  p_RW : option s25fl06_rw_fptr_t;
  p_Busy : option callback;
  isInitialized : bool;
  isPowerDown : bool;
  isWriteProtect : bool;
  isShortAddress : bool;
  isQPI : bool;
  MID : Z;
  DID : Z;
  UID : list Z;
  BlockSize : Z;
  Blocks : Z;
  Impedance : s25fl064_imp_t
}.

Definition set_isInitialized (v : bool) (d : s25fl064_t) : s25fl064_t :=
  mk_s25fl064_t (p_Reset d) (p_CS d) (p_RW d) (p_Busy d) v (isPowerDown d)
    (isWriteProtect d) (isShortAddress d) (isQPI d) (MID d) (DID d) (UID d)
    (BlockSize d) (Blocks d) (Impedance d).

Definition set_isPowerDown (v : bool) (d : s25fl064_t) : s25fl064_t :=
  mk_s25fl064_t (p_Reset d) (p_CS d) (p_RW d) (p_Busy d) (isInitialized d) v
    (isWriteProtect d) (isShortAddress d) (isQPI d) (MID d) (DID d) (UID d)
    (BlockSize d) (Blocks d) (Impedance d).

Definition set_isWriteProtect (v : bool) (d : s25fl064_t) : s25fl064_t :=
  mk_s25fl064_t (p_Reset d) (p_CS d) (p_RW d) (p_Busy d) (isInitialized d)
    (isPowerDown d) v (isShortAddress d) (isQPI d) (MID d) (DID d) (UID d)
    (BlockSize d) (Blocks d) (Impedance d).

Definition set_isShortAddress (v : bool) (d : s25fl064_t) : s25fl064_t :=
  mk_s25fl064_t (p_Reset d) (p_CS d) (p_RW d) (p_Busy d) (isInitialized d)
    (isPowerDown d) (isWriteProtect d) v (isQPI d) (MID d) (DID d) (UID d)
    (BlockSize d) (Blocks d) (Impedance d).

Definition set_isQPI (v : bool) (d : s25fl064_t) : s25fl064_t :=
  mk_s25fl064_t (p_Reset d) (p_CS d) (p_RW d) (p_Busy d) (isInitialized d)
    (isPowerDown d) (isWriteProtect d) (isShortAddress d) v (MID d) (DID d)
    (UID d) (BlockSize d) (Blocks d) (Impedance d).

Definition set_MID (v : Z) (d : s25fl064_t) : s25fl064_t :=
  mk_s25fl064_t (p_Reset d) (p_CS d) (p_RW d) (p_Busy d) (isInitialized d)
    (isPowerDown d) (isWriteProtect d) (isShortAddress d) (isQPI d) v (DID d)
    (UID d) (BlockSize d) (Blocks d) (Impedance d).

Definition set_DID (v : Z) (d : s25fl064_t) : s25fl064_t :=
  mk_s25fl064_t (p_Reset d) (p_CS d) (p_RW d) (p_Busy d) (isInitialized d)
    (isPowerDown d) (isWriteProtect d) (isShortAddress d) (isQPI d) (MID d) v
    (UID d) (BlockSize d) (Blocks d) (Impedance d).

Definition set_UID (v : list Z) (d : s25fl064_t) : s25fl064_t :=
  mk_s25fl064_t (p_Reset d) (p_CS d) (p_RW d) (p_Busy d) (isInitialized d)
    (isPowerDown d) (isWriteProtect d) (isShortAddress d) (isQPI d) (MID d)
    (DID d) v (BlockSize d) (Blocks d) (Impedance d).

Definition set_BlockSize (v : Z) (d : s25fl064_t) : s25fl064_t :=
  mk_s25fl064_t (p_Reset d) (p_CS d) (p_RW d) (p_Busy d) (isInitialized d)
    (isPowerDown d) (isWriteProtect d) (isShortAddress d) (isQPI d) (MID d)
    (DID d) (UID d) v (Blocks d) (Impedance d).

Definition set_Blocks (v : Z) (d : s25fl064_t) : s25fl064_t :=
  mk_s25fl064_t (p_Reset d) (p_CS d) (p_RW d) (p_Busy d) (isInitialized d)
    (isPowerDown d) (isWriteProtect d) (isShortAddress d) (isQPI d) (MID d)
    (DID d) (UID d) (BlockSize d) v (Impedance d).

Definition set_Impedance (v : s25fl064_imp_t) (d : s25fl064_t) : s25fl064_t :=
  mk_s25fl064_t (p_Reset d) (p_CS d) (p_RW d) (p_Busy d) (isInitialized d)
    (isPowerDown d) (isWriteProtect d) (isShortAddress d) (isQPI d) (MID d)
    (DID d) (UID d) (BlockSize d) (Blocks d) v.

(** ** The world and the monad *)

(** The device structure the handle points to, the file-scope [Params] of
    [S25FL064L.c], the bytes an automatic array holds before the code
    writes it ([Stack]), and the bus log. *)
Record World : Type := mk_World {
  Device : s25fl064_t;
  Params : list Z;
  Stack : list Z;
  Bus : list event
}.

Inductive outcome (A : Type) : Type :=
| Return (a : A) (w : World)
| Fault (w : World)
| Spin (w : World).

Arguments Return {A} a w.
Arguments Fault {A} w.
Arguments Spin {A} w.

Definition M (A : Type) : Type := World -> outcome A.

Definition ret {A : Type} (a : A) : M A := fun w => Return a w.

Definition bind {A B : Type} (m : M A) (k : A -> M B) : M B :=
  fun w =>
    match m w with
    | Return a w' => k a w'
    | Fault w' => Fault w'
    | Spin w' => Spin w'
    end.

Definition fault {A : Type} : M A := fun w => Fault w.
Definition spin {A : Type} : M A := fun w => Spin w.

Declare Scope drv_scope.
Delimit Scope drv_scope with drv.
Notation "x <- m ;; k" := (bind m (fun x => k))
  (at level 61, m at next level, right associativity) : drv_scope.
Notation "' p <- m ;; k" := (bind m (fun x => match x with p => k end))
  (at level 61, p pattern, m at next level, right associativity) : drv_scope.
Notation "m ;; k" := (bind m (fun _ => k))
  (at level 61, right associativity) : drv_scope.
Open Scope drv_scope.

(** The world at the end of a run, whatever the outcome. *)
Definition world_of {A : Type} (o : outcome A) : World :=
  match o with
  | Return _ w => w
  | Fault w => w
  | Spin w => w
  end.

Definition log (e : event) (w : World) : World :=
  mk_World (Device w) (Params w) (Stack w) (Bus w ++ [e]).

(** A pointer of which only NULL or not matters here: the handle (there is
    one device structure in the world) and the receive buffers. *)
Inductive ptr : Type := NULL | PTR.

Definition is_null (p : ptr) : bool :=
  match p with
  | NULL => true
  | PTR => false
  end.

Definition load (p_Device : ptr) : M s25fl064_t :=
  fun w =>
    match p_Device with
    | NULL => Fault w
    | PTR => Return (Device w) w
    end.

Definition store (p_Device : ptr) (f : s25fl064_t -> s25fl064_t) : M unit :=
  fun w =>
    match p_Device with
    | NULL => Fault w
    | PTR => Return tt (mk_World (f (Device w)) (Params w) (Stack w) (Bus w))
    end.

Definition store_Params (v : list Z) : M unit :=
  fun w => Return tt (mk_World (Device w) v (Stack w) (Bus w)).

(** The bytes the transport leaves in a receive buffer of [Rx_Length]
    bytes. *)
Definition rx_store (Rx_Length : Z) (rx : list Z) : list Z :=
  map uint8 (firstn (Z.to_nat Rx_Length) (rx ++ repeat 0 (Z.to_nat Rx_Length))).

(** [p_Device->p_Reset()] *)
Definition call_Reset (p_Device : ptr) : M unit :=
  d <- load p_Device ;;
  match p_Reset d with
  | None => fault
  | Some _ => fun w => Return tt (log EvReset w)
  end.

(** [p_Device->p_CS(Select)] *)
Definition call_CS (p_Device : ptr) (Select : bool) : M unit :=
  d <- load p_Device ;;
  match p_CS d with
  | None => fault
  | Some _ => fun w => Return tt (log (EvCS Select) w)
  end.

(** [p_Device->p_Busy()] *)
Definition call_Busy (p_Device : ptr) : M unit :=
  d <- load p_Device ;;
  match p_Busy d with
  | None => fault
  | Some _ => fun w => Return tt (log EvBusy w)
  end.

(** [p_Device->p_RW(p_Tx_Data, Tx_Length, p_Rx_Data, Rx_Length)]: the bytes
    sent are the [Tx_Length] bytes at [p_Tx_Data]. *)
Definition call_RW (p_Device : ptr) (Tx_Data : list Z) (Rx_Length : Z)
  : M (s25fl064_error_t * list Z) :=
  d <- load p_Device ;;
  match p_RW d with
  | None => fault
  | Some rw =>
      fun w =>
        let '(err, rx) := rw (Bus w) Tx_Data Rx_Length in
        let Rx_Data := rx_store Rx_Length rx in
        Return (err, Rx_Data) (log (EvRW Tx_Data Rx_Length err Rx_Data) w)
  end.

(** C's [a || b] on two calls that return an error code: [b] runs only if
    [a] returned zero, and the result is the integer 0 or 1, which as an
    [s25fl064_error_t] is [S25FL064_NO_ERROR] or [S25FL064_INVALID_PARAM]. *)
Definition error_of_bool (b : bool) : s25fl064_error_t :=
  if b then S25FL064_INVALID_PARAM else S25FL064_NO_ERROR.

Definition orelse (a b : M s25fl064_error_t) : M s25fl064_error_t :=
  x <- a ;;
  if is_error x then ret (error_of_bool true)
  else y <- b ;; ret (error_of_bool (is_error y)).

(** The four address bytes of a command frame, most significant first. *)
Definition address_bytes (Address : Z) : list Z :=
  [ Z.shiftr (Z.land Address 0xFF000000) 0x18;
    Z.shiftr (Z.land Address 0x00FF0000) 0x10;
    Z.shiftr (Z.land Address 0x0000FF00) 0x08;
    Z.shiftr (Z.land Address 0x000000FF) 0x00 ].

(** The [n] bytes of a buffer from offset [off]. *)
Definition bytes_at (buf : list Z) (off : Z) (n : Z) : list Z :=
  firstn (Z.to_nat n) (skipn (Z.to_nat off) buf).

Definition idx (buf : list Z) (i : nat) : Z := nth i buf 0.

Definition is_none {A : Type} (o : option A) : bool :=
  match o with
  | None => true
  | Some _ => false
  end.

(** The contents of an automatic array of [n] bytes that has not been
    written yet. *)
Definition automatic (n : nat) : M (list Z) :=
  fun w => Return (firstn n (Stack w ++ repeat 0 n)) w.

(** ** The driver, function by function *)

(** [(p_Device == NULL) || (p_Device->p_RW == NULL) || (p_Device->p_CS == NULL)] *)
Definition no_transport (p_Device : ptr) : M bool :=
  if is_null p_Device then ret true
  else d <- load p_Device ;; ret (is_none (p_RW d) || is_none (p_CS d)).

(** [p_Command] is given as the [CommandLength] bytes it points to; the
    result carries the [Length] bytes left at [p_Data]. *)
Definition S25FL064L_Command (p_Device : ptr) (p_Command : list Z)
    (p_Data : ptr) (Length : Z) : M (s25fl064_error_t * list Z) :=
  invalid <- no_transport p_Device ;;
  if invalid || (is_null p_Data && (0 <? Length)) then
    ret (S25FL064_INVALID_PARAM, [])
  else
    call_CS p_Device true ;;
    '(Err, Rx) <- call_RW p_Device p_Command Length ;;
    if is_error Err then
      call_CS p_Device false ;;
      ret (Err, Rx)
    else
      call_CS p_Device false ;;
      ret (Err, Rx).

Definition S25FL064L_ReadID (p_Device : ptr) : M s25fl064_error_t :=
  let Tx_Buffer := S25FL064L_CMD_RDID in
  '(Err, Rx_Buffer) <- S25FL064L_Command p_Device [Tx_Buffer] PTR 4 ;;
  if is_error Err then ret Err
  else
    store p_Device (set_MID (idx Rx_Buffer 1)) ;;
    store p_Device
      (set_DID (uint16 (Z.lor (Z.shiftl (idx Rx_Buffer 2) 0x08)
                              (idx Rx_Buffer 3)))) ;;
    ret Err.

(** [p_Device->p_RW(NULL, 0, p_Device->UID, 8)]: the transport receives
    straight into the [UID] of the handle; the driver does not store it.
    The bytes the transport has written (at most eight) replace the first
    bytes of the field, and the bytes it has not written stay as they were,
    whether the exchange succeeds or fails. *)
Definition rx_written (Rx_Length : Z) (rx : list Z) : list Z :=
  map uint8 (firstn (Z.to_nat Rx_Length) rx).

Definition rx_into (old written : list Z) : list Z :=
  written ++ skipn (length written) old.

Definition call_RW_UID (p_Device : ptr) : M s25fl064_error_t :=
  d <- load p_Device ;;
  match p_RW d with
  | None => fault
  | Some rw =>
      fun w =>
        let '(err, rx) := rw (Bus w) [] 8 in
        let Rx_Data := rx_written 8 rx in
        Return err
          (mk_World (set_UID (rx_into (UID (Device w)) Rx_Data) (Device w))
             (Params w) (Stack w) (Bus w ++ [EvRW [] 8 err Rx_Data]))
  end.

Definition S25FL064L_ReadUID (p_Device : ptr) : M s25fl064_error_t :=
  let Command := S25FL064L_CMD_RUID in
  invalid <- no_transport p_Device ;;
  if invalid then ret S25FL064_INVALID_PARAM
  else
    call_CS p_Device true ;;
    '(Err, _) <- call_RW p_Device [Command] 5 ;;
    if is_error Err then
      call_CS p_Device false ;;
      ret Err
    else
      Err <- call_RW_UID p_Device ;;
      if is_error Err then
        call_CS p_Device false ;;
        ret Err
      else
        call_CS p_Device false ;;
        ret Err.

(** The do-while of the source, unrolled at most [polls] times. *)
Fixpoint S25FL064L_WaitBusy (polls : nat) (p_Device : ptr)
  : M s25fl064_error_t :=
  match polls with
  | O => spin
  | S polls' =>
      let Tx_Buffer := S25FL064L_CMD_RDSR1 in
      '(Err, Rx_Buffer) <- S25FL064L_Command p_Device [Tx_Buffer] PTR 2 ;;
      if is_error Err then ret Err
      else
        d <- load p_Device ;;
        (if is_none (p_Busy d) then ret tt else call_Busy p_Device) ;;
        if negb (Z.land (idx Rx_Buffer 1) (Z.shiftl 0x01 S25FL064L_BIT_BUSY)
                 =? 0)
        then S25FL064L_WaitBusy polls' p_Device
        else ret Err
  end.

Definition S25FL064L_ReadJEDEC (p_Device : ptr) : M s25fl064_error_t :=
  let Tx_Buffer := [S25FL064L_CMD_RSFDP; 0x00; 0x00; 0x00; 0x00] in
  invalid <- no_transport p_Device ;;
  if invalid then ret S25FL064_INVALID_PARAM
  else
    call_CS p_Device true ;;
    '(Err, _) <- call_RW p_Device Tx_Buffer 5 ;;
    if is_error Err then
      call_CS p_Device false ;;
      ret Err
    else
      '(Err, Rx) <- call_RW p_Device [] sizeof_flash_params_t ;;
      store_Params Rx ;;
      if is_error Err then
        call_CS p_Device false ;;
        ret Err
      else
        call_CS p_Device false ;;
        ret Err.

Definition S25FL064L_Reset (p_Device : ptr) : M s25fl064_error_t :=
  invalid <- (if is_null p_Device then ret true
              else d <- load p_Device ;; ret (is_none (p_Reset d))) ;;
  if invalid then ret S25FL064_INVALID_PARAM
  else
    call_Reset p_Device ;;
    store p_Device (set_isInitialized false) ;;
    ret S25FL064_NO_ERROR.

Definition S25FL064L_EnterPowerDown (p_Device : ptr) : M s25fl064_error_t :=
  let Tx_Buffer := S25FL064L_CMD_DPD in
  '(Err, _) <- S25FL064L_Command p_Device [Tx_Buffer] NULL 0 ;;
  if is_error Err then ret Err
  else
    store p_Device (set_isPowerDown true) ;;
    ret Err.

Definition S25FL064L_LeavePowerDown (polls : nat) (p_Device : ptr)
  : M s25fl064_error_t :=
  let Tx_Buffer := S25FL064L_CMD_RES in
  '(Err, _) <- S25FL064L_Command p_Device [Tx_Buffer] NULL 0 ;;
  if is_error Err then ret Err
  else
    Err <- S25FL064L_WaitBusy polls p_Device ;;
    if is_error Err then ret Err
    else
      store p_Device (set_isPowerDown false) ;;
      ret Err.

Definition S25FL064L_Init (polls : nat) (p_Device : ptr)
  : M s25fl064_error_t :=
  store p_Device (set_isInitialized false) ;;
  Err <- S25FL064L_LeavePowerDown polls p_Device ;;
  if is_error Err then ret Err
  else
    Err <- S25FL064L_Reset p_Device ;;
    if is_error Err then ret Err
    else
      Err <- orelse (orelse (S25FL064L_ReadID p_Device)
                       (S25FL064L_ReadUID p_Device))
               (S25FL064L_ReadJEDEC p_Device) ;;
      if is_error Err then ret Err
      else
        let Tx_Buffer := S25FL064L_CMD_RDCR2 in
        '(Err, Rx_Buffer) <- S25FL064L_Command p_Device [Tx_Buffer] PTR 2 ;;
        if is_error Err then ret Err
        else
          (if negb (Z.land (idx Rx_Buffer 1)
                      (Z.shiftl 0x01 S25FL064L_BIT_ADDR_LENGTH) =? 0)
           then store p_Device (set_isShortAddress false)
           else store p_Device (set_isShortAddress false)) ;;
          store p_Device
            (set_Impedance
               (imp_of_Z (Z.land (Z.shiftr (idx Rx_Buffer 1) 0x05) 0x03))) ;;
          store p_Device
            (set_isQPI
               (negb (Z.land (Z.shiftr (idx Rx_Buffer 1) 0x03) 0x01 =? 0))) ;;
          store p_Device (set_BlockSize S25FL064L_SECTOR_SIZE) ;;
          store p_Device (set_Blocks S25FL064L_SECTOR_COUNT) ;;
          store p_Device (set_isInitialized true) ;;
          store p_Device (set_isPowerDown false) ;;
          store p_Device (set_isWriteProtect false) ;;
          ret Err.

(** The result carries what the call has stored at [p_Error], if it got
    that far. *)
Definition S25FL064L_GetError (p_Device : ptr) (p_Error : ptr)
  : M (s25fl064_error_t * option Z) :=
  let Tx_Buffer := S25FL064L_CMD_RDSR2 in
  '(Err, Rx_Buffer) <- S25FL064L_Command p_Device [Tx_Buffer] PTR 2 ;;
  if is_error Err then ret (Err, None)
  else
    (if is_null p_Error then fault else ret tt) ;;
    let Error_out := Z.shiftr (Z.land (idx Rx_Buffer 1) 0x60) 0x05 in
    let Tx_Buffer := S25FL064L_CMD_CLSR in
    '(Err, _) <- S25FL064L_Command p_Device [Tx_Buffer] NULL 0 ;;
    ret (Err, Some Error_out).

Definition S25FL064L_EraseSector (polls : nat) (p_Device : ptr) (Address : Z)
  : M s25fl064_error_t :=
  let Tx_Buffer := [S25FL064L_CMD_WREN; 0; 0; 0; 0] in
  '(Err, _) <- S25FL064L_Command p_Device [idx Tx_Buffer 0] NULL 0 ;;
  if is_error Err then ret Err
  else
    call_CS p_Device true ;;
    let Tx_Buffer := S25FL064L_CMD_SE :: address_bytes Address in
    '(Err, _) <- call_RW p_Device Tx_Buffer 0 ;;
    if is_error Err then
      call_CS p_Device false ;;
      ret Err
    else
      call_CS p_Device false ;;
      S25FL064L_WaitBusy polls p_Device.

Definition S25FL064L_EraseChip (polls : nat) (p_Device : ptr)
  : M s25fl064_error_t :=
  let Tx_Buffer := S25FL064L_CMD_WREN in
  '(Err, _) <- S25FL064L_Command p_Device [Tx_Buffer] NULL 0 ;;
  if is_error Err then ret Err
  else
    let Tx_Buffer := S25FL064L_CMD_CE in
    '(Err, _) <- S25FL064L_Command p_Device [Tx_Buffer] NULL 0 ;;
    if is_error Err then ret Err
    else S25FL064L_WaitBusy polls p_Device.

(** The body of the do-while of [S25FL064L_Write] from the page-program
    frame on: [inl] is a [return] from inside the loop, [inr] the values of
    [RemainingBytes], [p_Buffer_Temp] (as an offset into [p_Buffer]) and
    [MemoryAddress] at the end of the if-else. *)
Definition Write_page (polls : nat) (p_Device : ptr) (p_Buffer : list Z)
    (RemainingBytes p_Buffer_Temp MemoryAddress : Z)
  : M (s25fl064_error_t + Z * Z * Z) :=
  if S25FL064L_PAGE_SIZE <=? RemainingBytes then
    Err <- orelse
             ('(Err, _) <- call_RW p_Device
                             (bytes_at p_Buffer p_Buffer_Temp 255) 0 ;;
              ret Err)
             ('(Err, _) <- call_RW p_Device
                             (bytes_at p_Buffer (p_Buffer_Temp + 255) 1) 0 ;;
              ret Err) ;;
    if is_error Err then
      call_CS p_Device false ;;
      ret (inl Err)
    else
      call_CS p_Device false ;;
      Err <- S25FL064L_WaitBusy polls p_Device ;;
      if is_error Err then
        call_CS p_Device false ;;
        ret (inl Err)
      else
        ret (inr (RemainingBytes - S25FL064L_PAGE_SIZE,
                  p_Buffer_Temp + S25FL064L_PAGE_SIZE,
                  uint32 (MemoryAddress + S25FL064L_PAGE_SIZE)))
  else
    '(Err, _) <- call_RW p_Device (bytes_at p_Buffer 0 RemainingBytes) 0 ;;
    if is_error Err then
      call_CS p_Device false ;;
      ret (inl Err)
    else
      call_CS p_Device false ;;
      Err <- S25FL064L_WaitBusy polls p_Device ;;
      if is_error Err then
        call_CS p_Device false ;;
        ret (inl Err)
      else
        ret (inr (RemainingBytes - RemainingBytes, p_Buffer_Temp,
                  MemoryAddress)).

(** The do-while of [S25FL064L_Write] and the [return] after it; [pages]
    bounds the number of iterations. *)
Fixpoint Write_loop (pages polls : nat) (p_Device : ptr) (p_Buffer : list Z)
    (Tx_Buffer : list Z) (RemainingBytes p_Buffer_Temp MemoryAddress : Z)
  : M s25fl064_error_t :=
  match pages with
  | O => spin
  | S pages' =>
      let Tx_Buffer := S25FL064L_CMD_WREN :: tl Tx_Buffer in
      '(Err, _) <- S25FL064L_Command p_Device [idx Tx_Buffer 0] NULL 0 ;;
      if is_error Err then ret Err
      else
        let Tx_Buffer := S25FL064L_CMD_RDSR1 :: tl Tx_Buffer in
        '(Err, Rx_Buffer) <- S25FL064L_Command p_Device Tx_Buffer PTR 2 ;;
        if is_error Err then ret Err
        else if Z.land (idx Rx_Buffer 1) (Z.shiftl 0x01 S25FL064L_BIT_WEL)
                =? 0
        then ret S25FL064_WRITE_PROTECTED
        else
          let Tx_Buffer := S25FL064L_CMD_4PP :: address_bytes MemoryAddress in
          call_CS p_Device true ;;
          '(Err, _) <- call_RW p_Device Tx_Buffer 0 ;;
          if is_error Err then
            call_CS p_Device false ;;
            ret Err
          else
            r <- Write_page polls p_Device p_Buffer RemainingBytes
                   p_Buffer_Temp MemoryAddress ;;
            match r with
            | inl Err => ret Err
            | inr (RemainingBytes, p_Buffer_Temp, MemoryAddress) =>
                call_CS p_Device false ;;
                if 0 <? RemainingBytes then
                  Write_loop pages' polls p_Device p_Buffer Tx_Buffer
                    RemainingBytes p_Buffer_Temp MemoryAddress
                else S25FL064L_WaitBusy polls p_Device
            end
  end.

(** [p_Buffer] is [None] for NULL and otherwise the bytes it points to, of
    which the caller provides at least [Length]. *)
Definition S25FL064L_Write (polls : nat) (p_Device : ptr) (Address : Z)
    (p_Buffer : option (list Z)) (Length : Z) : M s25fl064_error_t :=
  match p_Device, p_Buffer with
  | PTR, Some buf =>
      Tx_Buffer <- automatic 5 ;;
      Write_loop (S (Z.to_nat (Length / S25FL064L_PAGE_SIZE))) polls p_Device
        buf Tx_Buffer Length 0 Address
  | _, _ => ret S25FL064_INVALID_PARAM
  end.

(** The do-while of [S25FL064L_Read] and the code after it; [received] is
    what has been stored at [p_Buffer] so far, [chunks] bounds the number of
    iterations. *)
Fixpoint Read_loop (chunks : nat) (p_Device : ptr) (RemainingBytes : Z)
    (received : list Z) : M (s25fl064_error_t * list Z) :=
  match chunks with
  | O => spin
  | S chunks' =>
      let TransmissionLength :=
        if 255 <? RemainingBytes then 255 else uint8 RemainingBytes in
      '(Err, Rx) <- call_RW p_Device [] TransmissionLength ;;
      if is_error Err then
        call_CS p_Device false ;;
        ret (Err, received ++ Rx)
      else
        let RemainingBytes := RemainingBytes - TransmissionLength in
        let received := received ++ Rx in
        if 0 <? RemainingBytes then
          Read_loop chunks' p_Device RemainingBytes received
        else
          call_CS p_Device false ;;
          ret (Err, received)
  end.

(** The result carries the bytes stored at [p_Buffer]. *)
Definition S25FL064L_Read (p_Device : ptr) (Start : Z) (p_Buffer : ptr)
    (Length : Z) : M (s25fl064_error_t * list Z) :=
  if is_null p_Device || is_null p_Buffer then
    ret (S25FL064_INVALID_PARAM, [])
  else
    let Tx_Buffer := S25FL064L_CMD_4READ :: address_bytes Start in
    call_CS p_Device true ;;
    '(Err, _) <- call_RW p_Device Tx_Buffer 0 ;;
    if is_error Err then
      call_CS p_Device false ;;
      ret (Err, [])
    else Read_loop (S (Z.to_nat (Length / 255))) p_Device Length [].

(** ** The public interface of [S25FL064L.h] as one type of calls *)

Inductive call : Type :=
| Call_Init (p_Device : ptr)
| Call_GetError (p_Device : ptr) (p_Error : ptr)
| Call_Reset (p_Device : ptr)
| Call_EnterPowerDown (p_Device : ptr)
| Call_LeavePowerDown (p_Device : ptr)
| Call_EraseSector (p_Device : ptr) (Address : Z)
| Call_EraseChip (p_Device : ptr)
| Call_Write (p_Device : ptr) (Address : Z) (p_Buffer : option (list Z))
    (Length : Z)
| Call_Read (p_Device : ptr) (Start : Z) (p_Buffer : ptr) (Length : Z).

(** The error code a call returns. *)
Definition run (polls : nat) (c : call) : M s25fl064_error_t :=
  match c with
  | Call_Init p => S25FL064L_Init polls p
  | Call_GetError p e => r <- S25FL064L_GetError p e ;; ret (fst r)
  | Call_Reset p => S25FL064L_Reset p
  | Call_EnterPowerDown p => S25FL064L_EnterPowerDown p
  | Call_LeavePowerDown p => S25FL064L_LeavePowerDown polls p
  | Call_EraseSector p a => S25FL064L_EraseSector polls p a
  | Call_EraseChip p => S25FL064L_EraseChip polls p
  | Call_Write p a b l => S25FL064L_Write polls p a b l
  | Call_Read p s b l => r <- S25FL064L_Read p s b l ;; ret (fst r)
  end.

(** The data operations among them. *)
Definition is_data_operation (c : call) : bool :=
  match c with
  | Call_EraseSector _ _ | Call_EraseChip _ | Call_Write _ _ _ _
  | Call_Read _ _ _ _ => true
  | _ => false
  end.

(** ** The caller of [filesystem.c] *)

Inductive ret_code_t : Type := NRF_SUCCESS | NRF_ERROR_NO_MEM.

(** [FileSystem_Init] from the point where it fills in the transport of
    [Flash]; the pin and SPI set-up before it belongs to the board support
    package and leaves no event on this bus log.  [Flash_ReadWrite] stands
    for the exchange the board provides; the function uses neither
    [EraseChip] nor, on this path, [Watchdog]. *)
Definition FileSystem_Init (polls : nat) (Flash_ReadWrite : s25fl06_rw_fptr_t)
    (EraseChip : bool) (Watchdog : Z) : M ret_code_t :=
  store PTR (fun d =>
    mk_s25fl064_t (Some Callback) (Some Callback) (Some Flash_ReadWrite)
      (Some Callback) (isInitialized d) (isPowerDown d) (isWriteProtect d)
      (isShortAddress d) (isQPI d) (MID d) (DID d) (UID d) (BlockSize d)
      (Blocks d) (Impedance d)) ;;
  Err <- S25FL064L_Init polls PTR ;;
  Flash <- load PTR ;;
  if is_error Err || negb (DID Flash =? S25FL064L_DEVICE_ID)
     || negb (isInitialized Flash)
  then ret NRF_ERROR_NO_MEM
  else ret NRF_SUCCESS.

(** ** Reading the bus log *)

(** The chip-select line: released, asserted with no exchange yet (the next
    exchange carries the opcode), or asserted after the first exchange. *)
Inductive cs_state : Type := Released | Opened | Streaming.

(** What the log tells about the write-enable latch: no write-enable since
    the last command that consumes it, a write-enable sent, and after it a
    status read that showed the latch set or clear. *)
Inductive wel_state : Type := NoWren | WrenIssued | WelSet | WelClear.

Record view : Type := mk_view {
  line : cs_state;
  latch : wel_state;
  unguarded : nat
}.

Definition initial_view : view := mk_view Released NoWren 0.

Definition is_program (op : Z) : bool :=
  (op =? S25FL064L_CMD_4PP) || (op =? S25FL064L_CMD_PAGE_PROGRAM).

Definition is_erase (op : Z) : bool :=
  (op =? S25FL064L_CMD_SE) || (op =? S25FL064L_CMD_CE).

(** A page program is guarded when the latch has been seen set.  An erase
    is guarded, under the strict reading, in the same way; under the other
    reading a write-enable sent just before is enough. *)
Definition program_guarded (l : wel_state) : bool :=
  match l with
  | WelSet => true
  | _ => false
  end.

Definition erase_guarded (strict : bool) (l : wel_state) : bool :=
  match l with
  | WelSet => true
  | WrenIssued => negb strict
  | _ => false
  end.

Definition penalty (guarded : bool) : nat := if guarded then 0%nat else 1%nat.

(** The first exchange after chip select: [op] is the opcode sent. *)
Definition command_frame (strict : bool) (v : view) (op : Z)
    (err : s25fl064_error_t) (rx : list Z) : view :=
  if op =? S25FL064L_CMD_WREN then
    mk_view Streaming (if is_error err then NoWren else WrenIssued)
      (unguarded v)
  else if op =? S25FL064L_CMD_RDSR1 then
    mk_view Streaming
      (match latch v with
       | NoWren => NoWren
       | l => if is_error err then l
              else if Z.testbit (idx rx 1) 1 then WelSet else WelClear
       end)
      (unguarded v)
  else if is_program op then
    mk_view Streaming NoWren
      (unguarded v + penalty (program_guarded (latch v)))
  else if is_erase op then
    mk_view Streaming NoWren
      (unguarded v + penalty (erase_guarded strict (latch v)))
  else mk_view Streaming NoWren (unguarded v).

Definition observe_step (strict : bool) (v : view) (e : event) : view :=
  match e with
  | EvReset => mk_view (line v) NoWren (unguarded v)
  | EvCS true => mk_view Opened (latch v) (unguarded v)
  | EvCS false => mk_view Released (latch v) (unguarded v)
  | EvBusy => v
  | EvRW tx _ err rx =>
      match line v with
      | Opened =>
          match tx with
          | op :: _ => command_frame strict v op err rx
          | [] => mk_view Streaming NoWren (unguarded v)
          end
      | _ => v
      end
  end.

Definition observe_from (strict : bool) (v : view) (tr : list event) : view :=
  fold_left (observe_step strict) tr v.

Definition observe (strict : bool) (tr : list event) : view :=
  observe_from strict initial_view tr.

(** Chip select is asserted at the end of the log. *)
Definition selected (tr : list event) : bool :=
  match line (observe false tr) with
  | Released => false
  | _ => true
  end.

(** ** A chip on the bench, for the examples *)

(** A transport that always succeeds and answers register reads from fixed
    values: status registers 1 and 2, configuration register 2 and the
    device identity; the data phase of a read gives erased flash. *)
Definition bench_chip (sr1 sr2 cr2 did : Z) : s25fl06_rw_fptr_t :=
  fun _ tx n =>
    match tx with
    | op :: _ =>
        if op =? S25FL064L_CMD_RDSR1 then (S25FL064_NO_ERROR, [0; sr1])
        else if op =? S25FL064L_CMD_RDSR2 then (S25FL064_NO_ERROR, [0; sr2])
        else if op =? S25FL064L_CMD_RDCR2 then (S25FL064_NO_ERROR, [0; cr2])
        else if op =? S25FL064L_CMD_RDID then
          (S25FL064_NO_ERROR, [0; 0x01; Z.shiftr did 8; Z.land did 0xFF])
        else (S25FL064_NO_ERROR, [])
    | [] => (S25FL064_NO_ERROR, repeat 0xFF (Z.to_nat n))
    end.

Definition bench_device (rw : option s25fl06_rw_fptr_t) : s25fl064_t :=
  mk_s25fl064_t (Some Callback) (Some Callback) rw (Some Callback)
    false false false false false 0 0 [] 0 0 S25FL064_IMP_0.

Definition bench (rw : option s25fl06_rw_fptr_t) : World :=
  mk_World (bench_device rw) [] [0xAA; 0xBB; 0xCC; 0xDD; 0xEE] [].

(** Write-enable latch set, nothing in progress. *)
Definition ready_chip : s25fl06_rw_fptr_t := bench_chip 0x02 0x00 0x00 0x6017.

(** A transport like [rw] except that an exchange whose first byte is the
    opcode [op] fails. *)
Definition failing_at (op : Z) (rw : s25fl06_rw_fptr_t) : s25fl06_rw_fptr_t :=
  fun tr tx n =>
    match tx with
    | o :: _ => if o =? op then (S25FL064_INVALID_PARAM, []) else rw tr tx n
    | [] => rw tr tx n
    end.


(** A buffer of [n] bytes in which no two bytes a page apart are equal. *)
Definition pattern (n : nat) : list Z :=
  map (fun i => Z.of_nat i mod 251) (seq 0 n).

(** ** What a log programs into the flash *)

(** The address a command frame carries after its opcode. *)
Definition be32 (bytes : list Z) : Z :=
  fold_left (fun acc b => acc * 256 + b) bytes 0.

(** Reading a log for page programs: [open] is the page program whose frame
    is being sent (its address and the payload so far), [fresh] tells that
    chip select has just been asserted. *)
Fixpoint page_programs_from (open : option (Z * list Z)) (fresh : bool)
    (tr : list event) : list (Z * list Z) :=
  match tr with
  | [] => []
  | EvCS true :: tr' => page_programs_from None true tr'
  | EvCS false :: tr' =>
      match open with
      | Some frame => frame :: page_programs_from None false tr'
      | None => page_programs_from None false tr'
      end
  | EvRW tx _ _ _ :: tr' =>
      if fresh then
        match tx with
        | op :: addr =>
            if (op =? S25FL064L_CMD_4PP) && (length addr =? 4)%nat then
              page_programs_from (Some (be32 addr, [])) false tr'
            else page_programs_from None false tr'
        | [] => page_programs_from None false tr'
        end
      else
        match open with
        | Some (a, payload) =>
            page_programs_from (Some (a, payload ++ tx)) false tr'
        | None => page_programs_from None false tr'
        end
  | _ :: tr' => page_programs_from open fresh tr'
  end.

(** The page programs of a log: address and payload of each, in order. *)
Definition page_programs (tr : list event) : list (Z * list Z) :=
  page_programs_from None false tr.

(** The bytes they put at each address. *)
Definition programmed (tr : list event) : list (Z * Z) :=
  flat_map
    (fun frame =>
       combine (map (fun i => fst frame + Z.of_nat i)
                    (seq 0 (length (snd frame))))
               (snd frame))
    (page_programs tr).

(** The receive lengths of the exchanges of a log that send nothing. *)
Definition chunk_event (c : Z * s25fl064_error_t * list Z) : event :=
  match c with
  | (n, e, rx) => EvRW [] n e rx
  end.

Definition chunk_size (c : Z * s25fl064_error_t * list Z) : Z :=
  fst (fst c).

Definition total_size (cs : list (Z * s25fl064_error_t * list Z)) : Z :=
  fold_right (fun c acc => chunk_size c + acc) 0 cs.

(** ** Changing one flag of the handle *)

Definition with_init (b : bool) (w : World) : World :=
  mk_World (set_isInitialized b (Device w)) (Params w) (Stack w) (Bus w).

Definition outcome_map {A : Type} (f : World -> World) (o : outcome A)
  : outcome A :=
  match o with
  | Return a w => Return a (f w)
  | Fault w => Fault (f w)
  | Spin w => Spin (f w)
  end.

(** The world after the events [evs]. *)
Definition logs (evs : list event) (w : World) : World :=
  mk_World (Device w) (Params w) (Stack w) (Bus w ++ evs).


(** The value a run returns, if it returns. *)
Definition result_of {A : Type} (o : outcome A) : option A :=
  match o with
  | Return a _ => Some a
  | _ => None
  end.

(** A handle that has been in use, powered down, on a chip whose descriptor
    read fails. *)
Definition used_handle (rw : option s25fl06_rw_fptr_t) : World :=
  mk_World
    (set_isShortAddress true
       (set_isPowerDown true (set_isInitialized true (bench_device rw))))
    [] [] [].


(** What [call_RW] hands back from the transport [rw] at the log [tr]. *)
Definition exchange (rw : s25fl06_rw_fptr_t) (tr : list event) (tx : list Z)
    (n : Z) : s25fl064_error_t * list Z :=
  (fst (rw tr tx n), rx_store n (snd (rw tr tx n))).

(** ** Assertions used in the proofs *)

Definition vt {A : Type} (v : view) (m : M A) (Q : option A -> view -> Prop)
  : Prop :=
  forall w,
    match m w with
    | Return a w' =>
        exists evs, Bus w' = Bus w ++ evs /\ Q (Some a) (observe_from false v evs)
    | Spin w' =>
        exists evs, Bus w' = Bus w ++ evs /\ Q None (observe_from false v evs)
    | Fault w' => exists evs, Bus w' = Bus w ++ evs
    end.

(** One command frame: chip select, the exchange, chip release. *)
Definition framed (v : view) (tx : list Z) (n : Z) (e : s25fl064_error_t)
    (rx : list Z) : view :=
  observe_from false v [EvCS true; EvRW tx n e rx; EvCS false].

(** What a call may do to the view: the line is released again and no
    unguarded command was added; [quiet] also keeps a clean latch clean,
    [guarded] ties a latch seen clear to the error returned. *)
Definition quiet (v v' : view) : Prop :=
  line v' = Released /\ unguarded v' = unguarded v /\
  (latch v = NoWren -> latch v' = NoWren).

Definition guarded (v : view) (oe : option s25fl064_error_t) (v' : view)
  : Prop :=
  line v' = Released /\ unguarded v' = unguarded v /\
  (latch v = NoWren -> latch v' = WelClear ->
   oe = Some S25FL064_WRITE_PROTECTED).

Definition dt {A : Type} (d : s25fl064_t) (m : M A)
    (Q : A -> s25fl064_t -> Prop) : Prop :=
  forall w, Device w = d ->
    match m w with
    | Return a w' => Q a (Device w')
    | _ => True
    end.

(** The fields [S25FL064L_Init] writes only at its end. *)
Definition same_geometry (d d' : s25fl064_t) : Prop :=
  BlockSize d' = BlockSize d /\ Blocks d' = Blocks d /\
  isWriteProtect d' = isWriteProtect d /\
  isShortAddress d' = isShortAddress d /\ isQPI d' = isQPI d /\
  Impedance d' = Impedance d /\
  p_Reset d' = p_Reset d /\ p_CS d' = p_CS d /\ p_RW d' = p_RW d /\
  p_Busy d' = p_Busy d.

(** [blind b m]: [m] does the same on a world and on that world with
    [isInitialized] set to [b], and leaves the flag as it found it. *)
Definition blind {A : Type} (b : bool) (m : M A) : Prop :=
  forall w, m (with_init b w) = outcome_map (with_init b) (m w).

Definition grows {A : Type} (m : M A) : Prop :=
  forall w, exists evs, Bus (world_of (m w)) = Bus w ++ evs.

(** ** A chip that answers *)

(** A transport and chip on which every exchange succeeds, a status read
    that follows a write enable shows the write-enable latch set, and no
    status read shows a write in progress. *)
Record responsive (rw : s25fl06_rw_fptr_t) : Prop := mk_responsive {
  always_ok : forall tr tx n, fst (rw tr tx n) = S25FL064_NO_ERROR;
  latches :
    forall tr e rx tx,
      Z.land
        (idx (snd (exchange rw
                     (tr ++ [EvCS true; EvRW [S25FL064L_CMD_WREN] 0 e rx;
                             EvCS false; EvCS true])
                     (S25FL064L_CMD_RDSR1 :: tx) 2)) 1)
        (Z.shiftl 0x01 S25FL064L_BIT_WEL) <> 0;
  never_busy :
    forall tr tx,
      Z.land (idx (snd (exchange rw tr (S25FL064L_CMD_RDSR1 :: tx) 2)) 1)
        (Z.shiftl 0x01 S25FL064L_BIT_BUSY) = 0
}.

(** The pages [S25FL064L_Write] programs for [Length] bytes at [Address]:
    [Length / 256] full pages taken from the buffer in order and, unless
    that is all, one page more with the first [Length mod 256] bytes of the
    buffer. *)
Definition write_plan (Address : Z) (buf : list Z) (Length : Z)
  : list (Z * list Z) :=
  map (fun i =>
         (uint32 (Address + S25FL064L_PAGE_SIZE * Z.of_nat i),
          bytes_at buf (S25FL064L_PAGE_SIZE * Z.of_nat i)
            S25FL064L_PAGE_SIZE))
      (seq 0 (Z.to_nat (Length / S25FL064L_PAGE_SIZE)))
  ++ (if (Length mod S25FL064L_PAGE_SIZE =? 0)
         && (0 <? Length / S25FL064L_PAGE_SIZE)
      then []
      else [(uint32 (Address
                     + S25FL064L_PAGE_SIZE * (Length / S25FL064L_PAGE_SIZE)),
             bytes_at buf 0 (Length mod S25FL064L_PAGE_SIZE))]).

(** One poll of the status register as [S25FL064L_WaitBusy] leaves it on
    the log [tr] of a handle [d] with the transport [rw]. *)
Definition poll (d : s25fl064_t) (rw : s25fl06_rw_fptr_t) (tr : list event)
  : list event :=
  [EvCS true;
   EvRW [S25FL064L_CMD_RDSR1] 2
     (fst (exchange rw (tr ++ [EvCS true]) [S25FL064L_CMD_RDSR1] 2))
     (snd (exchange rw (tr ++ [EvCS true]) [S25FL064L_CMD_RDSR1] 2));
   EvCS false]
  ++ (if is_none (p_Busy d) then [] else [EvBusy]).

(** The same from inside the loop of [S25FL064L_Write], with [r] bytes
    remaining, the buffer at offset [t] and the flash at address [a]. *)
Definition loop_plan (buf : list Z) (r t a : Z) : list (Z * list Z) :=
  map (fun i =>
         (uint32 (a + 256 * Z.of_nat i),
          bytes_at buf (t + 256 * Z.of_nat i) 256))
      (seq 0 (Z.to_nat (r / 256)))
  ++ (if (r mod 256 =? 0) && (0 <? r / 256) then []
      else [(uint32 (a + 256 * (r / 256)), bytes_at buf 0 (r mod 256))]).

(** ** The block device of [filesystem.c]

    The four functions LittleFS is given.  [block_size] stands for
    [p_Config->block_size]; block, offset and size are the 32-bit unsigned
    integers of LittleFS, so the address is computed modulo [2 ^ 32].  The
    device is the file-scope [Flash], the one device structure of the
    world.  The result is the [int] returned. *)

Definition Flash_Read (block_size Block Offset : Z) (p_Buffer : ptr)
    (Size : Z) : M (Z * list Z) :=
  '(Err, data) <- S25FL064L_Read PTR
                    (uint32 (uint32 (Block * block_size) + Offset))
                    p_Buffer Size ;;
  if is_error Err then ret (-1, data) else ret (0, data).

Definition Flash_Write (polls : nat) (block_size Block Offset : Z)
    (p_Buffer : option (list Z)) (Size : Z) : M Z :=
  Err <- S25FL064L_Write polls PTR
           (uint32 (uint32 (Block * block_size) + Offset)) p_Buffer Size ;;
  if is_error Err then ret (-1) else ret 0.

Definition Flash_Erase (polls : nat) (block_size Block : Z) : M Z :=
  Err <- S25FL064L_EraseSector polls PTR (uint32 (Block * block_size)) ;;
  if is_error Err then ret (-1) else ret 0.

Definition Flash_Sync : M Z := ret 0.

(** [LFS_BUFFER_SIZE], the read, program, cache and lookahead size given to
    LittleFS. *)
Definition LFS_BUFFER_SIZE : Z := 128.

(** The two frames of a sector erase at [a], and of a chip erase, on a
    chip that answers. *)
Definition sector_erase_frames (a : Z) : list event :=
  [EvCS true; EvRW [S25FL064L_CMD_WREN] 0 S25FL064_NO_ERROR []; EvCS false;
   EvCS true;
   EvRW (S25FL064L_CMD_SE :: address_bytes a) 0 S25FL064_NO_ERROR [];
   EvCS false].

Definition chip_erase_frames : list event :=
  [EvCS true; EvRW [S25FL064L_CMD_WREN] 0 S25FL064_NO_ERROR []; EvCS false;
   EvCS true; EvRW [S25FL064L_CMD_CE] 0 S25FL064_NO_ERROR []; EvCS false].

(** The calls that write the handle. *)
Definition writes_handle (c : call) : bool :=
  match c with
  | Call_Init _ | Call_Reset _ | Call_EnterPowerDown _
  | Call_LeavePowerDown _ => true
  | _ => false
  end.

(** [keeps m]: whatever its outcome, [m] leaves the device structure, the
    flash parameters and the stack as they were. *)
Definition keeps {A : Type} (m : M A) : Prop :=
  forall w,
    Device (world_of (m w)) = Device w /\
    Params (world_of (m w)) = Params w /\
    Stack (world_of (m w)) = Stack w.

(** ** What a log shows of a call, in outline *)

(** The opcode of every exchange that carries one, and the calls of the
    reset function, in the order of the log. *)
Inductive action : Type :=
| Command_sent (opcode : Z)
| Chip_reset.

Definition actions (evs : list event) : list action :=
  flat_map (fun e =>
              match e with
              | EvRW (op :: _) _ _ _ => [Command_sent op]
              | EvReset => [Chip_reset]
              | _ => []
              end) evs.

Definition same_callbacks (d d' : s25fl064_t) : Prop :=
  p_Reset d' = p_Reset d /\ p_CS d' = p_CS d /\ p_RW d' = p_RW d /\
  p_Busy d' = p_Busy d.

(** [completes acts m w]: run from [w], [m] returns no error, having
    appended a log with the outline [acts] and kept the four functions of
    the handle. *)
Definition completes (acts : list action) (m : M s25fl064_error_t)
    (w : World) : Prop :=
  exists evs w',
    m w = Return S25FL064_NO_ERROR w' /\ Bus w' = Bus w ++ evs /\
    actions evs = acts /\ same_callbacks (Device w) (Device w').

(** A handle with the exchange function [rw], the chip-select function [c]
    and the reset function [r]. *)
Definition answering (rw : s25fl06_rw_fptr_t) (c r : callback) (w : World)
  : Prop :=
  p_RW (Device w) = Some rw /\ p_CS (Device w) = Some c /\
  p_Reset (Device w) = Some r.

(** ** Where an error code comes from *)

(** The status of every exchange of a log, in order. *)
Definition statuses (evs : list event) : list s25fl064_error_t :=
  flat_map (fun e =>
              match e with
              | EvRW _ _ err _ => [err]
              | _ => []
              end) evs.

(** [relays m Q]: when [m] returns [a], [Q a] holds of the statuses of the
    exchanges it has made. *)
Definition relays {A : Type} (m : M A)
    (Q : A -> list s25fl064_error_t -> Prop) : Prop :=
  forall w,
    match m w with
    | Return a w' => exists evs, Bus w' = Bus w ++ evs /\ Q a (statuses evs)
    | _ => True
    end.

(** The code [x] is returned only if an exchange answered it. *)
Definition handed_back (x e : s25fl064_error_t)
    (s : list s25fl064_error_t) : Prop :=
  e = x -> In x s.

(** A transport that answers every exchange with the status [e] and writes
    nothing. *)
Definition refusing (e : s25fl064_error_t) : s25fl06_rw_fptr_t :=
  fun _ _ _ => (e, []).


(** * Proofs *)

Lemma observe_from_app strict v a b :
  observe_from strict v (a ++ b) = observe_from strict (observe_from strict v a) b.
Proof. unfold observe_from. apply fold_left_app. Qed.

(** ** A logic of the bus view

    [vt v m Q]: from any world, the events [m] appends to the bus log take
    the view [v] to a view that satisfies [Q] ([Q None] for a spin); a
    fault too only appends to the log. *)

Lemma vt_ret {A} (a : A) v (Q : option A -> view -> Prop) :
  Q (Some a) v -> vt v (ret a) Q.
Proof. intros H w. exists []. now rewrite app_nil_r. Qed.

Lemma vt_spin {A} v (Q : option A -> view -> Prop) :
  Q None v -> vt v spin Q.
Proof. intros H w. exists []. now rewrite app_nil_r. Qed.

Lemma vt_fault {A} v (Q : option A -> view -> Prop) : vt v fault Q.
Proof. intros w. exists []. cbn. now rewrite app_nil_r. Qed.

Lemma vt_bind {A B} (m : M A) (k : A -> M B) v (Q : option B -> view -> Prop) :
  vt v m (fun oa v1 => match oa with
                       | Some a => vt v1 (k a) Q
                       | None => Q None v1
                       end) ->
  vt v (bind m k) Q.
Proof.
  intros H w. specialize (H w). unfold bind.
  destruct (m w) as [a w1 | w1 | w1]; auto.
  destruct H as (evs & Hb & Hk). specialize (Hk w1).
  destruct (k a w1) as [b w2 | w2 | w2].
  - destruct Hk as (evs2 & Hb2 & HQ). exists (evs ++ evs2).
    rewrite Hb2, Hb, app_assoc, observe_from_app. auto.
  - destruct Hk as (evs2 & Hb2). exists (evs ++ evs2).
    now rewrite Hb2, Hb, app_assoc.
  - destruct Hk as (evs2 & Hb2 & HQ). exists (evs ++ evs2).
    rewrite Hb2, Hb, app_assoc, observe_from_app. auto.
Qed.

Lemma vt_conseq {A} (m : M A) v (Q Q' : option A -> view -> Prop) :
  vt v m Q -> (forall oa v', Q oa v' -> Q' oa v') -> vt v m Q'.
Proof.
  intros H HQ w. specialize (H w).
  destruct (m w); auto; destruct H as (evs & ? & ?); eauto.
Qed.

Lemma vt_load p v (Q : option s25fl064_t -> view -> Prop) :
  (forall d, Q (Some d) v) -> vt v (load p) Q.
Proof.
  intros H w. unfold load. destruct p; exists []; now rewrite app_nil_r.
Qed.

Lemma vt_store p f v (Q : option unit -> view -> Prop) :
  Q (Some tt) v -> vt v (store p f) Q.
Proof.
  intros H w. unfold store. destruct p; exists []; cbn; now rewrite app_nil_r.
Qed.

Lemma vt_store_Params x v (Q : option unit -> view -> Prop) :
  Q (Some tt) v -> vt v (store_Params x) Q.
Proof. intros H w. exists []. cbn. now rewrite app_nil_r. Qed.

Lemma vt_automatic n v (Q : option (list Z) -> view -> Prop) :
  (forall l, Q (Some l) v) -> vt v (automatic n) Q.
Proof. intros H w. exists []. cbn. now rewrite app_nil_r. Qed.

Lemma vt_log {A} (a : A) e v (Q : option A -> view -> Prop) :
  Q (Some a) (observe_step false v e) ->
  vt v (fun w => Return a (log e w)) Q.
Proof. intros H w. exists [e]. auto. Qed.

Lemma vt_call_CS p b v (Q : option unit -> view -> Prop) :
  Q (Some tt) (observe_step false v (EvCS b)) -> vt v (call_CS p b) Q.
Proof.
  intros H. unfold call_CS. apply vt_bind, vt_load. intros d.
  destruct (p_CS d); [now apply vt_log | apply vt_fault].
Qed.

Lemma vt_call_Busy p v (Q : option unit -> view -> Prop) :
  Q (Some tt) v -> vt v (call_Busy p) Q.
Proof.
  intros H. unfold call_Busy. apply vt_bind, vt_load. intros d.
  destruct (p_Busy d); [now apply vt_log | apply vt_fault].
Qed.

Lemma vt_call_Reset p v (Q : option unit -> view -> Prop) :
  Q (Some tt) (observe_step false v EvReset) -> vt v (call_Reset p) Q.
Proof.
  intros H. unfold call_Reset. apply vt_bind, vt_load. intros d.
  destruct (p_Reset d); [now apply vt_log | apply vt_fault].
Qed.

Lemma vt_call_RW p tx n v (Q : option (s25fl064_error_t * list Z) -> view -> Prop) :
  (forall e rx, Q (Some (e, rx)) (observe_step false v (EvRW tx n e rx))) ->
  vt v (call_RW p tx n) Q.
Proof.
  intros H. unfold call_RW. apply vt_bind, vt_load. intros d.
  destruct (p_RW d) as [rw|]; [|apply vt_fault].
  intros w. destruct (rw (Bus w) tx n) as [e rx].
  eexists [_]. split; [reflexivity|]. apply H.
Qed.

Lemma vt_call_RW_UID p v (Q : option s25fl064_error_t -> view -> Prop) :
  (forall e rx, Q (Some e) (observe_step false v (EvRW [] 8 e rx))) ->
  vt v (call_RW_UID p) Q.
Proof.
  intros H. unfold call_RW_UID. apply vt_bind, vt_load. intros d.
  destruct (p_RW d) as [rw|]; [|apply vt_fault].
  intros w. destruct (rw (Bus w) [] 8) as [e rx].
  eexists [_]. split; [reflexivity|]. apply H.
Qed.

Lemma vt_no_transport p v (Q : option bool -> view -> Prop) :
  (forall b, Q (Some b) v) -> vt v (no_transport p) Q.
Proof.
  intros H. unfold no_transport. destruct (is_null p).
  - now apply vt_ret.
  - apply vt_bind, vt_load. intros d. now apply vt_ret.
Qed.

Lemma vt_Command p tx pd n v
    (Q : option (s25fl064_error_t * list Z) -> view -> Prop) :
  Q (Some (S25FL064_INVALID_PARAM, [])) v ->
  (forall e rx, Q (Some (e, rx)) (framed v tx n e rx)) ->
  vt v (S25FL064L_Command p tx pd n) Q.
Proof.
  intros Hi Hf. unfold S25FL064L_Command.
  apply vt_bind, vt_no_transport. intros b.
  destruct (b || _); [now apply vt_ret|].
  apply vt_bind, vt_call_CS, vt_bind, vt_call_RW. intros e rx.
  destruct (is_error e); apply vt_bind, vt_call_CS, vt_ret, Hf.
Qed.

Arguments vt : simpl never.

Lemma quiet_refl v : line v = Released -> quiet v v.
Proof. unfold quiet. auto. Qed.

Lemma quiet_trans v1 v2 v3 : quiet v1 v2 -> quiet v2 v3 -> quiet v1 v3.
Proof. unfold quiet. intros (?&?&?) (?&?&?). repeat split; auto; congruence. Qed.

Lemma quiet_guarded v oe v' : quiet v v' -> guarded v oe v'.
Proof.
  unfold quiet, guarded. intros (?&?&H). repeat split; auto.
  intros Hl Hc. rewrite (H Hl) in Hc. discriminate.
Qed.

Ltac vt_step :=
  lazymatch goal with
  | |- vt _ (bind _ _) _ => apply vt_bind
  | |- vt _ (ret _) _ => apply vt_ret
  | |- vt _ spin _ => apply vt_spin
  | |- vt _ fault _ => apply vt_fault
  | |- vt _ (call_CS _ _) _ => apply vt_call_CS
  | |- vt _ (call_Busy _) _ => apply vt_call_Busy
  | |- vt _ (call_Reset _) _ => apply vt_call_Reset
  | |- vt _ (call_RW _ _ _) _ => apply vt_call_RW; intros ? ?
  | |- vt _ (call_RW_UID _) _ => apply vt_call_RW_UID; intros ? ?
  | |- vt _ (store _ _) _ => apply vt_store
  | |- vt _ (store_Params _) _ => apply vt_store_Params
  | |- vt _ (load _) _ => apply vt_load; intros ?
  | |- vt _ (automatic _) _ => apply vt_automatic; intros ?
  | |- vt _ (no_transport _) _ => apply vt_no_transport; intros ?
  | |- vt _ (S25FL064L_Command _ _ _ _) _ => apply vt_Command; [|intros ? ?]
  | |- vt ?v (if true then ?x else _) ?Q => change (vt v x Q)
  | |- vt ?v (if false then _ else ?y) ?Q => change (vt v y Q)
  | |- vt _ (if ?b then _ else _) _ => destruct b eqn:?
  | |- vt _ (match ?x with _ => _ end) _ => destruct x
  end.

Ltac vt_run :=
  repeat (vt_step; cbn beta iota; cbn [is_error error_of_bool fst snd]).

Lemma vt_WaitBusy polls p v :
  line v = Released ->
  vt v (S25FL064L_WaitBusy polls p) (fun _ v' => quiet v v').
Proof.
  revert v. induction polls as [|polls IH]; intros v Hv; cbn [S25FL064L_WaitBusy].
  - apply vt_spin. now apply quiet_refl.
  - assert (Hq : forall e rx, quiet v (framed v [S25FL064L_CMD_RDSR1] 2 e rx)).
    { intros e rx. unfold quiet, framed. cbn. repeat split.
      intros ->. reflexivity. }
    vt_run; try (now apply quiet_refl); try apply Hq.
    all: eapply vt_conseq; [apply IH; apply Hq|].
    all: cbn beta; intros _ v'; apply quiet_trans, Hq.
Qed.

Ltac vt_call L :=
  eapply vt_conseq;
  [ apply L;
    first [assumption | reflexivity | unfold framed; cbn; reflexivity | idtac]
  | cbn beta; intros [?|] ? (? & ? & ?) ].

#[local] Arguments Z.testbit : simpl never.

Ltac use_tests :=
  repeat match goal with
         | H : negb _ = false |- _ => apply negb_false_iff in H
         | H : negb _ = true |- _ => apply negb_true_iff in H
         | H : is_error ?e = _ |- context [is_error ?e] => rewrite H
         | H : Z.testbit ?x ?n = _ |- context [Z.testbit ?x ?n] => rewrite H
         | H : is_error ?e = _, H' : context [is_error ?e] |- _ =>
             rewrite H in H'
         | H : Z.testbit ?x ?n = _, H' : context [Z.testbit ?x ?n] |- _ =>
             rewrite H in H'
         end.

Ltac view_close :=
  unfold quiet, guarded, framed in *; cbn in *; use_tests; cbn;
  rewrite ?Nat.add_0_r in *;
  intuition (subst; cbn in *; try congruence).

Lemma vt_ReadID p v :
  line v = Released ->
  vt v (S25FL064L_ReadID p) (fun _ v' => quiet v v').
Proof. intros Hv. unfold S25FL064L_ReadID. vt_run; solve [view_close]. Qed.

Lemma vt_ReadUID p v :
  line v = Released ->
  vt v (S25FL064L_ReadUID p) (fun _ v' => quiet v v').
Proof. intros Hv. unfold S25FL064L_ReadUID. vt_run; solve [view_close]. Qed.

Lemma vt_ReadJEDEC p v :
  line v = Released ->
  vt v (S25FL064L_ReadJEDEC p) (fun _ v' => quiet v v').
Proof. intros Hv. unfold S25FL064L_ReadJEDEC. vt_run; solve [view_close]. Qed.

Lemma vt_Reset p v :
  line v = Released ->
  vt v (S25FL064L_Reset p) (fun _ v' => quiet v v').
Proof. intros Hv. unfold S25FL064L_Reset. vt_run; solve [view_close]. Qed.

Lemma vt_EnterPowerDown p v :
  line v = Released ->
  vt v (S25FL064L_EnterPowerDown p) (fun _ v' => quiet v v').
Proof. intros Hv. unfold S25FL064L_EnterPowerDown. vt_run; solve [view_close]. Qed.

Lemma vt_LeavePowerDown polls p v :
  line v = Released ->
  vt v (S25FL064L_LeavePowerDown polls p) (fun _ v' => quiet v v').
Proof.
  intros Hv. unfold S25FL064L_LeavePowerDown. vt_run; try solve [view_close].
  vt_call vt_WaitBusy; vt_run; solve [view_close].
Qed.

Lemma vt_orelse a b v :
  line v = Released ->
  (forall v0, line v0 = Released -> vt v0 a (fun _ v' => quiet v0 v')) ->
  (forall v0, line v0 = Released -> vt v0 b (fun _ v' => quiet v0 v')) ->
  vt v (orelse a b) (fun _ v' => quiet v v').
Proof.
  intros Hv Ha Hb. unfold orelse. vt_step.
  vt_call Ha; vt_run; try solve [view_close].
  vt_call Hb; vt_run; solve [view_close].
Qed.

Lemma vt_Init polls p v :
  line v = Released ->
  vt v (S25FL064L_Init polls p) (fun _ v' => quiet v v').
Proof.
  intros Hv. unfold S25FL064L_Init. vt_run.
  vt_call vt_LeavePowerDown; vt_run; try solve [view_close].
  vt_call vt_Reset; vt_run; try solve [view_close].
  vt_call vt_orelse;
    try (intros; first [apply vt_orelse | apply vt_ReadJEDEC]; auto;
         intros; first [apply vt_ReadID | apply vt_ReadUID]; auto).
  all: vt_run; solve [view_close].
Qed.

Lemma vt_GetError p pe v :
  line v = Released ->
  vt v (S25FL064L_GetError p pe) (fun _ v' => quiet v v').
Proof. intros Hv. unfold S25FL064L_GetError. vt_run; solve [view_close]. Qed.

Lemma Read_budget r : 255 < r -> (r - 255) / 255 = r / 255 - 1.
Proof.
  intros H. replace r with ((r - 255) + 1 * 255) at 2 by lia.
  rewrite Z.div_add by lia. lia.
Qed.

Lemma vt_Read_loop chunks p r acc v :
  line v = Streaming ->
  r / 255 <= Z.of_nat chunks ->
  vt v (Read_loop (S chunks) p r acc)
    (fun oa v' => oa <> None /\ line v' = Released /\
                  unguarded v' = unguarded v /\ latch v' = latch v).
Proof.
  revert r acc v. induction chunks as [|chunks IH]; intros r acc v Hv Hr;
    destruct v as [l la n]; cbn in Hv; subst l.
  - cbn [Read_loop]. vt_run; cbn; try (repeat split; auto; discriminate).
    all: exfalso.
    all: destruct (255 <? r) eqn:E;
      [apply Z.ltb_lt in E | apply Z.ltb_ge in E].
    all: try (assert (1 <= r / 255) by (apply Z.div_le_lower_bound; lia); lia).
    all: unfold uint8 in *; apply Z.ltb_lt in Heqb0.
    all: pose proof (Z.mod_pos_bound r (2 ^ 8) ltac:(lia)).
    all: assert (r <= 0 \/ 0 < r) as [Hn|Hp] by lia;
      [lia | rewrite Z.mod_small in Heqb0 by lia; lia].
  - remember (S chunks) as c eqn:Ec. cbn [Read_loop]. subst c.
    vt_run; cbn; try (repeat split; auto; discriminate).
    all: destruct (255 <? r) eqn:E;
      [apply Z.ltb_lt in E | apply Z.ltb_ge in E].
    all: try (apply IH; [reflexivity | rewrite Read_budget by lia; lia]).
    all: exfalso.
    all: unfold uint8 in *; apply Z.ltb_lt in Heqb0.
    all: pose proof (Z.mod_pos_bound r (2 ^ 8) ltac:(lia)).
    all: assert (r <= 0 \/ 0 < r) as [Hn|Hp] by lia;
      [lia | rewrite Z.mod_small in Heqb0 by lia; lia].
Qed.

Lemma vt_Read p s b l v :
  line v = Released ->
  vt v (S25FL064L_Read p s b l) (fun oa v' => quiet v v').
Proof.
  intros Hv. unfold S25FL064L_Read. vt_run; try solve [view_close].
  eapply vt_conseq.
  - apply vt_Read_loop; [reflexivity|]. lia.
  - cbn. unfold quiet. intros oa v' (H0 & H1 & H2 & H3). rewrite H3. auto.
Qed.

Lemma land_wel_testbit x :
  (Z.land x (Z.shiftl 0x01 S25FL064L_BIT_WEL) =? 0) = negb (Z.testbit x 1).
Proof.
  change (Z.shiftl 0x01 S25FL064L_BIT_WEL) with (2 ^ 1).
  destruct (Z.testbit x 1) eqn:E; cbn [negb].
  - apply Z.eqb_neq. intros H.
    assert (Z.testbit (Z.land x (2 ^ 1)) 1 = false) by (rewrite H; apply Z.testbit_0_l).
    rewrite Z.land_spec, E, Z.pow2_bits_true in H0 by lia. discriminate.
  - apply Z.eqb_eq. apply Z.bits_inj'. intros n Hn.
    rewrite Z.land_spec, Z.testbit_0_l.
    destruct (Z.eq_dec n 1) as [->|Hne].
    + rewrite E. reflexivity.
    + rewrite Z.pow2_bits_false by lia. apply andb_false_r.
Qed.

Lemma vt_EraseSector polls p a v :
  line v = Released ->
  vt v (S25FL064L_EraseSector polls p a) (guarded v).
Proof.
  intros Hv. unfold S25FL064L_EraseSector. vt_run; try solve [view_close].
  vt_call vt_WaitBusy; vt_run; solve [view_close].
Qed.

Lemma vt_EraseChip polls p v :
  line v = Released ->
  vt v (S25FL064L_EraseChip polls p) (guarded v).
Proof.
  intros Hv. unfold S25FL064L_EraseChip. vt_run; try solve [view_close].
  all: vt_call vt_WaitBusy; vt_run; solve [view_close].
Qed.

Lemma Write_budget r : 256 <= r -> (r - 256) / 256 = r / 256 - 1.
Proof.
  intros H. replace r with ((r - 256) + 1 * 256) at 2 by lia.
  rewrite Z.div_add by lia. lia.
Qed.

Lemma vt_Write_page polls p buf r t a n :
  vt (mk_view Streaming NoWren n) (Write_page polls p buf r t a)
    (fun oa v' =>
       line v' = Released /\ unguarded v' = n /\ latch v' = NoWren /\
       match oa with
       | Some (inr (r', _, _)) =>
           r' = if S25FL064L_PAGE_SIZE <=? r then r - S25FL064L_PAGE_SIZE
                else 0
       | _ => True
       end).
Proof.
  unfold Write_page, orelse. vt_run; cbn; auto.
  all: vt_call vt_WaitBusy; vt_run; cbn in *; intuition (try congruence; try lia).
Qed.

Lemma vt_Write_loop pages polls p buf tx r t a v :
  line v = Released ->
  vt v (Write_loop pages polls p buf tx r t a) (guarded v).
Proof.
  revert tx r t a v.
  induction pages as [|pages IH]; intros tx r t a v Hv; cbn [Write_loop].
  - apply vt_spin. view_close.
  - vt_run; try solve [view_close].
    all: rewrite land_wel_testbit in *.
    all: try solve [view_close].
    all: unfold framed; cbn; use_tests; cbn.
    all: rewrite ?Nat.add_0_r; try solve [view_close].
    all: eapply vt_conseq; [apply vt_Write_page|].
    all: cbn beta; intros [[?|[[r' ?] ?]]|] v' (? & ? & ? & ?); vt_run;
      try solve [view_close].
    + eapply vt_conseq; [apply IH; reflexivity|]. view_close.
    + vt_call vt_WaitBusy; view_close.
Qed.

Lemma vt_Write polls p a b l v :
  line v = Released ->
  vt v (S25FL064L_Write polls p a b l) (guarded v).
Proof.
  intros Hv. unfold S25FL064L_Write.
  destruct p; [vt_run; solve [view_close]|].
  destruct b as [buf|]; [|vt_run; solve [view_close]].
  vt_run. now apply vt_Write_loop.
Qed.

Lemma vt_run_call polls c v :
  line v = Released -> vt v (run polls c) (guarded v).
Proof.
  intros Hv. destruct c; cbn [run].
  - eapply vt_conseq; [now apply vt_Init|]. intros; now apply quiet_guarded.
  - vt_step. eapply vt_conseq; [now apply vt_GetError|].
    cbn beta. intros [?|] v' H; [apply vt_ret|]; now apply quiet_guarded.
  - eapply vt_conseq; [now apply vt_Reset|]. intros; now apply quiet_guarded.
  - eapply vt_conseq; [now apply vt_EnterPowerDown|].
    intros; now apply quiet_guarded.
  - eapply vt_conseq; [now apply vt_LeavePowerDown|].
    intros; now apply quiet_guarded.
  - now apply vt_EraseSector.
  - now apply vt_EraseChip.
  - now apply vt_Write.
  - vt_step. eapply vt_conseq; [now apply vt_Read|].
    cbn beta. intros [?|] v' H; [apply vt_ret|]; now apply quiet_guarded.
Qed.

Lemma observe_app strict a b :
  observe strict (a ++ b) = observe_from strict (observe strict a) b.
Proof. apply observe_from_app. Qed.

Lemma selected_line tr :
  selected tr = false <-> line (observe false tr) = Released.
Proof.
  unfold selected. destruct (line (observe false tr)); intuition congruence.
Qed.

(** ** Chip select *)

(** C10: every public operation leaves chip select released.  Started with
    chip select released, a call that returns has released it again, on
    every return path; the same holds at every point where the call is
    still polling the busy flag. *)
Theorem chip_select_released polls c w w' :
  selected (Bus w) = false ->
  (exists e, run polls c w = Return e w') \/ run polls c w = Spin w' ->
  selected (Bus w') = false.
Proof.
  intros Hs Hr. apply selected_line in Hs. apply selected_line.
  pose proof (vt_run_call polls c _ Hs w) as H.
  destruct Hr as [[e Hr]|Hr]; rewrite Hr in H;
    destruct H as (evs & -> & Hg & _); now rewrite observe_app.
Qed.

Lemma chip_select_released_witness :
  selected (Bus (bench (Some ready_chip))) = false /\
  selected
    (Bus (world_of (run 2 (Call_Write PTR 0x1000 (Some [1; 2; 3]) 3)
                      (bench (Some ready_chip))))) = false.
Proof.
  split; [reflexivity|].
  apply (chip_select_released 2 (Call_Write PTR 0x1000 (Some [1; 2; 3]) 3)
           (bench (Some ready_chip))); [reflexivity|].
  left. exists S25FL064_NO_ERROR. vm_compute. reflexivity.
Defined.

(** ** A logic of the device structure

    [dt d m Q]: run from a world whose device structure is [d], a return of
    [m] with result [a] leaves a device structure that satisfies [Q a]. *)

Arguments dt : simpl never.

Lemma dt_ret {A} (a : A) d (Q : A -> s25fl064_t -> Prop) :
  Q a d -> dt d (ret a) Q.
Proof. intros H w <-. exact H. Qed.

Lemma dt_spin {A} d (Q : A -> s25fl064_t -> Prop) : dt d spin Q.
Proof. intros w _. exact I. Qed.

Lemma dt_fault {A} d (Q : A -> s25fl064_t -> Prop) : dt d fault Q.
Proof. intros w _. exact I. Qed.

Lemma dt_bind {A B} (m : M A) (k : A -> M B) d (Q : B -> s25fl064_t -> Prop) :
  dt d m (fun a d1 => dt d1 (k a) Q) -> dt d (bind m k) Q.
Proof.
  intros H w Hw. specialize (H w Hw). unfold bind.
  destruct (m w) as [a w1 | w1 | w1]; auto.
  exact (H w1 eq_refl).
Qed.

Lemma dt_conseq {A} (m : M A) d (Q Q' : A -> s25fl064_t -> Prop) :
  dt d m Q -> (forall a d', Q a d' -> Q' a d') -> dt d m Q'.
Proof.
  intros H HQ w Hw. specialize (H w Hw). destruct (m w); auto.
Qed.

Lemma dt_load p d (Q : s25fl064_t -> s25fl064_t -> Prop) :
  Q d d -> dt d (load p) Q.
Proof. intros H w <-. unfold load. destruct p; auto. Qed.

Lemma dt_store p f d (Q : unit -> s25fl064_t -> Prop) :
  Q tt (f d) -> dt d (store p f) Q.
Proof. intros H w <-. unfold store. destruct p; auto. Qed.

Lemma dt_store_Params x d (Q : unit -> s25fl064_t -> Prop) :
  Q tt d -> dt d (store_Params x) Q.
Proof. intros H w <-. exact H. Qed.

Lemma dt_automatic n d (Q : list Z -> s25fl064_t -> Prop) :
  (forall l, Q l d) -> dt d (automatic n) Q.
Proof. intros H w <-. apply H. Qed.

Lemma dt_log {A} (a : A) e d (Q : A -> s25fl064_t -> Prop) :
  Q a d -> dt d (fun w => Return a (log e w)) Q.
Proof. intros H w <-. exact H. Qed.

Lemma dt_call_CS p b d (Q : unit -> s25fl064_t -> Prop) :
  Q tt d -> dt d (call_CS p b) Q.
Proof.
  intros H. unfold call_CS. apply dt_bind, dt_load.
  destruct (p_CS d); [now apply dt_log | apply dt_fault].
Qed.

Lemma dt_call_Busy p d (Q : unit -> s25fl064_t -> Prop) :
  Q tt d -> dt d (call_Busy p) Q.
Proof.
  intros H. unfold call_Busy. apply dt_bind, dt_load.
  destruct (p_Busy d); [now apply dt_log | apply dt_fault].
Qed.

Lemma dt_call_Reset p d (Q : unit -> s25fl064_t -> Prop) :
  Q tt d -> dt d (call_Reset p) Q.
Proof.
  intros H. unfold call_Reset. apply dt_bind, dt_load.
  destruct (p_Reset d); [now apply dt_log | apply dt_fault].
Qed.

Lemma dt_call_RW p tx n d (Q : s25fl064_error_t * list Z -> s25fl064_t -> Prop) :
  (forall e rx, Q (e, rx) d) -> dt d (call_RW p tx n) Q.
Proof.
  intros H. unfold call_RW. apply dt_bind, dt_load.
  destruct (p_RW d) as [rw|]; [|apply dt_fault].
  intros w <-. destruct (rw (Bus w) tx n) as [e rx]. apply H.
Qed.

Lemma dt_call_RW_UID p d (Q : s25fl064_error_t -> s25fl064_t -> Prop) :
  (forall e u, Q e (set_UID u d)) -> dt d (call_RW_UID p) Q.
Proof.
  intros H. unfold call_RW_UID. apply dt_bind, dt_load.
  destruct (p_RW d) as [rw|]; [|apply dt_fault].
  intros w <-. destruct (rw (Bus w) [] 8) as [e rx]. apply H.
Qed.

Lemma dt_no_transport p d (Q : bool -> s25fl064_t -> Prop) :
  (forall b, Q b d) -> dt d (no_transport p) Q.
Proof.
  intros H. unfold no_transport. destruct (is_null p).
  - now apply dt_ret.
  - apply dt_bind, dt_load. now apply dt_ret.
Qed.

Lemma dt_Command p tx pd n d
    (Q : s25fl064_error_t * list Z -> s25fl064_t -> Prop) :
  (forall e rx, Q (e, rx) d) -> dt d (S25FL064L_Command p tx pd n) Q.
Proof.
  intros H. unfold S25FL064L_Command.
  apply dt_bind, dt_no_transport. intros b.
  destruct (b || _); [now apply dt_ret|].
  apply dt_bind, dt_call_CS, dt_bind, dt_call_RW. intros e rx.
  destruct (is_error e); apply dt_bind, dt_call_CS, dt_ret, H.
Qed.

Lemma dt_WaitBusy polls p d (Q : s25fl064_error_t -> s25fl064_t -> Prop) :
  (forall e, Q e d) -> dt d (S25FL064L_WaitBusy polls p) Q.
Proof.
  intros H. induction polls as [|polls IH]; cbn [S25FL064L_WaitBusy].
  - apply dt_spin.
  - apply dt_bind, dt_Command. intros e rx.
    destruct (is_error e); [now apply dt_ret|].
    apply dt_bind, dt_load, dt_bind.
    destruct (is_none (p_Busy d)); [apply dt_ret|apply dt_call_Busy];
      (destruct (negb _); [exact IH | now apply dt_ret]).
Qed.

Ltac dt_step :=
  lazymatch goal with
  | |- dt _ (bind _ _) _ => apply dt_bind
  | |- dt _ (ret _) _ => apply dt_ret
  | |- dt _ spin _ => apply dt_spin
  | |- dt _ fault _ => apply dt_fault
  | |- dt _ (call_CS _ _) _ => apply dt_call_CS
  | |- dt _ (call_Busy _) _ => apply dt_call_Busy
  | |- dt _ (call_Reset _) _ => apply dt_call_Reset
  | |- dt _ (call_RW _ _ _) _ => apply dt_call_RW; intros ? ?
  | |- dt _ (call_RW_UID _) _ => apply dt_call_RW_UID; intros ? ?
  | |- dt _ (store _ _) _ => apply dt_store
  | |- dt _ (store_Params _) _ => apply dt_store_Params
  | |- dt _ (load _) _ => apply dt_load
  | |- dt _ (automatic _) _ => apply dt_automatic; intros ?
  | |- dt _ (no_transport _) _ => apply dt_no_transport; intros ?
  | |- dt _ (S25FL064L_Command _ _ _ _) _ => apply dt_Command; intros ? ?
  | |- dt _ (S25FL064L_WaitBusy _ _) _ => apply dt_WaitBusy; intros ?
  | |- dt ?d (if true then ?x else _) ?Q => change (dt d x Q)
  | |- dt ?d (if false then _ else ?y) ?Q => change (dt d y Q)
  | |- dt _ (if ?b then _ else _) _ => destruct b eqn:?
  | |- dt _ (match ?x with _ => _ end) _ => destruct x
  end.

Ltac dt_run :=
  repeat (dt_step; cbn beta iota; cbn [is_error error_of_bool fst snd]).

Lemma dt_Init polls p d :
  dt d (S25FL064L_Init polls p)
    (fun e d' =>
       if is_error e then isInitialized d' = false /\ same_geometry d d'
       else isInitialized d' = true /\ isPowerDown d' = false /\
            isWriteProtect d' = false /\ isShortAddress d' = false /\
            BlockSize d' = S25FL064L_SECTOR_SIZE /\
            Blocks d' = S25FL064L_SECTOR_COUNT).
Proof.
  unfold S25FL064L_Init, S25FL064L_LeavePowerDown, S25FL064L_Reset, orelse,
    S25FL064L_ReadID, S25FL064L_ReadUID, S25FL064L_ReadJEDEC.
  dt_run.
  all: repeat match goal with
         | H : is_error ?e = _ |- context [is_error ?e] => rewrite H
         end; cbn [is_error error_of_bool].
  all: unfold same_geometry; cbn; repeat split.
Qed.

Lemma dt_FileSystem_Init polls rw ec wd d :
  dt d (FileSystem_Init polls rw ec wd)
    (fun r d' =>
       r = NRF_SUCCESS <->
       DID d' = S25FL064L_DEVICE_ID /\ isInitialized d' = true).
Proof.
  unfold FileSystem_Init. dt_step. dt_step. cbn beta. dt_step.
  eapply dt_conseq; [apply dt_Init|]. cbn beta. intros e d1 H.
  dt_step. dt_step. cbn beta.
  destruct (is_error e) eqn:He; cbn [orb].
  - apply dt_ret. destruct H as [H _]. rewrite H. split; [discriminate|].
    intros [_ ?]. discriminate.
  - destruct H as [H _]. rewrite H. cbn [negb orb].
    destruct (DID d1 =? S25FL064L_DEVICE_ID) eqn:E; cbn [negb orb];
      apply dt_ret.
    + apply Z.eqb_eq in E. tauto.
    + apply Z.eqb_neq in E. split; [discriminate|]. tauto.
Qed.

(** ** Initialization *)

(** C5, as the code has it: when [S25FL064L_Init] returns an error, the
    handle has [isInitialized] false (it is cleared on entry), and the
    block size, block count, [isWriteProtect], [isShortAddress], [isQPI],
    impedance and transport are what they were; the identity fields and
    [isPowerDown] may have been written by the steps that succeeded.  When
    it returns no error, [isInitialized] is true and [isPowerDown] and
    [isWriteProtect] are false. *)
Theorem Init_flags polls p w e w' :
  S25FL064L_Init polls p w = Return e w' ->
  if is_error e then
    isInitialized (Device w') = false /\ same_geometry (Device w) (Device w')
  else
    isInitialized (Device w') = true /\ isPowerDown (Device w') = false /\
    isWriteProtect (Device w') = false.
Proof.
  intros H. pose proof (dt_Init polls p (Device w) w eq_refl) as Hd.
  rewrite H in Hd. destruct (is_error e); tauto.
Qed.

Lemma Init_flags_witness :
  let w := used_handle (Some (failing_at S25FL064L_CMD_RSFDP ready_chip)) in
  let w' := world_of (S25FL064L_Init 1 PTR w) in
  S25FL064L_Init 1 PTR w = Return S25FL064_INVALID_PARAM w' /\
  isInitialized (Device w') = false /\ same_geometry (Device w) (Device w').
Proof.
  intros w w'.
  assert (H : S25FL064L_Init 1 PTR w = Return S25FL064_INVALID_PARAM w')
    by (vm_compute; reflexivity).
  exact (conj H (Init_flags 1 PTR w S25FL064_INVALID_PARAM w' H)).
Defined.

(** C5 as stated fails: the failed call above has changed the handle, its
    [isInitialized] and [isPowerDown] flags and its identity fields. *)
Lemma Init_failure_changes_state :
  let w := used_handle (Some (failing_at S25FL064L_CMD_RSFDP ready_chip)) in
  let o := S25FL064L_Init 1 PTR w in
  result_of o = Some S25FL064_INVALID_PARAM /\
  isInitialized (Device w) = true /\
  isInitialized (Device (world_of o)) = false /\
  isPowerDown (Device w) = true /\
  isPowerDown (Device (world_of o)) = false /\
  DID (Device w) = 0 /\ DID (Device (world_of o)) = 0x6017.
Proof. vm_compute. repeat split. Qed.

(** C6 as stated fails: a chip that answers the identity read with 0x1234
    is initialized all the same, and gets its block size and count. *)
Lemma Init_with_foreign_identity :
  let w := bench (Some (bench_chip 0x02 0x00 0x00 0x1234)) in
  let o := S25FL064L_Init 1 PTR w in
  result_of o = Some S25FL064_NO_ERROR /\
  DID (Device (world_of o)) = 0x1234 /\
  isInitialized (Device (world_of o)) = true /\
  BlockSize (Device w) = 0 /\
  BlockSize (Device (world_of o)) = 4096 /\
  Blocks (Device (world_of o)) = 2048 /\
  result_of (FileSystem_Init 1 (bench_chip 0x02 0x00 0x00 0x1234) false 0 w)
  = Some NRF_ERROR_NO_MEM.
Proof. vm_compute. repeat split. Qed.

(** C4: the address-length bit of configuration register 2 is read and
    then not used.  On a chip that reports the bit clear (three-byte
    addresses) and on one that reports it set, a successful
    [S25FL064L_Init] leaves [isShortAddress] false all the same, also on a
    handle that had it true; a read that follows sends four address
    bytes. *)
Theorem Init_loses_address_mode :
  let clear := used_handle (Some (bench_chip 0x02 0x00 0x00 0x6017)) in
  let set := used_handle (Some (bench_chip 0x02 0x00 0x01 0x6017)) in
  result_of (S25FL064L_Init 1 PTR clear) = Some S25FL064_NO_ERROR /\
  isShortAddress (Device clear) = true /\
  isShortAddress (Device (world_of (S25FL064L_Init 1 PTR clear))) = false /\
  result_of (S25FL064L_Init 1 PTR set) = Some S25FL064_NO_ERROR /\
  isShortAddress (Device (world_of (S25FL064L_Init 1 PTR set))) = false /\
  nth_error
    (Bus (world_of
            ((S25FL064L_Init 1 PTR ;; S25FL064L_Read PTR 0x123456 PTR 1) clear)))
    23
  = Some (EvRW [S25FL064L_CMD_4READ; 0x00; 0x12; 0x34; 0x56] 0
            S25FL064_NO_ERROR []).
Proof. vm_compute. repeat split. Qed.

(** ** The [isInitialized] flag and the data operations *)

Lemma blind_ret {A} b (a : A) : blind b (ret a).
Proof. intros w. reflexivity. Qed.

Lemma blind_spin {A} b : blind b (@spin A).
Proof. intros w. reflexivity. Qed.

Lemma blind_fault {A} b : blind b (@fault A).
Proof. intros w. reflexivity. Qed.

Lemma blind_bind {A B} b (m : M A) (k : A -> M B) :
  blind b m -> (forall a, blind b (k a)) -> blind b (bind m k).
Proof.
  intros Hm Hk w. unfold bind. rewrite Hm.
  destruct (m w) as [a w1|w1|w1]; cbn [outcome_map];
    [apply Hk | reflexivity | reflexivity].
Qed.

(** Reading the handle is not blind, but reading a field other than the
    flag is. *)
Lemma blind_load_bind {A} b p (k : s25fl064_t -> M A) :
  (forall d, k (set_isInitialized b d) = k d) ->
  (forall d, blind b (k d)) ->
  blind b (bind (load p) k).
Proof.
  intros Hf Hk w. unfold bind, load. destruct p; [reflexivity|].
  cbn [with_init Device]. rewrite Hf. apply Hk.
Qed.

Lemma blind_log {A} b (a : A) e : blind b (fun w => Return a (log e w)).
Proof. intros w. reflexivity. Qed.

Lemma blind_automatic b n : blind b (automatic n).
Proof. intros w. reflexivity. Qed.

Lemma blind_call_CS b p s : blind b (call_CS p s).
Proof.
  unfold call_CS. apply blind_load_bind; [reflexivity|].
  intros d. destruct (p_CS d); [apply blind_log | apply blind_fault].
Qed.

Lemma blind_call_Busy b p : blind b (call_Busy p).
Proof.
  unfold call_Busy. apply blind_load_bind; [reflexivity|].
  intros d. destruct (p_Busy d); [apply blind_log | apply blind_fault].
Qed.

Lemma blind_call_RW b p tx n : blind b (call_RW p tx n).
Proof.
  unfold call_RW. apply blind_load_bind; [reflexivity|].
  intros d. destruct (p_RW d) as [rw|]; [|apply blind_fault].
  intros w. cbn [with_init Bus]. destruct (rw (Bus w) tx n). reflexivity.
Qed.

Lemma blind_no_transport b p : blind b (no_transport p).
Proof.
  unfold no_transport. destruct (is_null p); [apply blind_ret|].
  apply blind_load_bind; [reflexivity|]. intros d. apply blind_ret.
Qed.

Ltac blind_step :=
  lazymatch goal with
  | |- blind _ (bind (load _) _) =>
      apply blind_load_bind; [reflexivity | intros ?]
  | |- blind _ (bind _ _) => apply blind_bind; [|intros ?]
  | |- blind _ (ret _) => apply blind_ret
  | |- blind _ spin => apply blind_spin
  | |- blind _ fault => apply blind_fault
  | |- blind _ (call_CS _ _) => apply blind_call_CS
  | |- blind _ (call_Busy _) => apply blind_call_Busy
  | |- blind _ (call_RW _ _ _) => apply blind_call_RW
  | |- blind _ (automatic _) => apply blind_automatic
  | |- blind _ (no_transport _) => apply blind_no_transport
  | |- blind _ (orelse _ _) => unfold orelse
  | |- blind _ (if ?c then _ else _) => destruct c
  | |- blind _ (match ?x with _ => _ end) => destruct x
  end.

Lemma blind_Command b p tx pd n : blind b (S25FL064L_Command p tx pd n).
Proof. unfold S25FL064L_Command. repeat blind_step. Qed.

Lemma blind_WaitBusy b polls p : blind b (S25FL064L_WaitBusy polls p).
Proof.
  induction polls as [|polls IH]; cbn [S25FL064L_WaitBusy].
  - apply blind_spin.
  - apply blind_bind; [apply blind_Command|]. intros [e rx].
    destruct (is_error e); [apply blind_ret|].
    apply blind_load_bind; [reflexivity|]. intros d.
    repeat blind_step; exact IH.
Qed.

Lemma blind_EraseSector b polls p a : blind b (S25FL064L_EraseSector polls p a).
Proof.
  unfold S25FL064L_EraseSector.
  apply blind_bind; [apply blind_Command|]. intros ?.
  repeat blind_step. apply blind_WaitBusy.
Qed.

Lemma blind_EraseChip b polls p : blind b (S25FL064L_EraseChip polls p).
Proof.
  unfold S25FL064L_EraseChip.
  apply blind_bind; [apply blind_Command|]. intros [e ?].
  destruct (is_error e); [apply blind_ret|].
  apply blind_bind; [apply blind_Command|]. intros [e' ?].
  destruct (is_error e'); [apply blind_ret|]. apply blind_WaitBusy.
Qed.

Lemma blind_Write_page b polls p buf r t a :
  blind b (Write_page polls p buf r t a).
Proof.
  unfold Write_page.
  repeat first [apply blind_WaitBusy | blind_step].
Qed.

Lemma blind_Write_loop b pages polls p buf tx r t a :
  blind b (Write_loop pages polls p buf tx r t a).
Proof.
  revert tx r t a. induction pages as [|pages IH]; intros tx r t a;
    cbn [Write_loop].
  - apply blind_spin.
  - apply blind_bind; [apply blind_Command|]. intros [e ?].
    destruct (is_error e); [apply blind_ret|].
    apply blind_bind; [apply blind_Command|]. intros [e' rx].
    destruct (is_error e'); [apply blind_ret|].
    destruct (_ =? 0); [apply blind_ret|].
    apply blind_bind; [apply blind_call_CS|]. intros _.
    apply blind_bind; [apply blind_call_RW|]. intros [e'' ?].
    destruct (is_error e''); [repeat blind_step|].
    apply blind_bind; [apply blind_Write_page|]. intros [?|[[r' t'] a']].
    + apply blind_ret.
    + apply blind_bind; [apply blind_call_CS|]. intros _.
      destruct (0 <? r'); [apply IH | apply blind_WaitBusy].
Qed.

Lemma blind_Write b polls p a buf l : blind b (S25FL064L_Write polls p a buf l).
Proof.
  unfold S25FL064L_Write. destruct p; [apply blind_ret|].
  destruct buf; [|apply blind_ret].
  apply blind_bind; [apply blind_automatic|]. intros ?.
  apply blind_Write_loop.
Qed.

Lemma blind_Read_loop b chunks p r acc : blind b (Read_loop chunks p r acc).
Proof.
  revert r acc. induction chunks as [|chunks IH]; intros r acc;
    cbn [Read_loop].
  - apply blind_spin.
  - apply blind_bind; [apply blind_call_RW|]. intros [e rx].
    destruct (is_error e); [repeat blind_step|].
    destruct (0 <? _); [apply IH | repeat blind_step].
Qed.

Lemma blind_Read b p s pb l : blind b (S25FL064L_Read p s pb l).
Proof.
  unfold S25FL064L_Read. destruct (_ || _); [apply blind_ret|].
  apply blind_bind; [apply blind_call_CS|]. intros _.
  apply blind_bind; [apply blind_call_RW|]. intros [e ?].
  destruct (is_error e); [repeat blind_step | apply blind_Read_loop].
Qed.

(** ** Where [S25FL064_NOT_INITIALIZED] can come from *)

Arguments relays : simpl never.

Lemma statuses_app a b : statuses (a ++ b) = statuses a ++ statuses b.
Proof. apply flat_map_app. Qed.

Lemma relays_ret {A} (a : A) (Q : A -> list s25fl064_error_t -> Prop) :
  Q a [] -> relays (ret a) Q.
Proof. intros H w. exists []. now rewrite app_nil_r. Qed.

Lemma relays_spin {A} (Q : A -> list s25fl064_error_t -> Prop) :
  relays spin Q.
Proof. intros w. exact I. Qed.

Lemma relays_fault {A} (Q : A -> list s25fl064_error_t -> Prop) :
  relays fault Q.
Proof. intros w. exact I. Qed.

Lemma relays_bind {A B} (m : M A) (k : A -> M B)
    (Q : B -> list s25fl064_error_t -> Prop) :
  relays m (fun a s1 => relays (k a) (fun b s2 => Q b (s1 ++ s2))) ->
  relays (bind m k) Q.
Proof.
  intros H w. specialize (H w). unfold bind.
  destruct (m w) as [a w1|w1|w1]; auto.
  destruct H as (evs1 & Hb1 & Hk). specialize (Hk w1).
  destruct (k a w1) as [b w2|w2|w2]; auto.
  destruct Hk as (evs2 & Hb2 & HQ). exists (evs1 ++ evs2).
  rewrite Hb2, Hb1, app_assoc, statuses_app. auto.
Qed.

Lemma relays_conseq {A} (m : M A)
    (Q Q' : A -> list s25fl064_error_t -> Prop) :
  relays m Q -> (forall a s, Q a s -> Q' a s) -> relays m Q'.
Proof.
  intros H HQ w. specialize (H w).
  destruct (m w); auto. destruct H as (evs & ? & ?). eauto.
Qed.

Lemma relays_load p (Q : s25fl064_t -> list s25fl064_error_t -> Prop) :
  (forall d, Q d []) -> relays (load p) Q.
Proof.
  intros H w. unfold load. destruct p; [exact I|].
  exists []. now rewrite app_nil_r.
Qed.

Lemma relays_store p f (Q : unit -> list s25fl064_error_t -> Prop) :
  Q tt [] -> relays (store p f) Q.
Proof.
  intros H w. unfold store. destruct p; [exact I|].
  exists []. cbn. now rewrite app_nil_r.
Qed.

Lemma relays_store_Params x (Q : unit -> list s25fl064_error_t -> Prop) :
  Q tt [] -> relays (store_Params x) Q.
Proof. intros H w. exists []. cbn. now rewrite app_nil_r. Qed.

Lemma relays_automatic n (Q : list Z -> list s25fl064_error_t -> Prop) :
  (forall l, Q l []) -> relays (automatic n) Q.
Proof. intros H w. exists []. cbn. now rewrite app_nil_r. Qed.

Lemma relays_log {A} (a : A) e (Q : A -> list s25fl064_error_t -> Prop) :
  Q a (statuses [e]) -> relays (fun w => Return a (log e w)) Q.
Proof. intros H w. exists [e]. auto. Qed.

Lemma relays_call_CS p b (Q : unit -> list s25fl064_error_t -> Prop) :
  Q tt [] -> relays (call_CS p b) Q.
Proof.
  intros H. unfold call_CS. apply relays_bind, relays_load. intros d.
  destruct (p_CS d); [now apply relays_log | apply relays_fault].
Qed.

Lemma relays_call_Busy p (Q : unit -> list s25fl064_error_t -> Prop) :
  Q tt [] -> relays (call_Busy p) Q.
Proof.
  intros H. unfold call_Busy. apply relays_bind, relays_load. intros d.
  destruct (p_Busy d); [now apply relays_log | apply relays_fault].
Qed.

Lemma relays_call_Reset p (Q : unit -> list s25fl064_error_t -> Prop) :
  Q tt [] -> relays (call_Reset p) Q.
Proof.
  intros H. unfold call_Reset. apply relays_bind, relays_load. intros d.
  destruct (p_Reset d); [now apply relays_log | apply relays_fault].
Qed.

Lemma relays_call_RW p tx n
    (Q : s25fl064_error_t * list Z -> list s25fl064_error_t -> Prop) :
  (forall e rx, Q (e, rx) [e]) -> relays (call_RW p tx n) Q.
Proof.
  intros H. unfold call_RW. apply relays_bind, relays_load. intros d.
  destruct (p_RW d) as [rw|]; [|apply relays_fault].
  intros w. destruct (rw (Bus w) tx n) as [e rx].
  eexists [_]. split; [reflexivity|]. apply H.
Qed.

Lemma relays_call_RW_UID p
    (Q : s25fl064_error_t -> list s25fl064_error_t -> Prop) :
  (forall e, Q e [e]) -> relays (call_RW_UID p) Q.
Proof.
  intros H. unfold call_RW_UID. apply relays_bind, relays_load. intros d.
  destruct (p_RW d) as [rw|]; [|apply relays_fault].
  intros w. destruct (rw (Bus w) [] 8) as [e rx].
  eexists [_]. split; [reflexivity|]. apply H.
Qed.

Lemma relays_no_transport p (Q : bool -> list s25fl064_error_t -> Prop) :
  (forall b, Q b []) -> relays (no_transport p) Q.
Proof.
  intros H. unfold no_transport. destruct (is_null p).
  - now apply relays_ret.
  - apply relays_bind, relays_load. intros d. now apply relays_ret.
Qed.

Lemma relays_Command p tx pd n
    (Q : s25fl064_error_t * list Z -> list s25fl064_error_t -> Prop) :
  Q (S25FL064_INVALID_PARAM, []) [] ->
  (forall e rx, Q (e, rx) [e]) ->
  relays (S25FL064L_Command p tx pd n) Q.
Proof.
  intros Hi Hf. unfold S25FL064L_Command.
  apply relays_bind, relays_no_transport. intros b.
  destruct (b || _); [now apply relays_ret|].
  apply relays_bind, relays_call_CS, relays_bind, relays_call_RW.
  intros e rx.
  destruct (is_error e); apply relays_bind, relays_call_CS, relays_ret, Hf.
Qed.

Ltac relays_step :=
  lazymatch goal with
  | |- relays (bind _ _) _ => apply relays_bind
  | |- relays (ret _) _ => apply relays_ret
  | |- relays spin _ => apply relays_spin
  | |- relays fault _ => apply relays_fault
  | |- relays (call_CS _ _) _ => apply relays_call_CS
  | |- relays (call_Busy _) _ => apply relays_call_Busy
  | |- relays (call_Reset _) _ => apply relays_call_Reset
  | |- relays (call_RW _ _ _) _ => apply relays_call_RW; intros ? ?
  | |- relays (call_RW_UID _) _ => apply relays_call_RW_UID; intros ?
  | |- relays (store _ _) _ => apply relays_store
  | |- relays (store_Params _) _ => apply relays_store_Params
  | |- relays (load _) _ => apply relays_load; intros ?
  | |- relays (automatic _) _ => apply relays_automatic; intros ?
  | |- relays (no_transport _) _ => apply relays_no_transport; intros ?
  | |- relays (S25FL064L_Command _ _ _ _) _ =>
      apply relays_Command; [|intros ? ?]
  | |- relays (if true then ?x else _) ?Q => change (relays x Q)
  | |- relays (if false then _ else ?y) ?Q => change (relays y Q)
  | |- relays (if ?b then _ else _) _ => destruct b eqn:?
  | |- relays (match ?x with _ => _ end) _ => destruct x
  end.

Ltac relays_run :=
  repeat (relays_step; cbn beta iota;
          cbn [is_error error_of_bool fst snd app]).

Ltac handed :=
  unfold handed_back in *; cbn [app] in *; intros;
  repeat match goal with
         | H : context [error_of_bool (is_error ?e)] |- _ =>
             destruct (is_error e); cbn [error_of_bool is_error] in *
         | |- context [error_of_bool (is_error ?e)] =>
             destruct (is_error e); cbn [error_of_bool is_error] in *
         end;
  repeat match goal with
         | H : ?e = ?x, H' : ?e = ?x -> _ |- _ => specialize (H' H)
         end;
  subst; try discriminate;
  rewrite ?app_nil_r; cbn [In]; rewrite ?in_app_iff; cbn [In];
  try tauto; try (intuition congruence).

Ltac relays_call L :=
  eapply relays_conseq; [apply L | cbn beta; intros ? ? ?].

Section Relay.

Variable x : s25fl064_error_t.
Hypothesis Hx : x = S25FL064_NOT_INITIALIZED.

Lemma relays_WaitBusy polls p :
  relays (S25FL064L_WaitBusy polls p) (handed_back x).
Proof.
  induction polls as [|polls IH]; cbn [S25FL064L_WaitBusy].
  - apply relays_spin.
  - relays_run; try solve [handed].
    all: relays_call IH; handed.
Qed.

Lemma relays_Write_page polls p buf r t a :
  relays (Write_page polls p buf r t a)
    (fun res s => match res with
                  | inl e => handed_back x e s
                  | inr _ => True
                  end).
Proof.
  unfold Write_page, orelse. relays_run; try solve [handed].
  all: relays_call relays_WaitBusy; relays_run; try solve [handed].
Qed.

Lemma relays_Write_loop pages polls p buf :
  forall tx r t a,
    relays (Write_loop pages polls p buf tx r t a) (handed_back x).
Proof.
  induction pages as [|pages IH]; intros tx r t a; cbn [Write_loop].
  - apply relays_spin.
  - relays_run; try solve [handed].
    all: relays_call relays_Write_page.
    all: match goal with
         | a0 : (_ + _)%type |- _ => destruct a0 as [?|[[? ?] ?]]
         end; relays_run; try solve [handed].
    + relays_call IH. handed.
    + relays_call relays_WaitBusy. handed.
Qed.

Lemma relays_Read_loop chunks p :
  forall r acc,
    relays (Read_loop chunks p r acc) (fun res s => handed_back x (fst res) s).
Proof.
  induction chunks as [|chunks IH]; intros r acc; cbn [Read_loop].
  - apply relays_spin.
  - relays_run; try solve [handed].
    all: relays_call IH; handed.
Qed.

Lemma relays_run_call polls c : relays (run polls c) (handed_back x).
Proof.
  destruct c; cbn [run].
  - unfold S25FL064L_Init, S25FL064L_LeavePowerDown, S25FL064L_Reset, orelse,
      S25FL064L_ReadID, S25FL064L_ReadUID, S25FL064L_ReadJEDEC.
    relays_run; try solve [handed].
    all: relays_call relays_WaitBusy; relays_run; try solve [handed].
  - unfold S25FL064L_GetError. relays_run; solve [handed].
  - unfold S25FL064L_Reset. relays_run; solve [handed].
  - unfold S25FL064L_EnterPowerDown. relays_run; solve [handed].
  - unfold S25FL064L_LeavePowerDown. relays_run; try solve [handed].
    relays_call relays_WaitBusy; relays_run; solve [handed].
  - unfold S25FL064L_EraseSector. relays_run; try solve [handed].
    relays_call relays_WaitBusy; handed.
  - unfold S25FL064L_EraseChip. relays_run; try solve [handed].
    relays_call relays_WaitBusy; handed.
  - unfold S25FL064L_Write. destruct p_Device; [relays_run; solve [handed]|].
    destruct p_Buffer; [|relays_run; solve [handed]].
    relays_run. relays_call relays_Write_loop. handed.
  - unfold S25FL064L_Read. relays_run; try solve [handed].
    relays_call relays_Read_loop; relays_run; handed.
Qed.

End Relay.

(** C3, as the code has it: no data operation looks at [isInitialized].
    [S25FL064L_Read], [S25FL064L_Write], [S25FL064L_EraseSector] and
    [S25FL064L_EraseChip] do on a handle with the flag set either way what
    they do on the same handle as it is: the same events, the same result,
    the flag left as it was.  And the driver does not produce
    [S25FL064_NOT_INITIALIZED]: a call returns that code only when an
    exchange of the transport has answered it in the course of the call. *)
Theorem data_operations_ignore_isInitialized polls c w :
  (is_data_operation c = true ->
   forall b,
     run polls c (with_init b w) = outcome_map (with_init b) (run polls c w)) /\
  (forall w',
      run polls c w = Return S25FL064_NOT_INITIALIZED w' ->
      exists evs,
        Bus w' = Bus w ++ evs /\
        In S25FL064_NOT_INITIALIZED (statuses evs)).
Proof.
  split.
  - intros Hc b. destruct c; try discriminate Hc; cbn [run].
    + apply blind_EraseSector.
    + apply blind_EraseChip.
    + apply blind_Write.
    + apply blind_bind; [apply blind_Read | intros; apply blind_ret].
  - intros w' H.
    pose proof (relays_run_call S25FL064_NOT_INITIALIZED eq_refl polls c w)
      as Hr.
    rewrite H in Hr. destruct Hr as (evs & Hb & Ho).
    exists evs. split; [exact Hb | exact (Ho eq_refl)].
Qed.

Lemma data_operations_ignore_isInitialized_witness :
  let c := Call_Read PTR 0x1000 PTR 16 in
  let w := bench (Some ready_chip) in
  let v := bench (Some (refusing S25FL064_NOT_INITIALIZED)) in
  let v' := world_of (run 1 c v) in
  (is_data_operation c = true /\
   isInitialized (Device w) = false /\
   isInitialized (Device (with_init true w)) = true /\
   run 1 c (with_init true w) = outcome_map (with_init true) (run 1 c w)) /\
  (run 1 c v = Return S25FL064_NOT_INITIALIZED v' /\
   exists evs,
     Bus v' = Bus v ++ evs /\ In S25FL064_NOT_INITIALIZED (statuses evs)).
Proof.
  intros c w v v'.
  assert (H : run 1 c v = Return S25FL064_NOT_INITIALIZED v')
    by (vm_compute; reflexivity).
  split.
  - split; [reflexivity|]. split; [reflexivity|]. split; [reflexivity|].
    exact (proj1 (data_operations_ignore_isInitialized 1 c w) eq_refl true).
  - exact (conj H (proj2 (data_operations_ignore_isInitialized 1 c v) v' H)).
Defined.

(** C3 as stated fails: on a handle that was never initialized the four
    data operations go to the bus and return [S25FL064_NO_ERROR]. *)
Lemma data_operations_on_fresh_handle :
  let w := bench (Some ready_chip) in
  isInitialized (Device w) = false /\
  result_of (run 1 (Call_Read PTR 0x1000 PTR 16) w) = Some S25FL064_NO_ERROR /\
  length (Bus (world_of (run 1 (Call_Read PTR 0x1000 PTR 16) w))) = 4%nat /\
  result_of (run 1 (Call_Write PTR 0x1000 (Some [1; 2; 3]) 3) w)
  = Some S25FL064_NO_ERROR /\
  page_programs
    (Bus (world_of (run 1 (Call_Write PTR 0x1000 (Some [1; 2; 3]) 3) w)))
  = [(0x1000, [1; 2; 3])] /\
  result_of (run 1 (Call_EraseSector PTR 0x1000) w) = Some S25FL064_NO_ERROR /\
  result_of (run 1 (Call_EraseChip PTR) w) = Some S25FL064_NO_ERROR.
Proof. vm_compute. repeat split. Qed.

(** ** Stepping through a call on a handle with a transport *)

Lemma logs_logs a b w : logs b (logs a w) = logs (a ++ b) w.
Proof. unfold logs. cbn. now rewrite app_assoc. Qed.

Lemma rx_store_length n rx : length (rx_store n rx) = Z.to_nat n.
Proof.
  unfold rx_store. rewrite length_map, firstn_length_le; [reflexivity|].
  rewrite length_app, repeat_length. lia.
Qed.

Lemma rx_store_bytes n rx : Forall (fun b => 0 <= b < 256) (rx_store n rx).
Proof.
  unfold rx_store. apply Forall_forall. intros b Hb.
  apply in_map_iff in Hb. destruct Hb as (x & <- & _).
  unfold uint8. apply Z.mod_pos_bound. lia.
Qed.

Lemma idx_byte l i : Forall (fun b => 0 <= b < 256) l -> 0 <= idx l i < 256.
Proof.
  intros H. unfold idx. destruct (nth_in_or_default i l 0) as [Hin| ->];
    [|lia]. rewrite Forall_forall in H. now apply H.
Qed.

Lemma call_CS_PTR b w c :
  p_CS (Device w) = Some c -> call_CS PTR b w = Return tt (logs [EvCS b] w).
Proof. intros H. unfold call_CS, bind, load. now rewrite H. Qed.

Lemma call_RW_PTR tx n w rw :
  p_RW (Device w) = Some rw ->
  call_RW PTR tx n w
  = Return (exchange rw (Bus w) tx n)
      (logs [EvRW tx n (fst (exchange rw (Bus w) tx n))
               (snd (exchange rw (Bus w) tx n))] w).
Proof.
  intros H. unfold call_RW, bind, load, exchange. rewrite H.
  now destruct (rw (Bus w) tx n).
Qed.

Lemma call_RW_UID_PTR w rw :
  p_RW (Device w) = Some rw ->
  call_RW_UID PTR w
  = Return (fst (rw (Bus w) [] 8))
      (mk_World
         (set_UID (rx_into (UID (Device w))
                     (rx_written 8 (snd (rw (Bus w) [] 8))))
            (Device w))
         (Params w) (Stack w)
         (Bus w ++ [EvRW [] 8 (fst (rw (Bus w) [] 8))
                      (rx_written 8 (snd (rw (Bus w) [] 8)))])).
Proof.
  intros H. unfold call_RW_UID, bind, load. rewrite H.
  now destruct (rw (Bus w) [] 8).
Qed.

Lemma Command_PTR tx pd n w rw c :
  p_RW (Device w) = Some rw -> p_CS (Device w) = Some c ->
  is_null pd && (0 <? n) = false ->
  S25FL064L_Command PTR tx pd n w
  = Return (exchange rw (Bus w ++ [EvCS true]) tx n)
      (logs [EvCS true;
             EvRW tx n (fst (exchange rw (Bus w ++ [EvCS true]) tx n))
               (snd (exchange rw (Bus w ++ [EvCS true]) tx n));
             EvCS false] w).
Proof.
  intros Hrw Hcs Hpd. destruct w as [d P S tr]. destruct d.
  cbn [Device Bus p_RW p_CS] in *. subst.
  unfold S25FL064L_Command, no_transport, call_CS, call_RW, bind, load, ret,
    exchange, logs, log.
  cbn -[rx_store]. rewrite Hpd. cbn -[rx_store].
  destruct (rw (tr ++ [EvCS true]) tx n) as [e rx]. cbn -[rx_store].
  destruct (is_error e); cbn -[rx_store]; now rewrite <- !app_assoc.
Qed.

Lemma Command_no_transport p tx pd n w :
  p = NULL \/ p_RW (Device w) = None \/ p_CS (Device w) = None ->
  S25FL064L_Command p tx pd n w = Return (S25FL064_INVALID_PARAM, []) w.
Proof.
  intros H. unfold S25FL064L_Command, no_transport, bind, load, ret.
  destruct p; cbn [is_null]; [reflexivity|].
  destruct H as [H|[H|H]]; [discriminate| |]; rewrite H; cbn [is_none orb];
    [reflexivity|]. now rewrite orb_true_r.
Qed.

(** ** What a call appends *)

Lemma grows_of_vt {A} v (m : M A) Q : vt v m Q -> grows m.
Proof.
  intros H w. specialize (H w).
  destruct (m w); cbn [world_of]; destruct H as (evs & H); exists evs; tauto.
Qed.

Lemma grows_ret {A} (a : A) : grows (ret a).
Proof. intros w. exists []. cbn. now rewrite app_nil_r. Qed.

Lemma grows_bind {A B} (m : M A) (k : A -> M B) :
  grows m -> (forall a, grows (k a)) -> grows (bind m k).
Proof.
  intros Hm Hk w. unfold bind. destruct (Hm w) as (evs & H).
  destruct (m w) as [a w1|w1|w1]; cbn [world_of] in *; eauto.
  destruct (Hk a w1) as (evs2 & H2). exists (evs ++ evs2).
  now rewrite H2, H, app_assoc.
Qed.

Lemma grows_call_CS p b : grows (call_CS p b).
Proof. apply (grows_of_vt initial_view _ (fun _ _ => True)), vt_call_CS, I. Qed.

Lemma grows_call_RW p tx n : grows (call_RW p tx n).
Proof.
  apply (grows_of_vt initial_view _ (fun _ _ => True)), vt_call_RW.
  intros; exact I.
Qed.

Lemma grows_Command p tx pd n : grows (S25FL064L_Command p tx pd n).
Proof.
  apply (grows_of_vt initial_view _ (fun _ _ => True)), vt_Command;
    intros; exact I.
Qed.

Lemma grows_WaitBusy polls p : grows (S25FL064L_WaitBusy polls p).
Proof. exact (grows_of_vt _ _ _ (vt_WaitBusy polls p initial_view eq_refl)). Qed.

Lemma grows_Write_page polls p buf r t a :
  grows (Write_page polls p buf r t a).
Proof. exact (grows_of_vt _ _ _ (vt_Write_page polls p buf r t a 0)). Qed.

Lemma grows_Write_loop pages polls p buf tx r t a :
  grows (Write_loop pages polls p buf tx r t a).
Proof.
  exact (grows_of_vt _ _ _
           (vt_Write_loop pages polls p buf tx r t a initial_view eq_refl)).
Qed.

Ltac grows_auto :=
  repeat first
    [ apply grows_ret | apply grows_call_CS | apply grows_call_RW
    | apply grows_Command | apply grows_WaitBusy | apply grows_Write_page
    | apply grows_Write_loop
    | apply grows_bind; [|intros ?]
    | match goal with
      | |- grows (if ?b then _ else _) => destruct b
      | |- grows (match ?x with _ => _ end) => destruct x
      end ].

(** ** The parameters of [S25FL064L_Write] *)

(** C7, as the code has it: [S25FL064L_Write] returns
    [S25FL064_INVALID_PARAM] with nothing sent when the handle or the buffer
    is NULL (or the handle has no exchange or chip-select function).  It
    does not look at the address or the length: on any other call, whatever
    they are, zero included, it sends the write enable. *)
Theorem Write_parameter_check polls p a b l w :
  (p = NULL \/ b = None \/ p_RW (Device w) = None \/ p_CS (Device w) = None ->
   S25FL064L_Write polls p a b l w = Return S25FL064_INVALID_PARAM w) /\
  (p = PTR -> b <> None -> p_RW (Device w) <> None ->
   p_CS (Device w) <> None ->
   exists e evs,
     Bus (world_of (S25FL064L_Write polls p a b l w))
     = Bus w ++ EvCS true :: EvRW [S25FL064L_CMD_WREN] 0 e [] :: EvCS false
              :: evs).
Proof.
  split.
  - intros H. unfold S25FL064L_Write.
    destruct p; [reflexivity|]. destruct b as [buf|]; [|reflexivity].
    unfold bind at 1. cbn [automatic Write_loop]. unfold bind at 1.
    rewrite Command_no_transport; [reflexivity|].
    destruct H as [H|[H|H]]; try discriminate; tauto.
  - intros -> Hb Hrw Hcs. destruct b as [buf|]; [|congruence].
    destruct (p_RW (Device w)) as [rw|] eqn:Erw; [|congruence].
    destruct (p_CS (Device w)) as [c|] eqn:Ecs; [|congruence].
    unfold S25FL064L_Write. unfold bind at 1. cbn [automatic Write_loop].
    unfold bind at 1. cbn [idx nth].
    rewrite (Command_PTR [S25FL064L_CMD_WREN] NULL 0 w rw c Erw Ecs eq_refl).
    set (x := exchange rw (Bus w ++ [EvCS true]) [S25FL064L_CMD_WREN] 0).
    assert (Hx : snd x = []) by reflexivity.
    destruct x as [e rx]. cbn [fst snd] in *. subst rx. exists e.
    match goal with
    | |- context [world_of (?k ?w1)] =>
        assert (G : grows k) by grows_auto; destruct (G w1) as (evs & ->)
    end.
    exists evs. cbn [logs Bus]. now rewrite <- app_assoc.
Qed.

Lemma Write_parameter_check_witness :
  let w := bench (Some ready_chip) in
  S25FL064L_Write 1 PTR 0 None 3 w = Return S25FL064_INVALID_PARAM w /\
  exists e evs,
    Bus (world_of (S25FL064L_Write 1 PTR 0 (Some []) 0 w))
    = Bus w ++ EvCS true :: EvRW [S25FL064L_CMD_WREN] 0 e [] :: EvCS false
             :: evs.
Proof.
  intros w. split.
  - apply (proj1 (Write_parameter_check 1 PTR 0 None 3 w)). right. left.
    reflexivity.
  - apply (proj2 (Write_parameter_check 1 PTR 0 (Some []) 0 w));
      [reflexivity | discriminate | discriminate | discriminate].
Defined.

(** C7 as stated fails: address 0 with length 0 is not rejected; the call
    goes to the bus, sends an empty page program to address 0 and returns
    [S25FL064_NO_ERROR]. *)
Lemma Write_accepts_zero_address_and_length :
  let o := S25FL064L_Write 1 PTR 0 (Some [1; 2; 3]) 0
             (bench (Some ready_chip)) in
  result_of o = Some S25FL064_NO_ERROR /\
  page_programs (Bus (world_of o)) = [(0, [])] /\
  length (Bus (world_of o)) = 19%nat.
Proof. vm_compute. repeat split. Qed.

(** ** The error flags *)

Lemma error_bits x :
  Z.shiftr (Z.land x 0x60) 0x05
  = (if Z.testbit x 5 then S25FL064L_MASK_PROG_ERROR else 0)
    + (if Z.testbit x 6 then S25FL064L_MASK_ERASE_ERROR else 0).
Proof.
  apply Z.bits_inj'. intros n Hn.
  rewrite Z.shiftr_spec, Z.land_spec by lia.
  assert (n = 0 \/ n = 1 \/ 2 <= n) as [->|[->|H2]] by lia.
  - cbn [Z.add]. change (Z.testbit 96 5) with true. rewrite andb_true_r.
    destruct (Z.testbit x 5), (Z.testbit x 6); reflexivity.
  - change (1 + 5) with 6. change (Z.testbit 96 6) with true.
    rewrite andb_true_r.
    destruct (Z.testbit x 5), (Z.testbit x 6); reflexivity.
  - rewrite (Z.bits_above_log2 96 (n + 5)) by (cbn; lia).
    rewrite andb_false_r. symmetry.
    destruct (Z.testbit x 5), (Z.testbit x 6); cbn [Z.add];
      try apply Z.testbit_0_l; apply Z.bits_above_log2; cbn; lia.
Qed.

(** C9, as the code has it: when [S25FL064L_GetError] stores an output,
    it has read status register 2 in one frame and sent the clear-status
    command in the next, its last; the output has register bit 5 at the bit
    of [S25FL064L_MASK_PROG_ERROR], register bit 6 at the bit of
    [S25FL064L_MASK_ERASE_ERROR], and nothing else. *)
Theorem GetError_output p pe w e v w' :
  S25FL064L_GetError p pe w = Return (e, Some v) w' ->
  exists rx,
    Bus w' = Bus w ++ [EvCS true;
                       EvRW [S25FL064L_CMD_RDSR2] 2 S25FL064_NO_ERROR rx;
                       EvCS false;
                       EvCS true;
                       EvRW [S25FL064L_CMD_CLSR] 0 e [];
                       EvCS false] /\
    v = (if Z.testbit (idx rx 1) 5 then S25FL064L_MASK_PROG_ERROR else 0)
        + (if Z.testbit (idx rx 1) 6 then S25FL064L_MASK_ERASE_ERROR else 0).
Proof.
  unfold S25FL064L_GetError. intros H.
  destruct p.
  { unfold bind at 1 in H.
    rewrite Command_no_transport in H by auto. discriminate H. }
  destruct (p_RW (Device w)) as [rw|] eqn:Erw.
  2:{ unfold bind at 1 in H.
      rewrite Command_no_transport in H by auto. discriminate H. }
  destruct (p_CS (Device w)) as [c|] eqn:Ecs.
  2:{ unfold bind at 1 in H.
      rewrite Command_no_transport in H by auto. discriminate H. }
  unfold bind at 1 in H.
  rewrite (Command_PTR [S25FL064L_CMD_RDSR2] PTR 2 w rw c Erw Ecs eq_refl)
    in H.
  destruct (exchange rw (Bus w ++ [EvCS true]) [S25FL064L_CMD_RDSR2] 2)
    as [e1 rx1]. cbn [fst snd] in H.
  destruct e1; cbn [is_error] in H; try discriminate H.
  unfold bind at 1 in H. destruct pe; [discriminate H|]. cbn [is_null ret] in H.
  unfold bind at 1 in H.
  match type of H with
  | context [S25FL064L_Command PTR ?tx NULL 0 ?w1] =>
      rewrite (Command_PTR tx NULL 0 w1 rw c Erw Ecs eq_refl) in H
  end.
  set (x := exchange rw _ [S25FL064L_CMD_CLSR] 0) in H.
  assert (Hx : snd x = []) by reflexivity.
  destruct x as [e2 rx2]. cbn [fst snd] in *. subst rx2.
  unfold ret in H. injection H as <- <- <-.
  exists rx1. split.
  - cbn [logs Bus]. now rewrite <- app_assoc.
  - apply error_bits.
Qed.

Lemma GetError_output_witness :
  let w := bench (Some (bench_chip 0x02 0x20 0x00 0x6017)) in
  let w' := world_of (S25FL064L_GetError PTR PTR w) in
  S25FL064L_GetError PTR PTR w
  = Return (S25FL064_NO_ERROR, Some S25FL064L_MASK_PROG_ERROR) w' /\
  exists rx,
    Bus w' = Bus w ++ [EvCS true;
                       EvRW [S25FL064L_CMD_RDSR2] 2 S25FL064_NO_ERROR rx;
                       EvCS false;
                       EvCS true;
                       EvRW [S25FL064L_CMD_CLSR] 0 S25FL064_NO_ERROR [];
                       EvCS false] /\
    S25FL064L_MASK_PROG_ERROR
    = (if Z.testbit (idx rx 1) 5 then S25FL064L_MASK_PROG_ERROR else 0)
      + (if Z.testbit (idx rx 1) 6 then S25FL064L_MASK_ERASE_ERROR else 0).
Proof.
  intros w w'.
  assert (H : S25FL064L_GetError PTR PTR w
              = Return (S25FL064_NO_ERROR, Some S25FL064L_MASK_PROG_ERROR) w')
    by (vm_compute; reflexivity).
  exact (conj H (GetError_output PTR PTR w _ _ w' H)).
Defined.

(** C9 as stated fails: with only bit 6 of status register 2 set, the bit
    the claim calls the program-error flag, the output is
    [S25FL064L_MASK_ERASE_ERROR] and its [S25FL064L_MASK_PROG_ERROR] bit is
    clear. *)
Lemma GetError_bit_6_is_erase_mask :
  let o := S25FL064L_GetError PTR PTR
             (bench (Some (bench_chip 0x02 0x40 0x00 0x6017))) in
  result_of o = Some (S25FL064_NO_ERROR, Some S25FL064L_MASK_ERASE_ERROR) /\
  Z.land S25FL064L_MASK_ERASE_ERROR S25FL064L_MASK_PROG_ERROR = 0.
Proof. vm_compute. repeat split. Qed.

(** ** Reading *)

Lemma shiftr_land_byte a k :
  0 <= k -> Z.shiftr (Z.land a (255 * 2 ^ k)) k = (a / 2 ^ k) mod 2 ^ 8.
Proof.
  intros Hk. rewrite Z.shiftr_land, <- Z.shiftl_mul_pow2 by lia.
  rewrite Z.shiftr_shiftl_l, Z.sub_diag, Z.shiftl_0_r by lia.
  change 255 with (Z.ones 8). rewrite Z.land_ones by lia.
  now rewrite Z.shiftr_div_pow2 by lia.
Qed.

Lemma address_bytes_spec a :
  address_bytes a
  = [(a / 2 ^ 24) mod 2 ^ 8; (a / 2 ^ 16) mod 2 ^ 8; (a / 2 ^ 8) mod 2 ^ 8;
     (a / 2 ^ 0) mod 2 ^ 8].
Proof.
  unfold address_bytes.
  change 0xFF000000 with (255 * 2 ^ 24). change 0x00FF0000 with (255 * 2 ^ 16).
  change 0x0000FF00 with (255 * 2 ^ 8). change 0x000000FF with (255 * 2 ^ 0).
  change 0x18 with 24. change 0x10 with 16. change 0x08 with 8.
  change 0x00 with 0.
  now rewrite !shiftr_land_byte by lia.
Qed.

Lemma be32_address_bytes a :
  0 <= a < 2 ^ 32 -> be32 (address_bytes a) = a.
Proof.
  intros Ha. rewrite address_bytes_spec. unfold be32. cbn [fold_left].
  change (2 ^ 24) with 16777216. change (2 ^ 16) with 65536.
  change (2 ^ 8) with 256. change (2 ^ 0) with 1. change (2 ^ 32) with 4294967296 in Ha.
  Z.div_mod_to_equations. lia.
Qed.

Lemma address_frame a :
  length (address_bytes a) = 4%nat /\
  Forall (fun b => 0 <= b < 256) (address_bytes a) /\
  be32 (address_bytes a) = a mod 2 ^ 32.
Proof.
  split; [reflexivity|]. split.
  - rewrite address_bytes_spec.
    repeat constructor; apply Z.mod_pos_bound; lia.
  - assert (H : address_bytes a = address_bytes (a mod 2 ^ 32)).
    { unfold address_bytes. rewrite <- (Z.land_ones a 32) by lia.
      rewrite <- !Z.land_assoc. reflexivity. }
    rewrite H. apply be32_address_bytes. apply Z.mod_pos_bound. lia.
Qed.

Lemma ready_chip_always_ok tr tx n :
  fst (ready_chip tr tx n) = S25FL064_NO_ERROR.
Proof.
  destruct tx as [|op tx]; [reflexivity|]. unfold ready_chip, bench_chip.
  repeat match goal with
         | |- context [if ?b then _ else _] => destruct b
         end; reflexivity.
Qed.

Lemma Read_chunk rw tr n :
  ((forall tr tx n, fst (rw tr tx n) = S25FL064_NO_ERROR) ->
   fst (exchange rw tr [] n) = S25FL064_NO_ERROR) /\
  length (snd (exchange rw tr [] n)) = Z.to_nat n.
Proof.
  split; [intros H; apply H | apply rx_store_length].
Qed.

Lemma Read_loop_trace chunks r acc w rw c :
  p_RW (Device w) = Some rw -> p_CS (Device w) = Some c ->
  0 < r -> r / 255 <= Z.of_nat chunks ->
  exists e data cs,
    Read_loop (S chunks) PTR r acc w
    = Return (e, data) (logs (map chunk_event cs ++ [EvCS false]) w) /\
    Forall (fun ch => 0 < chunk_size ch <= 255 /\
                      length (snd ch) = Z.to_nat (chunk_size ch)) cs /\
    data = acc ++ concat (map snd cs) /\
    (is_error e = false -> total_size cs = r) /\
    ((forall tr tx n, fst (rw tr tx n) = S25FL064_NO_ERROR) ->
     e = S25FL064_NO_ERROR).
Proof.
  revert r acc w.
  induction chunks as [|chunks IH]; intros r acc w Hrw Hcs Hr Hb.
  - assert (Hs : r <= 255).
    { destruct (Z_le_gt_dec r 255); [assumption|].
      assert (1 <= r / 255) by (apply Z.div_le_lower_bound; lia). lia. }
    cbn [Read_loop]. unfold bind at 1.
    assert (Ht : (if 255 <? r then 255 else uint8 r) = r).
    { destruct (255 <? r) eqn:E; [apply Z.ltb_lt in E; lia|].
      unfold uint8. apply Z.mod_small. lia. }
    rewrite Ht. rewrite (call_RW_PTR [] r w rw Hrw).
    destruct (Read_chunk rw (Bus w) r) as [Hok Hlen].
    destruct (exchange rw (Bus w) [] r) as [e rx]. cbn [fst snd] in *.
    rewrite Z.sub_diag. cbn [Z.ltb Z.compare].
    exists e, (acc ++ rx), [(r, e, rx)].
    split; [|split; [repeat constructor; cbn; lia
                    |split; [cbn; now rewrite app_nil_r
                            |split; [cbn; lia | exact Hok]]]].
    destruct (is_error e); unfold bind;
      rewrite (call_CS_PTR false (logs _ w) c Hcs); unfold ret;
      now rewrite logs_logs.
  - remember (S chunks) as k eqn:Ek. cbn [Read_loop]. unfold bind at 1.
    destruct (255 <? r) eqn:E.
    + apply Z.ltb_lt in E.
      rewrite (call_RW_PTR [] 255 w rw Hrw).
      destruct (Read_chunk rw (Bus w) 255) as [Hok Hlen].
      destruct (exchange rw (Bus w) [] 255) as [e rx]. cbn [fst snd] in *.
      destruct (is_error e) eqn:He.
      * exists e, (acc ++ rx), [(255, e, rx)].
        split; [|split; [repeat constructor; cbn; lia
                        |split; [cbn; now rewrite app_nil_r
                                |split; [congruence | exact Hok]]]].
        unfold bind. rewrite (call_CS_PTR false (logs _ w) c Hcs).
        unfold ret. now rewrite logs_logs.
      * assert (Hp : (0 <? r - 255) = true) by (apply Z.ltb_lt; lia).
        rewrite Hp. subst k.
        destruct (IH (r - 255) (acc ++ rx)
                    (logs [EvRW [] 255 e rx] w) Hrw Hcs)
          as (e' & data & cs & Heq & Hf & Hd & Ht & Hall); [lia| |].
        { rewrite Read_budget by lia. lia. }
        exists e', data, ((255, e, rx) :: cs).
        split; [|split; [|split; [|split]]].
        -- rewrite Heq, logs_logs. reflexivity.
        -- constructor; [cbn; lia | assumption].
        -- rewrite Hd. cbn [map concat snd]. now rewrite app_assoc.
        -- intros He'. specialize (Ht He'). unfold total_size in *.
           cbn [fold_right]. rewrite Ht. unfold chunk_size. cbn [fst]. lia.
        -- exact Hall.
    + apply Z.ltb_ge in E.
      assert (Ht : uint8 r = r) by (unfold uint8; apply Z.mod_small; lia).
      rewrite Ht. rewrite (call_RW_PTR [] r w rw Hrw).
      destruct (Read_chunk rw (Bus w) r) as [Hok Hlen].
      destruct (exchange rw (Bus w) [] r) as [e rx]. cbn [fst snd] in *.
      rewrite Z.sub_diag. cbn [Z.ltb Z.compare].
      exists e, (acc ++ rx), [(r, e, rx)].
      split; [|split; [repeat constructor; cbn; lia
                      |split; [cbn; now rewrite app_nil_r
                              |split; [cbn; lia | exact Hok]]]].
      destruct (is_error e); unfold bind;
        rewrite (call_CS_PTR false (logs _ w) c Hcs); unfold ret;
        now rewrite logs_logs.
Qed.

(** C8: a read of [Length > 0] bytes on a handle with a transport is one
    frame.  Chip select is asserted, the read command goes out once with
    the four bytes of the start address, the answer comes in exchanges that
    send nothing and receive between 1 and 255 bytes each, and chip select
    is released; nothing else is on the bus, and what the read has stored
    is what these exchanges received, in order.  On a transport whose
    exchanges succeed the read returns no error, and whenever it returns
    no error the sizes of the exchanges add up to [Length]; an exchange
    that fails ends the read early, with chip select released. *)
Theorem Read_is_one_frame Start Length w rw c :
  p_RW (Device w) = Some rw -> p_CS (Device w) = Some c ->
  0 < Length ->
  exists e data e0 cs,
    S25FL064L_Read PTR Start PTR Length w
    = Return (e, data)
        (logs (EvCS true
               :: EvRW (S25FL064L_CMD_4READ :: address_bytes Start) 0 e0 []
               :: map chunk_event cs ++ [EvCS false]) w) /\
    Forall (fun ch => 0 < chunk_size ch <= 255 /\
                      length (snd ch) = Z.to_nat (chunk_size ch)) cs /\
    data = concat (map snd cs) /\
    (is_error e = false -> e0 = S25FL064_NO_ERROR /\ total_size cs = Length) /\
    ((forall tr tx n, fst (rw tr tx n) = S25FL064_NO_ERROR) ->
     e = S25FL064_NO_ERROR /\ total_size cs = Length /\
     Z.of_nat (length data) = Length) /\
    length (address_bytes Start) = 4%nat /\
    Forall (fun b => 0 <= b < 256) (address_bytes Start) /\
    be32 (address_bytes Start) = Start mod 2 ^ 32.
Proof.
  intros Hrw Hcs Hl. unfold S25FL064L_Read. cbn [is_null orb].
  unfold bind at 1. rewrite (call_CS_PTR true w c Hcs).
  unfold bind at 1.
  rewrite (call_RW_PTR (S25FL064L_CMD_4READ :: address_bytes Start) 0
             (logs [EvCS true] w) rw Hrw).
  set (x := exchange rw _ _ 0).
  assert (Hx : snd x = []) by reflexivity.
  assert (Hok0 : (forall tr tx n, fst (rw tr tx n) = S25FL064_NO_ERROR) ->
                 fst x = S25FL064_NO_ERROR) by (intros H; apply H).
  destruct x as [e0 rx0]. cbn [fst snd] in *. subst rx0.
  destruct (is_error e0) eqn:He0.
  - exists e0, [], e0, [].
    split; [|split; [constructor
                    |split; [reflexivity
                            |split; [congruence
                                    |split; [|apply address_frame]]]]].
    + unfold bind. rewrite (call_CS_PTR false (logs _ (logs _ w)) c Hcs).
      unfold ret. now rewrite !logs_logs.
    + intros Hall. rewrite (Hok0 Hall) in He0. discriminate He0.
  - destruct (Read_loop_trace (Z.to_nat (Length / 255)) Length []
                (logs [EvRW (S25FL064L_CMD_4READ :: address_bytes Start) 0 e0 []]
                   (logs [EvCS true] w)) rw c Hrw Hcs Hl)
      as (e & data & cs & Heq & Hf & Hd & Ht & Hall); [lia|].
    cbn [app] in Hd.
    assert (Hsum : Z.of_nat (length (concat (map snd cs))) = total_size cs).
    { clear - Hf. induction Hf as [|ch cs [Hc Hn] _ IH]; [reflexivity|].
      cbn [map concat]. rewrite length_app, Nat2Z.inj_add, IH, Hn.
      unfold total_size. cbn [fold_right]. lia. }
    exists e, data, e0, cs.
    split; [|split; [assumption
                    |split; [assumption
                            |split; [|split; [|apply address_frame]]]]].
    + rewrite Heq, !logs_logs. reflexivity.
    + intros He. split; [now destruct e0 | auto].
    + intros Ha. pose proof (Hall Ha) as ->.
      rewrite Hd, Hsum. split; [reflexivity|]. split; apply Ht; reflexivity.
Qed.

Lemma Read_is_one_frame_witness :
  let w := bench (Some ready_chip) in
  p_RW (Device w) = Some ready_chip /\ p_CS (Device w) = Some Callback /\
  0 < 300 /\
  (forall tr tx n, fst (ready_chip tr tx n) = S25FL064_NO_ERROR) /\
  exists e data e0 cs,
    S25FL064L_Read PTR 0x123456 PTR 300 w
    = Return (e, data)
        (logs (EvCS true
               :: EvRW (S25FL064L_CMD_4READ :: address_bytes 0x123456) 0 e0 []
               :: map chunk_event cs ++ [EvCS false]) w) /\
    Forall (fun ch => 0 < chunk_size ch <= 255 /\
                      length (snd ch) = Z.to_nat (chunk_size ch)) cs /\
    data = concat (map snd cs) /\
    (is_error e = false -> e0 = S25FL064_NO_ERROR /\ total_size cs = 300) /\
    ((forall tr tx n, fst (ready_chip tr tx n) = S25FL064_NO_ERROR) ->
     e = S25FL064_NO_ERROR /\ total_size cs = 300 /\
     Z.of_nat (length data) = 300) /\
    length (address_bytes 0x123456) = 4%nat /\
    Forall (fun b => 0 <= b < 256) (address_bytes 0x123456) /\
    be32 (address_bytes 0x123456) = 0x123456 mod 2 ^ 32.
Proof.
  intros w. split; [reflexivity|]. split; [reflexivity|]. split; [lia|].
  split; [exact ready_chip_always_ok|].
  apply (Read_is_one_frame 0x123456 300 w ready_chip Callback);
    [reflexivity | reflexivity | lia].
Defined.

(** ** Writing across a page boundary *)

(** C1: a buffer of one page plus one byte is not written as two page
    writes would write it.  The first page is the same; for the byte that
    remains, [S25FL064L_Write] sends the buffer from its start again, so
    the byte that goes to the second page is the first byte of the buffer,
    not the last.  A buffer of exactly one page is written as the two calls
    write it. *)
Theorem Write_page_plus_one_byte :
  let w := bench (Some ready_chip) in
  let buf := pattern 257 in
  let whole := S25FL064L_Write 1 PTR 0x1000 (Some buf) 257 w in
  let halves :=
    (S25FL064L_Write 1 PTR 0x1000 (Some (firstn 256 buf)) 256 ;;
     S25FL064L_Write 1 PTR 0x1100 (Some (skipn 256 buf)) 1) w in
  let page := S25FL064L_Write 1 PTR 0x1000 (Some (firstn 256 buf)) 256 w in
  let page_halves :=
    (S25FL064L_Write 1 PTR 0x1000 (Some (firstn 256 buf)) 256 ;;
     S25FL064L_Write 1 PTR 0x1100 (Some []) 0) w in
  result_of whole = Some S25FL064_NO_ERROR /\
  result_of halves = Some S25FL064_NO_ERROR /\
  firstn 256 (programmed (Bus (world_of whole)))
  = firstn 256 (programmed (Bus (world_of halves))) /\
  idx buf 0 = 0 /\ idx buf 256 = 5 /\
  skipn 256 (programmed (Bus (world_of whole))) = [(0x1100, 0)] /\
  skipn 256 (programmed (Bus (world_of halves))) = [(0x1100, 5)] /\
  programmed (Bus (world_of page)) = programmed (Bus (world_of page_halves)).
Proof. vm_compute. repeat split. Qed.

(** ** Running a call on a handle whose transport is known *)

Lemma bind_assoc {A B C} (m : M A) (k : A -> M B) (h : B -> M C) w :
  bind (bind m k) h w = bind m (fun a => bind (k a) h) w.
Proof. unfold bind. now destruct (m w). Qed.

Lemma bind_ret {A B} (a : A) (k : A -> M B) w : bind (ret a) k w = k a w.
Proof. reflexivity. Qed.

Lemma page_programs_from_released a :
  forall o f b,
    page_programs_from o f ((a ++ [EvCS false]) ++ b)
    = page_programs_from o f (a ++ [EvCS false]) ++ page_programs b.
Proof.
  unfold page_programs.
  induction a as [|ev a IH]; intros o f b.
  - cbn. now destruct o.
  - cbn [app page_programs_from]. destruct ev as [|[|]|tx n e rx|]; auto.
    + destruct o; [cbn [app]; f_equal|]; apply IH.
    + destruct f.
      * destruct tx as [|op addr]; auto.
        destruct ((op =? S25FL064L_CMD_4PP) && (length addr =? 4)%nat); auto.
      * destruct o as [[x y]|]; auto.
Qed.

Lemma firstn_plus {A} n m (l : list A) :
  firstn n l ++ firstn m (skipn n l) = firstn (n + m) l.
Proof.
  revert l. induction n as [|n IH]; intros [|x l]; cbn; auto.
  - now rewrite firstn_nil.
  - now rewrite IH.
Qed.

Lemma bytes_at_split buf t :
  0 <= t ->
  bytes_at buf t 255 ++ bytes_at buf (t + 255) 1
  = bytes_at buf t S25FL064L_PAGE_SIZE.
Proof.
  intros Ht. unfold bytes_at.
  rewrite Z2Nat.inj_add, Nat.add_comm, <- skipn_skipn by lia.
  generalize (skipn (Z.to_nat t) buf). intros l.
  change (Z.to_nat S25FL064L_PAGE_SIZE) with (255 + 1)%nat.
  apply firstn_plus.
Qed.

Lemma loop_plan_rest buf r t a :
  0 <= r < 256 -> 0 <= a < 2 ^ 32 ->
  loop_plan buf r t a = [(a, bytes_at buf 0 r)].
Proof.
  intros Hr Ha. unfold loop_plan.
  rewrite Z.div_small, Z.mod_small by lia. cbn [Z.to_nat seq map app].
  rewrite andb_false_r. unfold uint32.
  rewrite Z.mul_0_r, Z.add_0_r, Z.mod_small by lia. reflexivity.
Qed.

Lemma loop_plan_one buf t a :
  0 <= a < 2 ^ 32 -> loop_plan buf 256 t a = [(a, bytes_at buf t 256)].
Proof.
  intros Ha. unfold loop_plan. cbn [Z.to_nat seq map app Z.div Z.modulo].
  change (Z.to_nat (256 / 256)) with 1%nat. cbn [seq map].
  change (256 mod 256 =? 0) with true. change (0 <? 256 / 256) with true.
  cbn [andb app Z.of_nat]. unfold uint32.
  rewrite Z.mul_0_r, !Z.add_0_r, Z.mod_small by lia. reflexivity.
Qed.

Lemma loop_plan_more buf r t a :
  256 < r -> 0 <= a < 2 ^ 32 ->
  loop_plan buf r t a
  = (a, bytes_at buf t 256)
    :: loop_plan buf (r - 256) (t + 256) (uint32 (a + 256)).
Proof.
  intros Hr Ha. unfold loop_plan.
  assert (Hd : r / 256 = (r - 256) / 256 + 1)
    by (rewrite Write_budget by lia; lia).
  assert (Hm : r mod 256 = (r - 256) mod 256).
  { replace r with ((r - 256) + 1 * 256) at 1 by lia.
    now rewrite Z.mod_add by lia. }
  assert (H0 : 0 <= (r - 256) / 256) by (apply Z.div_pos; lia).
  assert (H1 : 1 <= (r - 256) / 256 \/ (r - 256) / 256 = 0) by lia.
  rewrite Hd, Hm, Z2Nat.inj_add, Nat.add_comm by lia.
  change (Z.to_nat 1) with 1%nat. cbn [Nat.add seq map app].
  rewrite <- seq_shift, map_map. f_equal.
  - unfold uint32. rewrite Z.mul_0_r, !Z.add_0_r, Z.mod_small by lia.
    reflexivity.
  - f_equal.
    + apply map_ext. intros i. f_equal.
      * unfold uint32. rewrite Zplus_mod_idemp_l. f_equal. lia.
      * f_equal. lia.
    + replace (0 <? (r - 256) / 256 + 1) with true
        by (symmetry; apply Z.ltb_lt; lia).
      rewrite andb_true_r.
      destruct ((r - 256) mod 256 =? 0) eqn:E.
      * apply Z.eqb_eq in E.
        replace (0 <? (r - 256) / 256) with true; [reflexivity|].
        symmetry. apply Z.ltb_lt.
        destruct H1 as [H1|H1]; [lia|]. exfalso.
        pose proof (Z.div_mod (r - 256) 256 ltac:(lia)). lia.
      * cbn [andb]. do 2 f_equal. unfold uint32.
        rewrite Zplus_mod_idemp_l. f_equal. lia.
Qed.

Section Stepping.

Variables (d : s25fl064_t) (ps st : list Z) (rw : s25fl06_rw_fptr_t)
  (c : callback).
Hypothesis Hrw : p_RW d = Some rw.
Hypothesis Hcs : p_CS d = Some c.

Let W := mk_World d ps st.

Lemma run_CS {A} b (k : unit -> M A) tr :
  bind (call_CS PTR b) k (W tr) = k tt (W (tr ++ [EvCS b])).
Proof.
  unfold bind at 1. now rewrite (call_CS_PTR b (W tr) c Hcs).
Qed.

Lemma run_RW {A} tx n (k : s25fl064_error_t * list Z -> M A) tr :
  bind (call_RW PTR tx n) k (W tr)
  = k (exchange rw tr tx n)
      (W (tr ++ [EvRW tx n (fst (exchange rw tr tx n))
                   (snd (exchange rw tr tx n))])).
Proof.
  unfold bind at 1. now rewrite (call_RW_PTR tx n (W tr) rw Hrw).
Qed.

Lemma run_Command {A} tx pd n (k : s25fl064_error_t * list Z -> M A) tr :
  is_null pd && (0 <? n) = false ->
  bind (S25FL064L_Command PTR tx pd n) k (W tr)
  = k (exchange rw (tr ++ [EvCS true]) tx n)
      (W (tr ++ [EvCS true;
                 EvRW tx n (fst (exchange rw (tr ++ [EvCS true]) tx n))
                   (snd (exchange rw (tr ++ [EvCS true]) tx n));
                 EvCS false])).
Proof.
  intros H. unfold bind at 1.
  now rewrite (Command_PTR tx pd n (W tr) rw c Hrw Hcs H).
Qed.

Hypothesis Hresp : responsive rw.

Lemma exchange_ok tr tx n :
  fst (exchange rw tr tx n) = S25FL064_NO_ERROR.
Proof. apply (always_ok rw Hresp). Qed.

Lemma run_WaitBusy polls tr :
  S25FL064L_WaitBusy (S polls) PTR (W tr)
  = Return S25FL064_NO_ERROR (W (tr ++ poll d rw tr)).
Proof.
  cbn [S25FL064L_WaitBusy]. rewrite run_Command by reflexivity.
  unfold poll.
  set (x := exchange rw (tr ++ [EvCS true]) [S25FL064L_CMD_RDSR1] 2).
  assert (Hx : fst x = S25FL064_NO_ERROR) by apply exchange_ok.
  assert (Hb : Z.land (idx (snd x) 1) (Z.shiftl 1 S25FL064L_BIT_BUSY) = 0)
    by apply (never_busy rw Hresp).
  destruct x as [e rx]. cbn [fst snd] in *. subst e. cbn [is_error].
  unfold bind at 1. cbn [load]. subst W. cbn [Device].
  rewrite Hb. cbn [Z.eqb negb].
  destruct (p_Busy d) as [cb|] eqn:Eb; cbn [is_none].
  - unfold call_Busy, bind, load, ret. cbn [Device]. rewrite Eb.
    unfold log. cbn [Device Params Stack Bus]. now rewrite <- app_assoc.
  - unfold bind, ret. now rewrite app_nil_r.
Qed.

Lemma latch_set tr e rx tx :
  (Z.land
     (idx (snd (exchange rw
                  ((tr ++ [EvCS true; EvRW [S25FL064L_CMD_WREN] 0 e rx;
                           EvCS false]) ++ [EvCS true])
                  (S25FL064L_CMD_RDSR1 :: tx) 2)) 1)
     (Z.shiftl 0x01 S25FL064L_BIT_WEL) =? 0) = false.
Proof.
  apply Z.eqb_neq. rewrite <- app_assoc. apply (latches rw Hresp).
Qed.

Lemma poll_programs tr o f rest :
  page_programs_from o f (poll d rw tr ++ rest) = page_programs rest.
Proof. unfold poll. now destruct (is_none (p_Busy d)). Qed.

Lemma exchange_nothing tr tx : snd (exchange rw tr tx 0) = [].
Proof. reflexivity. Qed.

Ltac exchanged :=
  match goal with
  | |- context [exchange rw ?tr ?tx 0] =>
      let H := fresh "Hok" in
      let H' := fresh "Hrx" in
      pose proof (exchange_ok tr tx 0) as H;
      pose proof (exchange_nothing tr tx) as H';
      destruct (exchange rw tr tx 0) as [? ?];
      cbn [fst snd] in H, H'; subst; cbn [fst snd is_error]
  end.

Lemma run_Write_page_full polls buf r t a tr :
  256 <= r -> 0 <= t ->
  Write_page (S polls) PTR buf r t a (W tr)
  = Return (inr (r - 256, t + 256, uint32 (a + 256)))
      (W (tr ++ [EvRW (bytes_at buf t 255) 0 S25FL064_NO_ERROR [];
                 EvRW (bytes_at buf (t + 255) 1) 0 S25FL064_NO_ERROR [];
                 EvCS false]
             ++ poll d rw
                  (tr ++ [EvRW (bytes_at buf t 255) 0 S25FL064_NO_ERROR [];
                          EvRW (bytes_at buf (t + 255) 1) 0
                            S25FL064_NO_ERROR [];
                          EvCS false]))).
Proof.
  intros Hr Ht. unfold Write_page, orelse.
  replace (S25FL064L_PAGE_SIZE <=? r) with true
    by (symmetry; apply Z.leb_le; exact Hr).
  rewrite !bind_assoc, run_RW. exchanged.
  rewrite bind_ret. cbn [is_error]. rewrite !bind_assoc, run_RW. exchanged.
  rewrite !bind_ret. cbn [is_error error_of_bool]. rewrite run_CS.
  unfold bind at 1. rewrite <- !app_assoc. cbn [app].
  rewrite run_WaitBusy. cbn [is_error]. unfold ret.
  now rewrite <- app_assoc.
Qed.

Lemma run_Write_page_rest polls buf r t a tr :
  r < 256 ->
  Write_page (S polls) PTR buf r t a (W tr)
  = Return (inr (r - r, t, a))
      (W (tr ++ [EvRW (bytes_at buf 0 r) 0 S25FL064_NO_ERROR [];
                 EvCS false]
             ++ poll d rw
                  (tr ++ [EvRW (bytes_at buf 0 r) 0 S25FL064_NO_ERROR [];
                          EvCS false]))).
Proof.
  intros Hr. unfold Write_page.
  replace (S25FL064L_PAGE_SIZE <=? r) with false
    by (symmetry; apply Z.leb_gt; exact Hr).
  rewrite run_RW. exchanged. rewrite run_CS.
  unfold bind at 1. rewrite <- !app_assoc. cbn [app].
  rewrite run_WaitBusy. cbn [is_error]. unfold ret.
  now rewrite <- app_assoc.
Qed.

Lemma Write_loop_pages polls buf pages :
  forall r t a tx tr,
    0 <= r -> 0 <= t -> 0 <= a < 2 ^ 32 -> r / 256 < Z.of_nat pages ->
    exists evs,
      Write_loop pages (S polls) PTR buf tx r t a (W tr)
      = Return S25FL064_NO_ERROR (W (tr ++ evs)) /\
      page_programs evs = loop_plan buf r t a.
Proof.
  induction pages as [|pages IH]; intros r t a tx tr Hr Ht Ha Hb.
  - assert (0 <= r / 256) by (apply Z.div_pos; lia). lia.
  - cbn [Write_loop]. rewrite run_Command by reflexivity.
    cbn [idx nth]. exchanged.
    rewrite run_Command by reflexivity.
    match goal with
    | |- context [exchange rw ?tr' (S25FL064L_CMD_RDSR1 :: ?tx') 2] =>
        pose proof (latch_set tr S25FL064_NO_ERROR [] tx') as HL;
        pose proof (exchange_ok tr' (S25FL064L_CMD_RDSR1 :: tx') 2) as Hx;
        destruct (exchange rw tr' (S25FL064L_CMD_RDSR1 :: tx') 2)
          as [e1 rx1]
    end.
    cbn [fst snd] in *. subst e1. cbn [is_error]. rewrite HL.
    rewrite run_CS, run_RW. exchanged.
    unfold bind at 1.
    assert (Hpp : forall rest,
               page_programs
                 (EvCS true
                  :: EvRW [S25FL064L_CMD_WREN] 0 S25FL064_NO_ERROR []
                  :: EvCS false :: EvCS true
                  :: EvRW (S25FL064L_CMD_RDSR1
                           :: tl (S25FL064L_CMD_WREN :: tl tx))
                       2 S25FL064_NO_ERROR rx1
                  :: EvCS false :: EvCS true
                  :: EvRW (S25FL064L_CMD_4PP :: address_bytes a) 0
                       S25FL064_NO_ERROR []
                  :: rest)
               = page_programs_from (Some (a, [])) false rest).
    { intros rest. unfold page_programs. cbn [page_programs_from].
      change (S25FL064L_CMD_WREN =? S25FL064L_CMD_4PP) with false.
      change (S25FL064L_CMD_RDSR1 =? S25FL064L_CMD_4PP) with false.
      change ((S25FL064L_CMD_4PP =? S25FL064L_CMD_4PP)
              && (length (address_bytes a) =? 4)%nat) with true.
      cbn [andb]. now rewrite be32_address_bytes by assumption. }
    destruct (Z_le_gt_dec 256 r) as [Hfull|Hrest].
    + rewrite run_Write_page_full by assumption.
      rewrite run_CS.
      destruct (0 <? r - 256) eqn:Emore.
      * apply Z.ltb_lt in Emore.
        match goal with
        | |- context [Write_loop pages _ _ _ ?tx' _ _ _ (W ?tr')] =>
            destruct (IH (r - 256) (t + 256) (uint32 (a + 256)) tx' tr')
              as (evs & Heq & Hpl)
        end; try lia.
        { unfold uint32. apply Z.mod_pos_bound. lia. }
        { rewrite Write_budget by lia. lia. }
        rewrite Heq. eexists. split.
        { rewrite <- !app_assoc. reflexivity. }
        cbn [app]. rewrite Hpp. cbn [page_programs_from app].
        rewrite poll_programs. unfold page_programs in *.
        cbn [page_programs_from]. rewrite Hpl.
        rewrite bytes_at_split, (loop_plan_more buf r t a)
          by (assumption || lia).
        reflexivity.
      * apply Z.ltb_ge in Emore. assert (r = 256) by lia. subst r.
        rewrite run_WaitBusy. eexists. split.
        { rewrite <- !app_assoc. reflexivity. }
        cbn [app]. rewrite Hpp. cbn [page_programs_from app].
        rewrite poll_programs. unfold page_programs.
        cbn [page_programs_from].
        rewrite <- (app_nil_r (poll _ _ _)), poll_programs.
        rewrite bytes_at_split, loop_plan_one by (assumption || lia).
        reflexivity.
    + rewrite run_Write_page_rest by lia.
      rewrite run_CS. rewrite Z.sub_diag. cbn [Z.ltb Z.compare].
      rewrite run_WaitBusy. eexists. split.
      { rewrite <- !app_assoc. reflexivity. }
      cbn [app]. rewrite Hpp. cbn [page_programs_from app].
      rewrite poll_programs. unfold page_programs.
      cbn [page_programs_from].
      rewrite <- (app_nil_r (poll _ _ _)), poll_programs.
      rewrite loop_plan_rest by (assumption || lia). reflexivity.
Qed.

Lemma run_EraseSector polls a tr :
  S25FL064L_EraseSector (S polls) PTR a (W tr)
  = Return S25FL064_NO_ERROR
      (W (tr ++ [EvCS true;
                 EvRW [S25FL064L_CMD_WREN] 0 S25FL064_NO_ERROR [];
                 EvCS false;
                 EvCS true;
                 EvRW (S25FL064L_CMD_SE :: address_bytes a) 0
                   S25FL064_NO_ERROR [];
                 EvCS false]
             ++ poll d rw
                  (tr ++ [EvCS true;
                          EvRW [S25FL064L_CMD_WREN] 0 S25FL064_NO_ERROR [];
                          EvCS false;
                          EvCS true;
                          EvRW (S25FL064L_CMD_SE :: address_bytes a) 0
                            S25FL064_NO_ERROR [];
                          EvCS false]))).
Proof.
  unfold S25FL064L_EraseSector. cbn [idx nth].
  rewrite run_Command by reflexivity. exchanged.
  rewrite run_CS, run_RW. exchanged. rewrite run_CS.
  rewrite <- !app_assoc. cbn [app]. rewrite run_WaitBusy.
  now rewrite <- app_assoc.
Qed.

Lemma run_EraseChip polls tr :
  S25FL064L_EraseChip (S polls) PTR (W tr)
  = Return S25FL064_NO_ERROR
      (W (tr ++ [EvCS true;
                 EvRW [S25FL064L_CMD_WREN] 0 S25FL064_NO_ERROR [];
                 EvCS false;
                 EvCS true;
                 EvRW [S25FL064L_CMD_CE] 0 S25FL064_NO_ERROR [];
                 EvCS false]
             ++ poll d rw
                  (tr ++ [EvCS true;
                          EvRW [S25FL064L_CMD_WREN] 0 S25FL064_NO_ERROR [];
                          EvCS false;
                          EvCS true;
                          EvRW [S25FL064L_CMD_CE] 0 S25FL064_NO_ERROR [];
                          EvCS false]))).
Proof.
  unfold S25FL064L_EraseChip.
  rewrite run_Command by reflexivity. exchanged.
  rewrite run_Command by reflexivity. exchanged.
  rewrite <- !app_assoc. cbn [app]. rewrite run_WaitBusy.
  now rewrite <- app_assoc.
Qed.

End Stepping.

(** ** What [S25FL064L_Write] programs *)

Lemma Write_run polls Address buf Length w rw c :
  p_RW (Device w) = Some rw -> p_CS (Device w) = Some c -> responsive rw ->
  0 <= Length -> 0 <= Address < 2 ^ 32 ->
  exists evs,
    S25FL064L_Write (S polls) PTR Address (Some buf) Length w
    = Return S25FL064_NO_ERROR (logs evs w) /\
    page_programs evs = loop_plan buf Length 0 Address.
Proof.
  intros Hrw Hcs Hresp Hl Ha. destruct w as [d ps st tr].
  cbn [Device] in Hrw, Hcs. unfold S25FL064L_Write.
  unfold bind at 1. cbn [automatic].
  destruct (Write_loop_pages d ps st rw c Hrw Hcs Hresp polls buf
              (S (Z.to_nat (Length / S25FL064L_PAGE_SIZE))) Length 0 Address
              (firstn 5 (st ++ repeat 0 5)) tr)
    as (evs & Heq & Hpl); try lia.
  { change S25FL064L_PAGE_SIZE with 256.
    assert (0 <= Length / 256) by (apply Z.div_pos; lia). lia. }
  exists evs. split; [exact Heq|exact Hpl].
Qed.

(** On a chip that answers, a write of [Length] bytes returns no error and
    programs [Length / 256] full pages from the buffer in order, at
    addresses 256 apart from [Address], and then, unless that is all, one
    page more that carries the first [Length mod 256] bytes of the buffer
    (not the bytes that remain). *)
Theorem Write_programs_plan polls Address buf Length w rw c :
  p_RW (Device w) = Some rw -> p_CS (Device w) = Some c -> responsive rw ->
  0 <= Length -> 0 <= Address < 2 ^ 32 ->
  exists evs,
    S25FL064L_Write (S polls) PTR Address (Some buf) Length w
    = Return S25FL064_NO_ERROR (logs evs w) /\
    page_programs evs = write_plan Address buf Length.
Proof.
  intros Hrw Hcs Hresp Hl Ha.
  destruct (Write_run polls Address buf Length w rw c Hrw Hcs Hresp Hl Ha)
    as (evs & Heq & Hpl).
  exists evs. split; [exact Heq|]. rewrite Hpl. reflexivity.
Qed.

Lemma ready_chip_responsive : responsive ready_chip.
Proof.
  constructor.
  - intros tr [|op tx] n; [reflexivity|]. unfold ready_chip, bench_chip.
    repeat match goal with
           | |- context [if ?b then _ else _] => destruct b
           end; reflexivity.
  - intros tr e rx tx. vm_compute. discriminate.
  - reflexivity.
Qed.

Lemma Write_programs_plan_witness :
  let w := bench (Some ready_chip) in
  exists evs,
    S25FL064L_Write 1 PTR 0x1000 (Some (pattern 600)) 600 w
    = Return S25FL064_NO_ERROR (logs evs w) /\
    page_programs evs = write_plan 0x1000 (pattern 600) 600.
Proof.
  intros w.
  apply (Write_programs_plan 0 0x1000 (pattern 600) 600 w ready_chip Callback);
    try reflexivity; try lia.
  exact ready_chip_responsive.
Defined.

Lemma pages_concat buf k :
  concat (map (fun i => bytes_at buf (256 * Z.of_nat i) 256) (seq 0 k))
  = firstn (256 * k) buf.
Proof.
  induction k as [|k IH]; [reflexivity|].
  rewrite seq_S, map_app, concat_app, IH. cbn [Nat.add map concat].
  rewrite app_nil_r. unfold bytes_at.
  replace (Z.to_nat (256 * Z.of_nat k)) with (256 * k)%nat by lia.
  change (Z.to_nat 256) with 256%nat.
  rewrite firstn_plus. f_equal. lia.
Qed.

(** The pages of a write lie 256 bytes apart from [Address], one for every
    256 bytes begun (one for an empty write).  When the length is below one
    page or a whole number of pages, the payloads in order are the first
    [Length] bytes of the buffer: what is written is what was given. *)
Theorem Write_exact_when_short_or_whole_pages polls Address buf Length w rw c :
  p_RW (Device w) = Some rw -> p_CS (Device w) = Some c -> responsive rw ->
  0 <= Length -> 0 <= Address < 2 ^ 32 ->
  exists evs,
    S25FL064L_Write (S polls) PTR Address (Some buf) Length w
    = Return S25FL064_NO_ERROR (logs evs w) /\
    map fst (page_programs evs)
    = map (fun i => uint32 (Address + S25FL064L_PAGE_SIZE * Z.of_nat i))
        (seq 0 (Z.to_nat (Z.max 1 ((Length + 255) / S25FL064L_PAGE_SIZE)))) /\
    (Length < S25FL064L_PAGE_SIZE \/ Length mod S25FL064L_PAGE_SIZE = 0 ->
     concat (map snd (page_programs evs)) = firstn (Z.to_nat Length) buf).
Proof.
  intros Hrw Hcs Hresp Hl Ha.
  destruct (Write_run polls Address buf Length w rw c
              Hrw Hcs Hresp Hl Ha) as (evs & Heq & Hpl).
  change (loop_plan buf Length 0 Address)
    with (write_plan Address buf Length) in Hpl.
  exists evs. split; [exact Heq|]. rewrite Hpl. clear Heq Hpl.
  unfold write_plan. change S25FL064L_PAGE_SIZE with 256.
  pose proof (Z.div_mod Length 256 ltac:(lia)) as Hdm.
  pose proof (Z.mod_pos_bound Length 256 ltac:(lia)) as Hm.
  assert (Hk : 0 <= Length / 256) by (apply Z.div_pos; lia).
  set (k := Length / 256) in *. set (m := Length mod 256) in *.
  assert (Hsmall : Length < 256 -> k = 0)
    by (intros; subst k; apply Z.div_small; lia).
  clearbody k m. split.
  - rewrite map_app, map_map. cbn [fst].
    destruct ((m =? 0) && (0 <? k)) eqn:E.
    + apply andb_true_iff in E. destruct E as [Em Ek].
      apply Z.eqb_eq in Em. apply Z.ltb_lt in Ek.
      replace ((Length + 255) / 256) with k.
      * rewrite app_nil_r, Z.max_r by lia. reflexivity.
      * apply Z.div_unique with (r := 255); lia.
    + assert (Hn : (Length + 255) / 256 = k + 1 \/ (Length = 0 /\ k = 0)).
      { apply andb_false_iff in E. destruct E as [E|E].
        - apply Z.eqb_neq in E. left. symmetry.
          apply Z.div_unique with (r := m - 1); lia.
        - apply Z.ltb_ge in E. assert (k = 0) by lia.
          destruct (Z.eq_dec m 0); [right; lia|]. left. symmetry.
          apply Z.div_unique with (r := m - 1); lia. }
      assert (Hc : Z.to_nat (Z.max 1 ((Length + 255) / 256))
                   = S (Z.to_nat k)).
      { destruct Hn as [Hn|[Hn Hk0]].
        - rewrite Hn. lia.
        - rewrite Hn, Hk0. reflexivity. }
      rewrite Hc, seq_S, map_app. cbn [Nat.add map].
      rewrite Z2Nat.id by lia. reflexivity.
  - intros Hs. rewrite map_app, map_map, concat_app. cbn [snd].
    rewrite (pages_concat buf (Z.to_nat k)).
    destruct ((m =? 0) && (0 <? k)) eqn:E.
    + apply andb_true_iff in E. destruct E as [Em Ek].
      apply Z.eqb_eq in Em. cbn [map concat]. rewrite app_nil_r.
      f_equal. lia.
    + cbn [map concat]. rewrite app_nil_r.
      apply andb_false_iff in E.
      assert (Hk0 : k = 0).
      { destruct Hs as [Hs|Hs].
        - auto.
        - destruct E as [E|E]; [apply Z.eqb_neq in E; lia|].
          apply Z.ltb_ge in E. lia. }
      subst k. change (Z.to_nat 0) with 0%nat. rewrite Nat.mul_0_r.
      cbn [firstn app snd]. unfold bytes_at.
      change (Z.to_nat 0) with 0%nat. cbn [skipn]. f_equal. lia.
Qed.

Lemma Write_exact_when_short_or_whole_pages_witness :
  let w := bench (Some ready_chip) in
  exists evs,
    S25FL064L_Write 1 PTR 0x1000 (Some (pattern 512)) 512 w
    = Return S25FL064_NO_ERROR (logs evs w) /\
    map fst (page_programs evs)
    = map (fun i => uint32 (0x1000 + S25FL064L_PAGE_SIZE * Z.of_nat i))
        (seq 0 (Z.to_nat (Z.max 1 ((512 + 255) / S25FL064L_PAGE_SIZE)))) /\
    (512 < S25FL064L_PAGE_SIZE \/ 512 mod S25FL064L_PAGE_SIZE = 0 ->
     concat (map snd (page_programs evs)) = firstn (Z.to_nat 512) (pattern 512)).
Proof.
  intros w.
  apply (Write_exact_when_short_or_whole_pages 0 0x1000 (pattern 512) 512 w
           ready_chip Callback);
    try reflexivity; try lia.
  exact ready_chip_responsive.
Defined.

(** ** Erasing *)

(** On a chip that answers, a sector erase returns no error after exactly
    a write-enable frame, an erase frame that carries the opcode and the
    four bytes of the address, most significant first, and one status
    poll. *)
Theorem EraseSector_frames polls a w rw c :
  p_RW (Device w) = Some rw -> p_CS (Device w) = Some c -> responsive rw ->
  S25FL064L_EraseSector (S polls) PTR a w
  = Return S25FL064_NO_ERROR
      (logs (sector_erase_frames a
             ++ poll (Device w) rw (Bus w ++ sector_erase_frames a)) w) /\
  (0 <= a < 2 ^ 32 -> be32 (address_bytes a) = a).
Proof.
  intros Hrw Hcs Hresp. split; [|apply be32_address_bytes].
  destruct w as [d ps st tr]. cbn [Device Bus] in *.
  now rewrite (run_EraseSector d ps st rw c Hrw Hcs Hresp).
Qed.

Lemma EraseSector_frames_witness :
  let w := bench (Some ready_chip) in
  S25FL064L_EraseSector 1 PTR 0x5000 w
  = Return S25FL064_NO_ERROR
      (logs (sector_erase_frames 0x5000
             ++ poll (Device w) ready_chip (Bus w ++ sector_erase_frames 0x5000))
         w) /\
  (0 <= 0x5000 < 2 ^ 32 -> be32 (address_bytes 0x5000) = 0x5000).
Proof.
  intros w.
  apply (EraseSector_frames 0 0x5000 w ready_chip Callback);
    [reflexivity | reflexivity | exact ready_chip_responsive].
Defined.

(** On a chip that answers, a chip erase returns no error after exactly a
    write-enable frame, the one-byte chip-erase frame and one status
    poll. *)
Theorem EraseChip_frames polls w rw c :
  p_RW (Device w) = Some rw -> p_CS (Device w) = Some c -> responsive rw ->
  S25FL064L_EraseChip (S polls) PTR w
  = Return S25FL064_NO_ERROR
      (logs (chip_erase_frames
             ++ poll (Device w) rw (Bus w ++ chip_erase_frames)) w).
Proof.
  intros Hrw Hcs Hresp. destruct w as [d ps st tr]. cbn [Device Bus] in *.
  now rewrite (run_EraseChip d ps st rw c Hrw Hcs Hresp).
Qed.

Lemma EraseChip_frames_witness :
  let w := bench (Some ready_chip) in
  S25FL064L_EraseChip 1 PTR w
  = Return S25FL064_NO_ERROR
      (logs (chip_erase_frames
             ++ poll (Device w) ready_chip (Bus w ++ chip_erase_frames)) w).
Proof.
  intros w.
  apply (EraseChip_frames 0 w ready_chip Callback);
    [reflexivity | reflexivity | exact ready_chip_responsive].
Defined.

(** ** The busy poll *)

Lemma Command_cases p tx pd n w :
  is_null pd && (0 <? n) = false ->
  S25FL064L_Command p tx pd n w = Return (S25FL064_INVALID_PARAM, []) w \/
  exists rw c,
    p = PTR /\ p_RW (Device w) = Some rw /\ p_CS (Device w) = Some c /\
    S25FL064L_Command p tx pd n w
    = Return (exchange rw (Bus w ++ [EvCS true]) tx n)
        (logs [EvCS true;
               EvRW tx n (fst (exchange rw (Bus w ++ [EvCS true]) tx n))
                 (snd (exchange rw (Bus w ++ [EvCS true]) tx n));
               EvCS false] w).
Proof.
  intros Hpd. destruct p; [left; apply Command_no_transport; auto|].
  destruct (p_RW (Device w)) as [rw|] eqn:Erw;
    [|left; apply Command_no_transport; auto].
  destruct (p_CS (Device w)) as [c|] eqn:Ecs;
    [|left; apply Command_no_transport; auto].
  right. exists rw, c. repeat split; auto. now apply Command_PTR with (c := c).
Qed.

(** [S25FL064L_WaitBusy] returns no error only on a status read that shows
    no write in progress: the last frame of its log is a status read that
    succeeded with bit 0 of the status clear, followed at most by the call
    of the busy function for that poll. *)
Theorem WaitBusy_returns_ready polls p w e w' :
  S25FL064L_WaitBusy polls p w = Return e w' -> is_error e = false ->
  exists evs rx tail,
    Bus w' = Bus w ++ evs ++ EvCS true
             :: EvRW [S25FL064L_CMD_RDSR1] 2 S25FL064_NO_ERROR rx
             :: EvCS false :: tail /\
    (tail = [] \/ tail = [EvBusy]) /\
    Z.land (idx rx 1) (Z.shiftl 0x01 S25FL064L_BIT_BUSY) = 0.
Proof.
  revert w. induction polls as [|polls IH]; intros w H He;
    cbn [S25FL064L_WaitBusy] in H; [discriminate H|].
  unfold bind at 1 in H.
  destruct (Command_cases p [S25FL064L_CMD_RDSR1] PTR 2 w eq_refl)
    as [Hc|(rw & c & -> & Hrw & Hcs & Hc)]; rewrite Hc in H.
  { injection H as <- _. discriminate He. }
  set (tr1 := Bus w ++ [EvCS true]) in *.
  destruct (exchange rw tr1 [S25FL064L_CMD_RDSR1] 2) as [e1 rx1].
  cbn [fst snd] in H.
  destruct (is_error e1) eqn:He1.
  { injection H as <- _. congruence. }
  destruct e1; try discriminate He1. clear He1. unfold bind at 1 in H. cbn [load logs Device] in H.
  assert (Hstep :
            forall tail w2,
              Bus w2 = Bus w ++ [EvCS true;
                                 EvRW [S25FL064L_CMD_RDSR1] 2
                                   S25FL064_NO_ERROR rx1;
                                 EvCS false] ++ tail ->
              (tail = [] \/ tail = [EvBusy]) ->
              (if negb (Z.land (idx rx1 1) (Z.shiftl 1 S25FL064L_BIT_BUSY)
                        =? 0)
               then S25FL064L_WaitBusy polls PTR
               else ret S25FL064_NO_ERROR) w2 = Return e w' ->
              exists evs rx tail0,
                Bus w' = Bus w ++ evs ++ EvCS true
                         :: EvRW [S25FL064L_CMD_RDSR1] 2 S25FL064_NO_ERROR rx
                         :: EvCS false :: tail0 /\
                (tail0 = [] \/ tail0 = [EvBusy]) /\
                Z.land (idx rx 1) (Z.shiftl 1 S25FL064L_BIT_BUSY) = 0).
  { intros tail w2 Hb Ht Hk.
    destruct (Z.land (idx rx1 1) (Z.shiftl 1 S25FL064L_BIT_BUSY) =? 0) eqn:Eb;
      cbn [negb] in Hk.
    - injection Hk as _ <-. apply Z.eqb_eq in Eb.
      exists [], rx1, tail. cbn [app]. repeat split; auto.
    - destruct (IH w2 Hk He) as (evs & rx & tail0 & Hb2 & Ht2 & Hr).
      exists ([EvCS true;
               EvRW [S25FL064L_CMD_RDSR1] 2 S25FL064_NO_ERROR rx1;
               EvCS false] ++ tail ++ evs), rx, tail0.
      repeat split; auto. rewrite Hb2, Hb, <- !app_assoc. reflexivity. }
  destruct (p_Busy (Device w)) as [cb|] eqn:Ebusy; cbn [is_none] in H.
  - unfold bind at 1 in H. unfold call_Busy, bind, load, ret in H.
    cbn [Device logs] in H. rewrite Ebusy in H.
    eapply (Hstep [EvBusy]); [|auto|exact H].
    cbn [log Bus app logs]. now rewrite <- app_assoc.
  - unfold bind at 1 in H. cbn [ret] in H.
    eapply (Hstep []); [|auto|exact H]. reflexivity.
Qed.

Lemma WaitBusy_returns_ready_witness :
  let w := bench (Some ready_chip) in
  let w' := world_of (S25FL064L_WaitBusy 3 PTR w) in
  S25FL064L_WaitBusy 3 PTR w = Return S25FL064_NO_ERROR w' /\
  is_error S25FL064_NO_ERROR = false /\
  exists evs rx tail,
    Bus w' = Bus w ++ evs ++ EvCS true
             :: EvRW [S25FL064L_CMD_RDSR1] 2 S25FL064_NO_ERROR rx
             :: EvCS false :: tail /\
    (tail = [] \/ tail = [EvBusy]) /\
    Z.land (idx rx 1) (Z.shiftl 0x01 S25FL064L_BIT_BUSY) = 0.
Proof.
  intros w w'.
  assert (H : S25FL064L_WaitBusy 3 PTR w = Return S25FL064_NO_ERROR w')
    by (vm_compute; reflexivity).
  exact (conj H (conj eq_refl
                   (WaitBusy_returns_ready 3 PTR w _ w' H eq_refl))).
Defined.

(** ** The bytes of an exchange and of an address *)

(** The four address bytes of a command frame are bytes, and read back
    most significant first they give the address modulo [2 ^ 32]. *)
Theorem address_bytes_round_trip a :
  length (address_bytes a) = 4%nat /\
  Forall (fun b => 0 <= b < 256) (address_bytes a) /\
  be32 (address_bytes a) = a mod 2 ^ 32.
Proof.
  split; [reflexivity|]. split.
  - rewrite address_bytes_spec.
    repeat constructor; apply Z.mod_pos_bound; lia.
  - assert (H : address_bytes a = address_bytes (a mod 2 ^ 32)).
    { unfold address_bytes. rewrite <- (Z.land_ones a 32) by lia.
      rewrite <- !Z.land_assoc. reflexivity. }
    rewrite H. apply be32_address_bytes. apply Z.mod_pos_bound. lia.
Qed.

(** ** The data of a read *)

Lemma Read_loop_data chunks :
  forall r acc w rw c e data w',
    p_RW (Device w) = Some rw -> p_CS (Device w) = Some c ->
    0 <= r -> r / 255 <= Z.of_nat chunks ->
    Forall (fun b => 0 <= b < 256) acc ->
    Read_loop (S chunks) PTR r acc w = Return (e, data) w' ->
    Forall (fun b => 0 <= b < 256) data /\
    (is_error e = false -> Z.of_nat (length data) = Z.of_nat (length acc) + r).
Proof.
  induction chunks as [|chunks IH];
    intros r acc w rw c e data w' Hrw Hcs Hr Hb Hacc H.
  - assert (Hs : r <= 255).
    { destruct (Z_le_gt_dec r 255); [assumption|].
      assert (1 <= r / 255) by (apply Z.div_le_lower_bound; lia). lia. }
    cbn [Read_loop] in H. unfold bind at 1 in H.
    assert (Ht : (if 255 <? r then 255 else uint8 r) = r).
    { destruct (255 <? r) eqn:E; [apply Z.ltb_lt in E; lia|].
      unfold uint8. apply Z.mod_small. lia. }
    rewrite Ht, (call_RW_PTR [] r w rw Hrw) in H.
    assert (Hlen := rx_store_length r (snd (rw (Bus w) [] r))).
    assert (Hby := rx_store_bytes r (snd (rw (Bus w) [] r))).
    change (rx_store r (snd (rw (Bus w) [] r)))
      with (snd (exchange rw (Bus w) [] r)) in Hlen, Hby.
    destruct (exchange rw (Bus w) [] r) as [e1 rx]. cbn [fst snd] in *.
    rewrite Z.sub_diag in H. cbn [Z.ltb Z.compare] in H.
    destruct (is_error e1); unfold bind in H;
      rewrite (call_CS_PTR false (logs _ w) c Hcs) in H;
      unfold ret in H; injection H as <- <- _;
      (split; [apply Forall_app; auto | rewrite length_app; lia]).
  - remember (S chunks) as k eqn:Ek. cbn [Read_loop] in H.
    unfold bind at 1 in H.
    destruct (255 <? r) eqn:E.
    + apply Z.ltb_lt in E.
      rewrite (call_RW_PTR [] 255 w rw Hrw) in H.
      assert (Hlen := rx_store_length 255 (snd (rw (Bus w) [] 255))).
      assert (Hby := rx_store_bytes 255 (snd (rw (Bus w) [] 255))).
      change (rx_store 255 (snd (rw (Bus w) [] 255)))
        with (snd (exchange rw (Bus w) [] 255)) in Hlen, Hby.
      destruct (exchange rw (Bus w) [] 255) as [e1 rx]. cbn [fst snd] in *.
      destruct (is_error e1) eqn:He1.
      * unfold bind in H. rewrite (call_CS_PTR false (logs _ w) c Hcs) in H.
        unfold ret in H. injection H as <- <- _.
        split; [apply Forall_app; auto | congruence].
      * assert (Hp : (0 <? r - 255) = true) by (apply Z.ltb_lt; lia).
        rewrite Hp in H. subst k.
        destruct (IH (r - 255) (acc ++ rx) (logs [EvRW [] 255 e1 rx] w)
                    rw c e data w' Hrw Hcs
                    ltac:(lia)
                    ltac:(rewrite Read_budget by lia; lia)
                    ltac:(apply Forall_app; auto) H) as [Hf Hl].
        split; [exact Hf|]. intros He. rewrite (Hl He), length_app. lia.
    + apply Z.ltb_ge in E.
      assert (Ht : uint8 r = r) by (unfold uint8; apply Z.mod_small; lia).
      rewrite Ht, (call_RW_PTR [] r w rw Hrw) in H.
      assert (Hlen := rx_store_length r (snd (rw (Bus w) [] r))).
      assert (Hby := rx_store_bytes r (snd (rw (Bus w) [] r))).
      change (rx_store r (snd (rw (Bus w) [] r)))
        with (snd (exchange rw (Bus w) [] r)) in Hlen, Hby.
      destruct (exchange rw (Bus w) [] r) as [e1 rx]. cbn [fst snd] in *.
      rewrite Z.sub_diag in H. cbn [Z.ltb Z.compare] in H.
      destruct (is_error e1); unfold bind in H;
        rewrite (call_CS_PTR false (logs _ w) c Hcs) in H;
        unfold ret in H; injection H as <- <- _;
        (split; [apply Forall_app; auto | rewrite length_app; lia]).
Qed.

(** A read that returns no error has stored exactly [Length] bytes, each
    a byte, also for [Length = 0]. *)
Theorem Read_returns_length Start Length w rw c e data w' :
  p_RW (Device w) = Some rw -> p_CS (Device w) = Some c ->
  0 <= Length ->
  S25FL064L_Read PTR Start PTR Length w = Return (e, data) w' ->
  is_error e = false ->
  Z.of_nat (length data) = Length /\ Forall (fun b => 0 <= b < 256) data.
Proof.
  intros Hrw Hcs Hl H He. unfold S25FL064L_Read in H. cbn [is_null orb] in H.
  unfold bind at 1 in H. rewrite (call_CS_PTR true w c Hcs) in H.
  unfold bind at 1 in H.
  rewrite (call_RW_PTR (S25FL064L_CMD_4READ :: address_bytes Start) 0
             (logs [EvCS true] w) rw Hrw) in H.
  destruct (exchange rw _ _ 0) as [e0 rx0]. cbn [fst snd] in H.
  destruct (is_error e0) eqn:He0.
  - unfold bind in H.
    rewrite (call_CS_PTR false (logs _ (logs _ w)) c Hcs) in H.
    unfold ret in H. injection H as <- _ _. congruence.
  - apply (Read_loop_data (Z.to_nat (Length / 255)) Length [] _ rw c) in H;
      [|assumption|assumption|lia|lia|constructor].
    destruct H as [Hf Hlen].
    split; [|exact Hf]. rewrite (Hlen He). cbn [length]. lia.
Qed.

Lemma Read_returns_length_witness :
  let w := bench (Some ready_chip) in
  let o := S25FL064L_Read PTR 0x1000 PTR 300 w in
  o = Return (S25FL064_NO_ERROR, repeat 0xFF 300) (world_of o) /\
  Z.of_nat (length (repeat 0xFF 300)) = 300 /\
  Forall (fun b => 0 <= b < 256) (repeat 0xFF 300).
Proof.
  intros w o.
  assert (H : o = Return (S25FL064_NO_ERROR, repeat 0xFF 300) (world_of o))
    by (vm_compute; reflexivity).
  exact (conj H (Read_returns_length 0x1000 300 w ready_chip Callback _ _ _
                   eq_refl eq_refl ltac:(lia) H eq_refl)).
Defined.

Lemma call_CS_missing b w :
  p_CS (Device w) = None -> call_CS PTR b w = Fault w.
Proof. intros H. unfold call_CS, bind, load. now rewrite H. Qed.

Lemma call_RW_missing tx n w :
  p_RW (Device w) = None -> call_RW PTR tx n w = Fault w.
Proof. intros H. unfold call_RW, bind, load. now rewrite H. Qed.

(** [S25FL064L_Read] tests the handle and the buffer, not the transport.
    On a handle without chip-select function it calls through the NULL
    pointer at once; on a handle with chip select but without exchange
    function it does so after it has asserted chip select, which then stays
    asserted. *)
Theorem Read_without_transport Start Length w :
  (p_CS (Device w) = None ->
   S25FL064L_Read PTR Start PTR Length w = Fault w) /\
  (forall c,
      p_CS (Device w) = Some c -> p_RW (Device w) = None ->
      S25FL064L_Read PTR Start PTR Length w = Fault (logs [EvCS true] w) /\
      selected (Bus (logs [EvCS true] w)) = true).
Proof.
  split.
  - intros Hcs. unfold S25FL064L_Read. cbn [is_null orb].
    unfold bind at 1. now rewrite call_CS_missing.
  - intros c Hcs Hrw. split.
    + unfold S25FL064L_Read. cbn [is_null orb]. unfold bind at 1.
      rewrite (call_CS_PTR true w c Hcs). unfold bind at 1.
      now rewrite (call_RW_missing _ _ (logs [EvCS true] w) Hrw).
    + cbn [logs Bus]. unfold selected. rewrite observe_app.
      unfold observe_from. cbn [fold_left observe_step line].
      reflexivity.
Qed.

Lemma Read_without_transport_witness :
  S25FL064L_Read PTR 0 PTR 4 (bench None)
  = Fault (logs [EvCS true] (bench None)) /\
  selected (Bus (logs [EvCS true] (bench None))) = true.
Proof.
  apply (proj2 (Read_without_transport 0 4 (bench None)) Callback);
    reflexivity.
Defined.

(** ** The identity read *)

Lemma lor_shiftl_byte a b :
  0 <= b < 256 -> Z.lor (Z.shiftl a 0x08) b = 256 * a + b.
Proof.
  intros Hb.
  assert (H : Z.land (Z.shiftl a 8) b = 0).
  { apply Z.bits_inj'. intros n Hn.
    rewrite Z.land_spec, Z.testbit_0_l.
    destruct (Z_lt_ge_dec n 8) as [Hlt|Hge].
    - now rewrite Z.shiftl_spec_low.
    - destruct (Z.eq_dec b 0) as [->|Hnz].
      + rewrite Z.testbit_0_l. apply andb_false_r.
      + rewrite (Z.bits_above_log2 b n); [apply andb_false_r | lia |].
        assert (Z.log2 b < 8) by (apply Z.log2_lt_pow2; lia). lia. }
  pose proof (Z.add_lor_land (Z.shiftl a 8) b) as Hs.
  rewrite H in Hs. change 0x08 with 8.
  rewrite (Z.shiftl_mul_pow2 a 8) in Hs at 2 by lia.
  change (2 ^ 8) with 256 in Hs. lia.
Qed.

(** [S25FL064L_ReadID] sends the one-byte identity command and asks for
    four bytes.  When the exchange succeeds, the second byte received is
    stored as the manufacturer and the third and fourth, most significant
    first, as the 16-bit device identity, and nothing else of the handle
    changes; when it fails the handle is not written. *)
Theorem ReadID_decodes p w e w' :
  S25FL064L_ReadID p w = Return e w' ->
  if is_error e then Device w' = Device w
  else
    exists rx,
      Bus w' = Bus w ++ [EvCS true;
                         EvRW [S25FL064L_CMD_RDID] 4 S25FL064_NO_ERROR rx;
                         EvCS false] /\
      Device w'
      = set_DID (256 * idx rx 2 + idx rx 3) (set_MID (idx rx 1) (Device w)) /\
      0 <= idx rx 1 < 256 /\ 0 <= 256 * idx rx 2 + idx rx 3 < 65536.
Proof.
  unfold S25FL064L_ReadID. intros H. unfold bind at 1 in H.
  destruct (Command_cases p [S25FL064L_CMD_RDID] PTR 4 w eq_refl)
    as [Hc|(rw & c & -> & Hrw & Hcs & Hc)]; rewrite Hc in H.
  { injection H as <- <-. reflexivity. }
  assert (Hby := rx_store_bytes 4
                   (snd (rw (Bus w ++ [EvCS true]) [S25FL064L_CMD_RDID] 4))).
  change (rx_store 4 _)
    with (snd (exchange rw (Bus w ++ [EvCS true]) [S25FL064L_CMD_RDID] 4))
    in Hby.
  destruct (exchange rw (Bus w ++ [EvCS true]) [S25FL064L_CMD_RDID] 4)
    as [e1 rx]. cbn [fst snd] in *.
  pose proof (idx_byte rx 1 Hby) as H1.
  pose proof (idx_byte rx 2 Hby) as H2.
  pose proof (idx_byte rx 3 Hby) as H3.
  destruct (is_error e1) eqn:He1.
  - injection H as <- <-. rewrite He1. reflexivity.
  - destruct e1; try discriminate He1.
    unfold bind, store, ret in H. cbn [logs Device Params Stack Bus] in H.
    injection H as <- <-. cbn [is_error Device Bus].
    assert (Hv : uint16 (Z.lor (Z.shiftl (idx rx 2) 0x08) (idx rx 3))
                 = 256 * idx rx 2 + idx rx 3).
    { rewrite lor_shiftl_byte by assumption.
      unfold uint16. apply Z.mod_small. lia. }
    exists rx. split; [reflexivity|]. split; [|split; [assumption|lia]].
    rewrite <- Hv. reflexivity.
Qed.

Lemma ReadID_decodes_witness :
  let w := bench (Some ready_chip) in
  let w' := world_of (S25FL064L_ReadID PTR w) in
  S25FL064L_ReadID PTR w = Return S25FL064_NO_ERROR w' /\
  exists rx,
    Bus w' = Bus w ++ [EvCS true;
                       EvRW [S25FL064L_CMD_RDID] 4 S25FL064_NO_ERROR rx;
                       EvCS false] /\
    Device w'
    = set_DID (256 * idx rx 2 + idx rx 3) (set_MID (idx rx 1) (Device w)) /\
    0 <= idx rx 1 < 256 /\ 0 <= 256 * idx rx 2 + idx rx 3 < 65536.
Proof.
  intros w w'.
  assert (H : S25FL064L_ReadID PTR w = Return S25FL064_NO_ERROR w')
    by (vm_compute; reflexivity).
  exact (conj H (ReadID_decodes PTR w _ w' H)).
Defined.

(** ** The power-down flag *)

(** [S25FL064L_EnterPowerDown] and [S25FL064L_LeavePowerDown] write one
    field of the handle, and only when they return no error: the first
    sets [isPowerDown], the second clears it. *)
Theorem PowerDown_flag polls p w :
  (forall e w',
      S25FL064L_EnterPowerDown p w = Return e w' ->
      Device w' = if is_error e then Device w
                  else set_isPowerDown true (Device w)) /\
  (forall e w',
      S25FL064L_LeavePowerDown polls p w = Return e w' ->
      Device w' = if is_error e then Device w
                  else set_isPowerDown false (Device w)).
Proof.
  split; intros e w' H.
  - assert (Hd : dt (Device w) (S25FL064L_EnterPowerDown p)
                   (fun e d' => d' = if is_error e then Device w
                                     else set_isPowerDown true (Device w))).
    { unfold S25FL064L_EnterPowerDown. dt_run.
      all: repeat match goal with
             | H : is_error ?e = _ |- context [is_error ?e] => rewrite H
             end; reflexivity. }
    specialize (Hd w eq_refl). now rewrite H in Hd.
  - assert (Hd : dt (Device w) (S25FL064L_LeavePowerDown polls p)
                   (fun e d' => d' = if is_error e then Device w
                                     else set_isPowerDown false (Device w))).
    { unfold S25FL064L_LeavePowerDown. dt_run.
      all: repeat match goal with
             | H : is_error ?e = _ |- context [is_error ?e] => rewrite H
             end; reflexivity. }
    specialize (Hd w eq_refl). now rewrite H in Hd.
Qed.

(** ** The handle and the data operations *)

Lemma keeps_ret {A} (a : A) : keeps (ret a).
Proof. intros w. cbn. auto. Qed.

Lemma keeps_spin {A} : keeps (@spin A).
Proof. intros w. cbn. auto. Qed.

Lemma keeps_fault {A} : keeps (@fault A).
Proof. intros w. cbn. auto. Qed.

Lemma keeps_bind {A B} (m : M A) (k : A -> M B) :
  keeps m -> (forall a, keeps (k a)) -> keeps (bind m k).
Proof.
  intros Hm Hk w. unfold bind. specialize (Hm w).
  destruct (m w) as [a w1|w1|w1]; cbn [world_of] in *; auto.
  destruct (Hk a w1) as (H1 & H2 & H3). destruct Hm as (H4 & H5 & H6).
  repeat split; congruence.
Qed.

Lemma keeps_load p : keeps (load p).
Proof. intros w. unfold load. destruct p; cbn; auto. Qed.

Lemma keeps_automatic n : keeps (automatic n).
Proof. intros w. cbn. auto. Qed.

Lemma keeps_log {A} (a : A) e : keeps (fun w => Return a (log e w)).
Proof. intros w. cbn. auto. Qed.

Lemma keeps_call_CS p b : keeps (call_CS p b).
Proof.
  unfold call_CS. apply keeps_bind; [apply keeps_load|]. intros d.
  destruct (p_CS d); [apply keeps_log | apply keeps_fault].
Qed.

Lemma keeps_call_Busy p : keeps (call_Busy p).
Proof.
  unfold call_Busy. apply keeps_bind; [apply keeps_load|]. intros d.
  destruct (p_Busy d); [apply keeps_log | apply keeps_fault].
Qed.

Lemma keeps_call_RW p tx n : keeps (call_RW p tx n).
Proof.
  unfold call_RW. apply keeps_bind; [apply keeps_load|]. intros d.
  destruct (p_RW d) as [rw|]; [|apply keeps_fault].
  intros w. destruct (rw (Bus w) tx n). cbn. auto.
Qed.

Lemma keeps_no_transport p : keeps (no_transport p).
Proof.
  unfold no_transport. destruct (is_null p); [apply keeps_ret|].
  apply keeps_bind; [apply keeps_load | intros; apply keeps_ret].
Qed.

Ltac keeps_step :=
  first
    [ apply keeps_ret | apply keeps_spin | apply keeps_fault
    | apply keeps_load | apply keeps_automatic | apply keeps_call_CS
    | apply keeps_call_Busy | apply keeps_call_RW | apply keeps_no_transport
    | apply keeps_bind; [|intros ?]
    | match goal with
      | |- keeps (orelse _ _) => unfold orelse
      | |- keeps (if ?b then _ else _) => destruct b
      | |- keeps (match ?x with _ => _ end) => destruct x
      end ].

Lemma keeps_Command p tx pd n : keeps (S25FL064L_Command p tx pd n).
Proof. unfold S25FL064L_Command. repeat keeps_step. Qed.

Lemma keeps_WaitBusy polls p : keeps (S25FL064L_WaitBusy polls p).
Proof.
  induction polls as [|polls IH]; cbn [S25FL064L_WaitBusy].
  - apply keeps_spin.
  - repeat first [exact IH | apply keeps_Command | keeps_step].
Qed.

Lemma keeps_Write_page polls p buf r t a :
  keeps (Write_page polls p buf r t a).
Proof.
  unfold Write_page. repeat first [apply keeps_WaitBusy | keeps_step].
Qed.

Lemma keeps_Write_loop pages polls p buf :
  forall tx r t a, keeps (Write_loop pages polls p buf tx r t a).
Proof.
  induction pages as [|pages IH]; intros tx r t a; cbn [Write_loop].
  - apply keeps_spin.
  - repeat first [apply IH | apply keeps_Command | apply keeps_WaitBusy
                 | apply keeps_Write_page | keeps_step].
Qed.

Lemma keeps_Read_loop chunks p :
  forall r acc, keeps (Read_loop chunks p r acc).
Proof.
  induction chunks as [|chunks IH]; intros r acc; cbn [Read_loop].
  - apply keeps_spin.
  - repeat first [apply IH | keeps_step].
Qed.

(** Of the nine operations only [S25FL064L_Init], [S25FL064L_Reset] and the
    two power-down functions write the handle.  Reading, writing, erasing
    and [S25FL064L_GetError] leave the device structure as it was, whatever
    the outcome. *)
Theorem data_operations_keep_handle polls c w :
  writes_handle c = false ->
  Device (world_of (run polls c w)) = Device w /\
  Params (world_of (run polls c w)) = Params w /\
  Stack (world_of (run polls c w)) = Stack w.
Proof.
  intros Hc. revert w. change (keeps (run polls c)).
  destruct c; try discriminate Hc; cbn [run].
  - unfold S25FL064L_GetError.
    repeat first [apply keeps_Command | keeps_step].
  - unfold S25FL064L_EraseSector.
    repeat first [apply keeps_Command | apply keeps_WaitBusy | keeps_step].
  - unfold S25FL064L_EraseChip.
    repeat first [apply keeps_Command | apply keeps_WaitBusy | keeps_step].
  - unfold S25FL064L_Write.
    repeat first [apply keeps_Write_loop | keeps_step].
  - unfold S25FL064L_Read.
    repeat first [apply keeps_Read_loop | keeps_step].
Qed.

Lemma data_operations_keep_handle_witness :
  let c := Call_Write PTR 0x1000 (Some [1; 2; 3]) 3 in
  let w := bench (Some ready_chip) in
  writes_handle c = false /\
  Device (world_of (run 1 c w)) = Device w /\
  Params (world_of (run 1 c w)) = Params w /\
  Stack (world_of (run 1 c w)) = Stack w.
Proof.
  intros c w. split; [reflexivity|].
  exact (data_operations_keep_handle 1 c w eq_refl).
Defined.

(** ** The error flags when nothing is stored *)

(** When [S25FL064L_GetError] returns without storing an output, the read
    of status register 2 has failed: the result is an error, and the log
    has at most that one frame.  The clear-status command is not sent. *)
Theorem GetError_failed_read p pe w e w' :
  S25FL064L_GetError p pe w = Return (e, None) w' ->
  is_error e = true /\
  (Bus w' = Bus w \/
   exists rx,
     Bus w' = Bus w ++ [EvCS true; EvRW [S25FL064L_CMD_RDSR2] 2 e rx;
                        EvCS false]).
Proof.
  unfold S25FL064L_GetError. intros H. unfold bind at 1 in H.
  destruct (Command_cases p [S25FL064L_CMD_RDSR2] PTR 2 w eq_refl)
    as [Hc|(rw & c & -> & Hrw & Hcs & Hc)]; rewrite Hc in H.
  { injection H as <- <-. auto. }
  destruct (exchange rw (Bus w ++ [EvCS true]) [S25FL064L_CMD_RDSR2] 2)
    as [e1 rx]. cbn [fst snd] in H.
  destruct (is_error e1) eqn:He1.
  - injection H as <- <-. split; [assumption|]. right. now exists rx.
  - exfalso. unfold bind at 1 in H.
    destruct pe; cbn [is_null] in H; [discriminate H|].
    unfold ret at 1 in H. unfold bind at 1 in H.
    destruct (S25FL064L_Command PTR [S25FL064L_CMD_CLSR] NULL 0 _)
      as [[e2 rx2] w2|w2|w2]; discriminate H.
Qed.

Lemma GetError_failed_read_witness :
  let w := bench (Some (failing_at S25FL064L_CMD_RDSR2 ready_chip)) in
  let w' := world_of (S25FL064L_GetError PTR PTR w) in
  S25FL064L_GetError PTR PTR w = Return (S25FL064_INVALID_PARAM, None) w' /\
  is_error S25FL064_INVALID_PARAM = true /\
  (Bus w' = Bus w \/
   exists rx,
     Bus w' = Bus w ++ [EvCS true;
                        EvRW [S25FL064L_CMD_RDSR2] 2 S25FL064_INVALID_PARAM rx;
                        EvCS false]).
Proof.
  intros w w'.
  assert (H : S25FL064L_GetError PTR PTR w
              = Return (S25FL064_INVALID_PARAM, None) w')
    by (vm_compute; reflexivity).
  exact (conj H (GetError_failed_read PTR PTR w _ w' H)).
Defined.

(** [S25FL064L_GetError] does not check [p_Error].  With a transport whose
    status read succeeds and a null [p_Error], the function reads the
    status register and then writes through the null pointer; nothing is
    returned and the clear-status command is not sent. *)
Theorem GetError_null_output w rw c :
  p_RW (Device w) = Some rw -> p_CS (Device w) = Some c ->
  fst (exchange rw (Bus w ++ [EvCS true]) [S25FL064L_CMD_RDSR2] 2)
  = S25FL064_NO_ERROR ->
  S25FL064L_GetError PTR NULL w
  = Fault (logs [EvCS true;
                 EvRW [S25FL064L_CMD_RDSR2] 2 S25FL064_NO_ERROR
                   (snd (exchange rw (Bus w ++ [EvCS true])
                           [S25FL064L_CMD_RDSR2] 2));
                 EvCS false] w).
Proof.
  intros Hrw Hcs Hok. unfold S25FL064L_GetError. unfold bind at 1.
  rewrite (Command_PTR [S25FL064L_CMD_RDSR2] PTR 2 w rw c Hrw Hcs eq_refl).
  destruct (exchange rw (Bus w ++ [EvCS true]) [S25FL064L_CMD_RDSR2] 2)
    as [e1 rx]. cbn [fst snd] in *. subst e1. reflexivity.
Qed.

Lemma GetError_null_output_witness :
  let w := bench (Some ready_chip) in
  S25FL064L_GetError PTR NULL w
  = Fault (logs [EvCS true;
                 EvRW [S25FL064L_CMD_RDSR2] 2 S25FL064_NO_ERROR
                   (snd (exchange ready_chip (Bus w ++ [EvCS true])
                           [S25FL064L_CMD_RDSR2] 2));
                 EvCS false] w).
Proof.
  intros w.
  exact (GetError_null_output w ready_chip Callback eq_refl eq_refl eq_refl).
Defined.

(** ** The block device given to LittleFS *)

Lemma uint32_sum a b : uint32 (uint32 a + b) = (a + b) mod 2 ^ 32.
Proof. unfold uint32. now rewrite Zplus_mod_idemp_l. Qed.

Lemma Read_loop_unfold chunks p r acc :
  Read_loop (S chunks) p r acc
  = (let n := if 255 <? r then 255 else uint8 r in
     '(Err, Rx) <- call_RW p [] n ;;
     if is_error Err then
       call_CS p false ;;
       ret (Err, acc ++ Rx)
     else
       if 0 <? r - n then Read_loop chunks p (r - n) (acc ++ Rx)
       else
         call_CS p false ;;
         ret (Err, acc ++ Rx))%drv.
Proof. reflexivity. Qed.

Section Reading.

Variables (d : s25fl064_t) (ps st : list Z) (rw : s25fl06_rw_fptr_t)
  (c : callback).
Hypothesis Hrw : p_RW d = Some rw.
Hypothesis Hcs : p_CS d = Some c.
Hypothesis Hresp : responsive rw.

Let W := mk_World d ps st.

Lemma Read_loop_succeeds chunks :
  forall r acc tr,
    0 <= r -> r / 255 <= Z.of_nat chunks ->
    exists data evs,
      Read_loop (S chunks) PTR r acc (W tr)
      = Return (S25FL064_NO_ERROR, data) (W (tr ++ evs)).
Proof.
  induction chunks as [|chunks IH]; intros r acc tr Hr Hb;
    rewrite Read_loop_unfold; cbv zeta; rewrite (run_RW d ps st rw Hrw);
    match goal with
    | |- context [exchange rw tr [] ?n] =>
        pose proof (exchange_ok rw Hresp tr [] n) as Hx;
        destruct (exchange rw tr [] n) as [e rx]
    end; cbn [fst snd] in *; subst e; cbn [is_error].
  - assert (Hs : r <= 255).
    { destruct (Z_le_gt_dec r 255); [assumption|].
      assert (1 <= r / 255) by (apply Z.div_le_lower_bound; lia). lia. }
    assert (Ht : (if 255 <? r then 255 else uint8 r) = r).
    { destruct (255 <? r) eqn:E; [apply Z.ltb_lt in E; lia|].
      unfold uint8. apply Z.mod_small. lia. }
    rewrite Ht, Z.sub_diag. cbn [Z.ltb Z.compare].
    rewrite (run_CS d ps st c Hcs). unfold ret.
    rewrite <- app_assoc. eexists _, _. reflexivity.
  - destruct (255 <? r) eqn:E.
    + apply Z.ltb_lt in E.
      assert (H0 : (0 <? r - 255) = true) by (apply Z.ltb_lt; lia).
      rewrite H0.
      destruct (IH (r - 255) (acc ++ rx)
                  (tr ++ [EvRW [] 255 S25FL064_NO_ERROR rx]))
        as (data & evs & Heq); [lia| |].
      { replace r with ((r - 255) + 1 * 255) in Hb by lia.
        rewrite Z.div_add in Hb by lia. lia. }
      rewrite <- app_assoc in Heq. exists data. eexists. exact Heq.
    + apply Z.ltb_ge in E.
      assert (H0 : (0 <? r - uint8 r) = false).
      { unfold uint8. rewrite Z.mod_small by lia. apply Z.ltb_ge. lia. }
      rewrite H0, (run_CS d ps st c Hcs). unfold ret.
      rewrite <- app_assoc. eexists _, _. reflexivity.
Qed.

Lemma Read_succeeds Start Length tr :
  0 <= Length ->
  exists data evs,
    S25FL064L_Read PTR Start PTR Length (W tr)
    = Return (S25FL064_NO_ERROR, data)
        (W (tr ++ [EvCS true;
                   EvRW (S25FL064L_CMD_4READ :: address_bytes Start) 0
                     S25FL064_NO_ERROR []] ++ evs)) /\
    Z.of_nat (length data) = Length.
Proof.
  intros Hl. unfold S25FL064L_Read. cbn [is_null orb].
  rewrite (run_CS d ps st c Hcs), (run_RW d ps st rw Hrw).
  match goal with
  | |- context [exchange rw ?t ?tx 0] =>
      pose proof (exchange_ok rw Hresp t tx 0) as Hx;
      pose proof (rx_store_length 0 (snd (rw t tx 0))) as Hn;
      change (rx_store 0 (snd (rw t tx 0)))
        with (snd (exchange rw t tx 0)) in Hn;
      destruct (exchange rw t tx 0) as [e rx]
  end. cbn [fst snd] in *. subst e. cbn [is_error].
  destruct rx; [|discriminate Hn].
  destruct (Read_loop_succeeds (Z.to_nat (Length / 255)) Length []
              ((tr ++ [EvCS true])
               ++ [EvRW (S25FL064L_CMD_4READ :: address_bytes Start) 0
                     S25FL064_NO_ERROR []]))
    as (data & evs & Heq); [assumption| |].
  { assert (0 <= Length / 255) by (apply Z.div_pos; lia). lia. }
  exists data, evs. split.
  - etransitivity; [exact Heq|]. now rewrite <- !app_assoc.
  - apply (Read_loop_data _ _ _ _ rw c) in Heq;
      [|assumption|assumption|assumption| |constructor].
    + destruct Heq as [_ Hlen]. rewrite (Hlen eq_refl). cbn [length]. lia.
    + assert (0 <= Length / 255) by (apply Z.div_pos; lia). lia.
Qed.

End Reading.

(** The read function given to LittleFS, on a chip that answers: it
    returns 0 and has stored exactly [Size] bytes at the buffer.  The flash
    address sent in the command frame is the block number times the block
    size plus the offset, modulo [2 ^ 32]. *)
Theorem Flash_Read_returns_size bs Block Offset Size w rw c :
  p_RW (Device w) = Some rw -> p_CS (Device w) = Some c -> responsive rw ->
  0 <= Size ->
  exists data w',
    Flash_Read bs Block Offset PTR Size w = Return (0, data) w' /\
    Z.of_nat (length data) = Size /\
    nth_error (Bus w') (length (Bus w) + 1)
    = Some (EvRW (S25FL064L_CMD_4READ
                  :: address_bytes ((Block * bs + Offset) mod 2 ^ 32))
              0 S25FL064_NO_ERROR []).
Proof.
  intros Hrw Hcs Hresp Hs. destruct w as [d ps st tr].
  cbn [Device Bus] in *. unfold Flash_Read. rewrite uint32_sum.
  set (a := (Block * bs + Offset) mod 2 ^ 32).
  destruct (Read_succeeds d ps st rw c Hrw Hcs Hresp a Size tr Hs)
    as (data & evs & Heq & Hlen).
  unfold bind at 1. rewrite Heq. cbn [is_error]. unfold ret.
  eexists data, _. split; [reflexivity|]. split; [exact Hlen|].
  cbn [Bus]. rewrite nth_error_app2 by lia.
  replace (length tr + 1 - length tr)%nat with 1%nat by lia. reflexivity.
Qed.

Lemma Flash_Read_returns_size_witness :
  let w := bench (Some ready_chip) in
  0 <= LFS_BUFFER_SIZE /\
  exists data w',
    Flash_Read S25FL064L_SECTOR_SIZE 3 LFS_BUFFER_SIZE PTR LFS_BUFFER_SIZE w
    = Return (0, data) w' /\
    Z.of_nat (length data) = LFS_BUFFER_SIZE /\
    nth_error (Bus w') (length (Bus w) + 1)
    = Some (EvRW (S25FL064L_CMD_4READ
                  :: address_bytes
                       ((3 * S25FL064L_SECTOR_SIZE + LFS_BUFFER_SIZE)
                        mod 2 ^ 32))
              0 S25FL064_NO_ERROR []).
Proof.
  intros w. split; [unfold LFS_BUFFER_SIZE; lia|].
  exact (Flash_Read_returns_size S25FL064L_SECTOR_SIZE 3 LFS_BUFFER_SIZE
           LFS_BUFFER_SIZE w ready_chip Callback eq_refl eq_refl
           ready_chip_responsive ltac:(unfold LFS_BUFFER_SIZE; lia)).
Defined.

(** The program function given to LittleFS, on a chip that answers and for
    fewer bytes than a page (the size LittleFS is configured with,
    [LFS_BUFFER_SIZE], is such a size): it returns 0 and has programmed one
    page, at the block number times the block size plus the offset modulo
    [2 ^ 32], with the first [Size] bytes of the buffer. *)
Theorem Flash_Write_one_page polls bs Block Offset buf Size w rw c :
  p_RW (Device w) = Some rw -> p_CS (Device w) = Some c -> responsive rw ->
  0 <= Size < S25FL064L_PAGE_SIZE ->
  exists evs,
    Flash_Write (S polls) bs Block Offset (Some buf) Size w
    = Return 0 (logs evs w) /\
    page_programs evs
    = [((Block * bs + Offset) mod 2 ^ 32, firstn (Z.to_nat Size) buf)].
Proof.
  intros Hrw Hcs Hresp Hs. change S25FL064L_PAGE_SIZE with 256 in Hs.
  destruct w as [d ps st tr]. cbn [Device] in *.
  unfold Flash_Write. rewrite uint32_sum.
  set (a := (Block * bs + Offset) mod 2 ^ 32).
  assert (Ha : 0 <= a < 2 ^ 32) by (apply Z.mod_pos_bound; lia).
  unfold S25FL064L_Write. unfold bind at 1. unfold bind at 1.
  cbn [automatic].
  destruct (Write_loop_pages d ps st rw c Hrw Hcs Hresp polls buf
              (S (Z.to_nat (Size / S25FL064L_PAGE_SIZE))) Size 0 a
              (firstn 5 (st ++ repeat 0 5)) tr)
    as (evs & Heq & Hpl); try lia.
  { change S25FL064L_PAGE_SIZE with 256.
    rewrite Z.div_small by lia. cbn. lia. }
  exists evs. cbn [Stack]. rewrite Heq. cbn [is_error]. split; [reflexivity|].
  rewrite Hpl, loop_plan_rest by assumption. reflexivity.
Qed.

Lemma Flash_Write_one_page_witness :
  let w := bench (Some ready_chip) in
  0 <= LFS_BUFFER_SIZE < S25FL064L_PAGE_SIZE /\
  exists evs,
    Flash_Write 1 S25FL064L_SECTOR_SIZE 3 LFS_BUFFER_SIZE
      (Some (pattern 128)) LFS_BUFFER_SIZE w
    = Return 0 (logs evs w) /\
    page_programs evs
    = [((3 * S25FL064L_SECTOR_SIZE + LFS_BUFFER_SIZE) mod 2 ^ 32,
        firstn (Z.to_nat LFS_BUFFER_SIZE) (pattern 128))].
Proof.
  intros w.
  assert (H : 0 <= LFS_BUFFER_SIZE < S25FL064L_PAGE_SIZE)
    by (unfold LFS_BUFFER_SIZE, S25FL064L_PAGE_SIZE; lia).
  split; [exact H|].
  exact (Flash_Write_one_page 0 S25FL064L_SECTOR_SIZE 3 LFS_BUFFER_SIZE
           (pattern 128) LFS_BUFFER_SIZE w ready_chip Callback eq_refl eq_refl
           ready_chip_responsive H).
Defined.

(** The erase function given to LittleFS with the block size and for a
    block number of its configuration, on a chip that answers: it returns 0
    after a write enable, one sector-erase frame and one poll.  The address
    in the frame is the block number times 4096; it is sector aligned and
    the sector lies inside the 8 MiB of the chip. *)
Theorem Flash_Erase_sector polls Block w rw c :
  p_RW (Device w) = Some rw -> p_CS (Device w) = Some c -> responsive rw ->
  0 <= Block < S25FL064L_SECTOR_COUNT ->
  let a := Block * S25FL064L_SECTOR_SIZE in
  Flash_Erase (S polls) S25FL064L_SECTOR_SIZE Block w
  = Return 0
      (logs (sector_erase_frames a
             ++ poll (Device w) rw (Bus w ++ sector_erase_frames a)) w) /\
  be32 (address_bytes a) = a /\
  a mod S25FL064L_SECTOR_SIZE = 0 /\
  a + S25FL064L_SECTOR_SIZE <= 2 ^ 23.
Proof.
  intros Hrw Hcs Hresp Hb a.
  unfold S25FL064L_SECTOR_COUNT in Hb.
  assert (Ha : 0 <= a < 2 ^ 32)
    by (subst a; unfold S25FL064L_SECTOR_SIZE; lia).
  split; [|split; [now apply be32_address_bytes|split]].
  - destruct w as [d ps st tr]. cbn [Device Bus] in *.
    unfold Flash_Erase. unfold bind at 1. fold a.
    unfold uint32. rewrite (Z.mod_small a) by assumption.
    rewrite (run_EraseSector d ps st rw c Hrw Hcs Hresp). reflexivity.
  - subst a. apply Z.mod_mul. discriminate.
  - subst a. unfold S25FL064L_SECTOR_SIZE. lia.
Qed.

Lemma Flash_Erase_sector_witness :
  let w := bench (Some ready_chip) in
  let a := 2047 * S25FL064L_SECTOR_SIZE in
  0 <= 2047 < S25FL064L_SECTOR_COUNT /\
  Flash_Erase 1 S25FL064L_SECTOR_SIZE 2047 w
  = Return 0
      (logs (sector_erase_frames a
             ++ poll (Device w) ready_chip (Bus w ++ sector_erase_frames a))
         w) /\
  be32 (address_bytes a) = a /\
  a mod S25FL064L_SECTOR_SIZE = 0 /\
  a + S25FL064L_SECTOR_SIZE <= 2 ^ 23.
Proof.
  intros w a.
  assert (H : 0 <= 2047 < S25FL064L_SECTOR_COUNT)
    by (unfold S25FL064L_SECTOR_COUNT; lia).
  split; [exact H|].
  exact (Flash_Erase_sector 0 2047 w ready_chip Callback eq_refl eq_refl
           ready_chip_responsive H).
Defined.

Lemma PowerDown_flag_witness :
  let w := bench (Some ready_chip) in
  let w1 := world_of (S25FL064L_EnterPowerDown PTR w) in
  let w2 := world_of (S25FL064L_LeavePowerDown 1 PTR w1) in
  (S25FL064L_EnterPowerDown PTR w = Return S25FL064_NO_ERROR w1 /\
   Device w1 = set_isPowerDown true (Device w)) /\
  (S25FL064L_LeavePowerDown 1 PTR w1 = Return S25FL064_NO_ERROR w2 /\
   Device w2 = set_isPowerDown false (Device w1)).
Proof.
  intros w w1 w2.
  assert (H1 : S25FL064L_EnterPowerDown PTR w = Return S25FL064_NO_ERROR w1)
    by (vm_compute; reflexivity).
  assert (H2 : S25FL064L_LeavePowerDown 1 PTR w1
               = Return S25FL064_NO_ERROR w2)
    by (vm_compute; reflexivity).
  exact (conj (conj H1 (proj1 (PowerDown_flag 1 PTR w) _ _ H1))
              (conj H2 (proj2 (PowerDown_flag 1 PTR w1) _ _ H2))).
Defined.

(** ** Handles without a transport *)

Lemma no_transport_cases p w :
  (p = NULL \/ p_RW (Device w) = None \/ p_CS (Device w) = None) /\
  no_transport p w = Return true w \/
  exists rw c,
    p = PTR /\ p_RW (Device w) = Some rw /\ p_CS (Device w) = Some c /\
    no_transport p w = Return false w.
Proof.
  unfold no_transport, bind, load, ret.
  destruct p; cbn [is_null]; [left; auto|].
  destruct (p_RW (Device w)) as [rw|]; [|left; auto].
  destruct (p_CS (Device w)) as [c|]; [|left; auto].
  right. exists rw, c. auto.
Qed.

(** [S25FL064L_Command] checks everything it uses: it always returns.
    Either it returns [S25FL064_INVALID_PARAM] and has done nothing, or it
    has made one frame of one exchange, released chip select whether the
    exchange succeeded or not, and returns the status of the exchange and
    the bytes received.  It never writes the handle. *)
Theorem Command_always_returns p tx pd n w :
  exists e rx w',
    S25FL064L_Command p tx pd n w = Return (e, rx) w' /\
    (e = S25FL064_INVALID_PARAM /\ rx = [] /\ w' = w \/
     w' = logs [EvCS true; EvRW tx n e rx; EvCS false] w /\
     Z.of_nat (length rx) = Z.max 0 n).
Proof.
  destruct (is_null pd && (0 <? n)) eqn:Hpd.
  - exists S25FL064_INVALID_PARAM, [], w. split; [|auto].
    unfold S25FL064L_Command. unfold bind at 1.
    destruct (no_transport_cases p w) as [[_ Hn]|(rw & c & _ & _ & _ & Hn)];
      rewrite Hn, Hpd; [reflexivity|]. cbn [orb]. reflexivity.
  - destruct (Command_cases p tx pd n w Hpd)
      as [Hc|(rw & c & -> & Hrw & Hcs & Hc)].
    + exists S25FL064_INVALID_PARAM, [], w. auto.
    + rewrite Hc.
      pose proof (rx_store_length n
                    (snd (rw (Bus w ++ [EvCS true]) tx n))) as Hlen.
      change (rx_store n _)
        with (snd (exchange rw (Bus w ++ [EvCS true]) tx n)) in Hlen.
      destruct (exchange rw (Bus w ++ [EvCS true]) tx n) as [e rx].
      cbn [fst snd] in *. exists e, rx. eexists. split; [reflexivity|].
      right. split; [reflexivity|]. rewrite Hlen. lia.
Qed.

(** On a handle that is null or has no exchange or no chip-select
    function, every function that begins with a command or with the
    transport check returns [S25FL064_INVALID_PARAM] and does nothing: the
    three identity reads, [S25FL064L_GetError], the two power-down
    functions, both erases and [S25FL064L_Write].  ([S25FL064L_Read] is not
    among them.) *)
Theorem missing_transport_is_rejected polls p w :
  p = NULL \/ p_RW (Device w) = None \/ p_CS (Device w) = None ->
  S25FL064L_ReadID p w = Return S25FL064_INVALID_PARAM w /\
  S25FL064L_ReadUID p w = Return S25FL064_INVALID_PARAM w /\
  S25FL064L_ReadJEDEC p w = Return S25FL064_INVALID_PARAM w /\
  (forall pe,
      S25FL064L_GetError p pe w = Return (S25FL064_INVALID_PARAM, None) w) /\
  S25FL064L_EnterPowerDown p w = Return S25FL064_INVALID_PARAM w /\
  S25FL064L_LeavePowerDown polls p w = Return S25FL064_INVALID_PARAM w /\
  (forall a,
      S25FL064L_EraseSector polls p a w = Return S25FL064_INVALID_PARAM w) /\
  S25FL064L_EraseChip polls p w = Return S25FL064_INVALID_PARAM w /\
  (forall a b l,
      S25FL064L_Write polls p a b l w = Return S25FL064_INVALID_PARAM w).
Proof.
  intros H.
  assert (Hn : no_transport p w = Return true w).
  { destruct (no_transport_cases p w) as [[_ Hn]|(rw & c & -> & Hrw & Hcs & _)];
      [exact Hn|]. destruct H as [H|[H|H]]; congruence. }
  repeat split; intros.
  - unfold S25FL064L_ReadID. unfold bind at 1.
    now rewrite Command_no_transport.
  - unfold S25FL064L_ReadUID. unfold bind at 1. now rewrite Hn.
  - unfold S25FL064L_ReadJEDEC. unfold bind at 1. now rewrite Hn.
  - unfold S25FL064L_GetError. unfold bind at 1.
    now rewrite Command_no_transport.
  - unfold S25FL064L_EnterPowerDown. unfold bind at 1.
    now rewrite Command_no_transport.
  - unfold S25FL064L_LeavePowerDown. unfold bind at 1.
    now rewrite Command_no_transport.
  - unfold S25FL064L_EraseSector. unfold bind at 1.
    now rewrite Command_no_transport.
  - unfold S25FL064L_EraseChip. unfold bind at 1.
    now rewrite Command_no_transport.
  - unfold S25FL064L_Write. destruct p; [reflexivity|].
    destruct b as [buf|]; [|reflexivity].
    unfold bind at 1. cbn [automatic Write_loop]. unfold bind at 1.
    now rewrite Command_no_transport.
Qed.

Lemma missing_transport_is_rejected_witness :
  let w := bench None in
  (PTR = NULL \/ p_RW (Device w) = None \/ p_CS (Device w) = None) /\
  S25FL064L_EraseChip 1 PTR w = Return S25FL064_INVALID_PARAM w /\
  S25FL064L_Write 1 PTR 0 (Some [1; 2]) 2 w
  = Return S25FL064_INVALID_PARAM w.
Proof.
  intros w.
  assert (H : PTR = NULL \/ p_RW (Device w) = None \/ p_CS (Device w) = None)
    by (right; left; reflexivity).
  pose proof (missing_transport_is_rejected 1 PTR w H)
    as (_ & _ & _ & _ & _ & _ & _ & Hc & Hw).
  exact (conj H (conj Hc (Hw 0 (Some [1; 2]) 2))).
Defined.

(** [S25FL064L_Init] writes the handle before anything is checked.  With a
    null handle it writes through the null pointer; with a handle that has
    no exchange or no chip-select function it returns
    [S25FL064_INVALID_PARAM] with [isInitialized] cleared and nothing sent. *)
Theorem Init_without_transport polls w :
  S25FL064L_Init polls NULL w = Fault w /\
  (p_RW (Device w) = None \/ p_CS (Device w) = None ->
   S25FL064L_Init polls PTR w
   = Return S25FL064_INVALID_PARAM
       (mk_World (set_isInitialized false (Device w)) (Params w) (Stack w)
          (Bus w))).
Proof.
  split; [reflexivity|]. intros H.
  unfold S25FL064L_Init. unfold bind at 1. unfold store at 1.
  unfold bind at 1. unfold S25FL064L_LeavePowerDown. unfold bind at 1.
  rewrite Command_no_transport; [reflexivity|]. right. exact H.
Qed.

Lemma Init_without_transport_witness :
  let w := used_handle None in
  S25FL064L_Init 1 PTR w
  = Return S25FL064_INVALID_PARAM
      (mk_World (set_isInitialized false (Device w)) (Params w) (Stack w)
         (Bus w)) /\
  isInitialized (Device w) = true.
Proof.
  intros w. split; [|reflexivity].
  apply (proj2 (Init_without_transport 1 w)). left. reflexivity.
Defined.

(** ** The unique identity and the parameter table *)



(** [S25FL064L_ReadJEDEC] makes one frame of two exchanges: the command
    with four zero bytes and five bytes back, then as many bytes as the
    parameter structure has, received into that structure.  It does not
    write the handle. *)
Theorem ReadJEDEC_frame p w e w' :
  S25FL064L_ReadJEDEC p w = Return e w' ->
  Device w' = Device w /\
  ((e = S25FL064_INVALID_PARAM /\ w' = w) \/
   (exists rx1,
       is_error e = true /\
       w' = logs [EvCS true;
                  EvRW [S25FL064L_CMD_RSFDP; 0; 0; 0; 0] 5 e rx1;
                  EvCS false] w) \/
   (exists rx1,
       Bus w' = Bus w ++ [EvCS true;
                          EvRW [S25FL064L_CMD_RSFDP; 0; 0; 0; 0] 5
                            S25FL064_NO_ERROR rx1;
                          EvRW [] sizeof_flash_params_t e (Params w');
                          EvCS false] /\
       Z.of_nat (length (Params w')) = sizeof_flash_params_t)).
Proof.
  intros H. unfold S25FL064L_ReadJEDEC in H. unfold bind at 1 in H.
  destruct (no_transport_cases p w) as [[_ Hn]|(rw & c & -> & Hrw & Hcs & Hn)];
    rewrite Hn in H.
  { injection H as <- <-. auto. }
  unfold bind at 1 in H. rewrite (call_CS_PTR true w c Hcs) in H.
  unfold bind at 1 in H.
  rewrite (call_RW_PTR [S25FL064L_CMD_RSFDP; 0; 0; 0; 0] 5
             (logs [EvCS true] w) rw Hrw) in H.
  destruct (exchange rw (Bus (logs [EvCS true] w))
              [S25FL064L_CMD_RSFDP; 0; 0; 0; 0] 5)
    as [e1 rx1]. cbn [fst snd] in H.
  destruct (is_error e1) eqn:He1.
  - unfold bind at 1 in H.
    match type of H with
    | context [call_CS PTR false ?w1] =>
        rewrite (call_CS_PTR false w1 c Hcs) in H
    end. unfold ret in H.
    injection H as <- <-. split; [reflexivity|]. right. left. exists rx1.
    split; [assumption|]. now rewrite !logs_logs.
  - destruct e1; try discriminate He1. unfold bind at 1 in H.
    match type of H with
    | context [call_RW PTR [] ?n ?w1] =>
        rewrite (call_RW_PTR [] n w1 rw Hrw) in H;
        pose proof (rx_store_length n (snd (rw (Bus w1) [] n))) as Hlen;
        change (rx_store n (snd (rw (Bus w1) [] n)))
          with (snd (exchange rw (Bus w1) [] n)) in Hlen;
        destruct (exchange rw (Bus w1) [] n) as [e2 rx2]
    end.
    cbn [fst snd] in *. unfold bind at 1 in H. unfold store_Params at 1 in H.
    assert (Hl : Z.of_nat (length rx2) = sizeof_flash_params_t)
      by (rewrite Hlen; reflexivity).
    destruct (is_error e2); unfold bind at 1 in H;
      match type of H with
      | context [call_CS PTR false ?w1] =>
          rewrite (call_CS_PTR false w1 c Hcs) in H
      end; unfold ret in H; injection H as <- <-;
      (split; [reflexivity|]); right; right; exists rx1;
      cbn [logs Bus Device Params Stack]; rewrite <- !app_assoc;
      split; auto.
Qed.

Lemma ReadJEDEC_frame_witness :
  let w := bench (Some ready_chip) in
  let w' := world_of (S25FL064L_ReadJEDEC PTR w) in
  S25FL064L_ReadJEDEC PTR w = Return S25FL064_NO_ERROR w' /\
  Params w' = repeat 0xFF 24 /\
  Device w' = Device w /\
  ((S25FL064_NO_ERROR = S25FL064_INVALID_PARAM /\ w' = w) \/
   (exists rx1,
       is_error S25FL064_NO_ERROR = true /\
       w' = logs [EvCS true;
                  EvRW [S25FL064L_CMD_RSFDP; 0; 0; 0; 0] 5
                    S25FL064_NO_ERROR rx1;
                  EvCS false] w) \/
   (exists rx1,
       Bus w' = Bus w ++ [EvCS true;
                          EvRW [S25FL064L_CMD_RSFDP; 0; 0; 0; 0] 5
                            S25FL064_NO_ERROR rx1;
                          EvRW [] sizeof_flash_params_t S25FL064_NO_ERROR
                            (Params w');
                          EvCS false] /\
       Z.of_nat (length (Params w')) = sizeof_flash_params_t)).
Proof.
  intros w w'.
  assert (H : S25FL064L_ReadJEDEC PTR w = Return S25FL064_NO_ERROR w')
    by (vm_compute; reflexivity).
  exact (conj H (conj eq_refl (ReadJEDEC_frame PTR w _ w' H))).
Defined.

(** ** Initialization on a chip that answers *)

Lemma actions_app a b : actions (a ++ b) = actions a ++ actions b.
Proof. apply flat_map_app. Qed.

Lemma same_callbacks_refl d : same_callbacks d d.
Proof. repeat split. Qed.

Lemma same_callbacks_trans d1 d2 d3 :
  same_callbacks d1 d2 -> same_callbacks d2 d3 -> same_callbacks d1 d3.
Proof.
  unfold same_callbacks. intros (A1 & A2 & A3 & A4) (B1 & B2 & B3 & B4).
  repeat split; congruence.
Qed.

Lemma completes_bind acts1 acts2 (m : M s25fl064_error_t)
    (k : s25fl064_error_t -> M s25fl064_error_t) w :
  completes acts1 m w ->
  (forall w',
      same_callbacks (Device w) (Device w') ->
      completes acts2 (k S25FL064_NO_ERROR) w') ->
  completes (acts1 ++ acts2) (bind m k) w.
Proof.
  intros (evs1 & w1 & H1 & Hb1 & Ha1 & Hs1) Hk.
  destruct (Hk w1 Hs1) as (evs2 & w2 & H2 & Hb2 & Ha2 & Hs2).
  exists (evs1 ++ evs2), w2. unfold bind. rewrite H1. split; [exact H2|].
  split; [now rewrite Hb2, Hb1, app_assoc|].
  split; [rewrite actions_app; congruence|].
  eapply same_callbacks_trans; eassumption.
Qed.

Lemma completes_orelse acts1 acts2 (a b : M s25fl064_error_t) w :
  completes acts1 a w ->
  (forall w', same_callbacks (Device w) (Device w') -> completes acts2 b w') ->
  completes (acts1 ++ acts2) (orelse a b) w.
Proof.
  intros Ha Hb. unfold orelse. apply completes_bind; [exact Ha|].
  intros w' Hs. cbn [is_error].
  destruct (Hb w' Hs) as (evs2 & w2 & H2 & Hb2 & Ha2 & Hs2).
  exists evs2, w2. unfold bind. rewrite H2. auto.
Qed.

Lemma completes_store acts f (k : M s25fl064_error_t) w :
  (forall d, same_callbacks d (f d)) ->
  completes acts k
    (mk_World (f (Device w)) (Params w) (Stack w) (Bus w)) ->
  completes acts (bind (store PTR f) (fun _ => k)) w.
Proof.
  intros Hf (evs & w' & H & Hb & Ha & Hs). exists evs, w'.
  unfold bind, store. rewrite H.
  split; [reflexivity|]. split; [exact Hb|]. split; [exact Ha|].
  eapply same_callbacks_trans; [apply Hf|exact Hs].
Qed.

Lemma completes_ret w : completes [] (ret S25FL064_NO_ERROR) w.
Proof.
  exists [], w. rewrite app_nil_r. repeat split.
Qed.

Section Answering.

Variables (rw : s25fl06_rw_fptr_t) (c r : callback).
Hypothesis Hresp : responsive rw.

Lemma answering_kept w w' :
  answering rw c r w -> same_callbacks (Device w) (Device w') -> answering rw c r w'.
Proof.
  unfold answering, same_callbacks.
  intros (A1 & A2 & A3) (B1 & B2 & B3 & B4). repeat split; congruence.
Qed.

Lemma Command_answered tx pd n w :
  answering rw c r w -> is_null pd && (0 <? n) = false ->
  exists rx,
    S25FL064L_Command PTR tx pd n w
    = Return (S25FL064_NO_ERROR, rx)
        (logs [EvCS true; EvRW tx n S25FL064_NO_ERROR rx; EvCS false] w).
Proof.
  intros (Hrw & Hcs & _) Hpd.
  rewrite (Command_PTR tx pd n w rw c Hrw Hcs Hpd).
  pose proof (exchange_ok rw Hresp (Bus w ++ [EvCS true]) tx n) as Hx.
  destruct (exchange rw (Bus w ++ [EvCS true]) tx n) as [e rx].
  cbn [fst snd] in *. subst e. now exists rx.
Qed.

Lemma WaitBusy_completes polls w :
  answering rw c r w ->
  completes [Command_sent S25FL064L_CMD_RDSR1]
    (S25FL064L_WaitBusy (S polls) PTR) w.
Proof.
  intros (Hrw & Hcs & _). destruct w as [d ps st tr]. cbn [Device] in *.
  exists (poll d rw tr), (mk_World d ps st (tr ++ poll d rw tr)).
  split; [apply (run_WaitBusy d ps st rw c Hrw Hcs Hresp)|].
  split; [reflexivity|]. split; [|apply same_callbacks_refl].
  unfold poll. rewrite actions_app.
  destruct (is_none (p_Busy d)); reflexivity.
Qed.

Lemma LeavePowerDown_completes polls w :
  answering rw c r w ->
  completes [Command_sent S25FL064L_CMD_RES;
             Command_sent S25FL064L_CMD_RDSR1]
    (S25FL064L_LeavePowerDown (S polls) PTR) w.
Proof.
  intros Hw. unfold S25FL064L_LeavePowerDown.
  destruct (Command_answered [S25FL064L_CMD_RES] NULL 0 w Hw eq_refl)
    as (rx & Hc).
  unfold completes, bind at 1. rewrite Hc. cbn [is_error].
  destruct (WaitBusy_completes polls
              (logs [EvCS true;
                     EvRW [S25FL064L_CMD_RES] 0 S25FL064_NO_ERROR rx;
                     EvCS false] w) Hw)
    as (evs & w2 & H2 & Hb2 & Ha2 & Hs2).
  unfold bind at 1. rewrite H2. cbn [is_error].
  unfold bind, store, ret. eexists _, _. split; [reflexivity|].
  cbn [Bus Device logs] in *. rewrite Hb2, <- app_assoc.
  split; [reflexivity|]. rewrite actions_app, Ha2.
  split; [reflexivity|]. exact Hs2.
Qed.

Lemma Reset_completes w :
  answering rw c r w -> completes [Chip_reset] (S25FL064L_Reset PTR) w.
Proof.
  intros (_ & _ & Hr).
  unfold completes, S25FL064L_Reset, call_Reset, bind, load, ret, store.
  cbn [is_null]. rewrite Hr. cbn [is_none]. rewrite Hr.
  eexists [EvReset], _. split; [reflexivity|].
  cbn. repeat split.
Qed.

Lemma ReadID_completes w :
  answering rw c r w ->
  completes [Command_sent S25FL064L_CMD_RDID] (S25FL064L_ReadID PTR) w.
Proof.
  intros Hw. unfold S25FL064L_ReadID.
  destruct (Command_answered [S25FL064L_CMD_RDID] PTR 4 w Hw eq_refl)
    as (rx & Hc).
  unfold completes, bind at 1. rewrite Hc. cbn [is_error].
  unfold bind, store, ret. eexists _, _. split; [reflexivity|].
  cbn [Bus Device logs]. split; [reflexivity|]. repeat split.
Qed.

Lemma two_exchanges_answered tx n1 n2 w :
  answering rw c r w ->
  exists rx1 rx2,
    call_RW PTR tx n1 (logs [EvCS true] w)
    = Return (S25FL064_NO_ERROR, rx1)
        (logs [EvCS true; EvRW tx n1 S25FL064_NO_ERROR rx1] w) /\
    call_RW PTR [] n2
      (logs [EvCS true; EvRW tx n1 S25FL064_NO_ERROR rx1] w)
    = Return (S25FL064_NO_ERROR, rx2)
        (logs [EvCS true; EvRW tx n1 S25FL064_NO_ERROR rx1;
               EvRW [] n2 S25FL064_NO_ERROR rx2] w).
Proof.
  intros (Hrw & Hcs & _).
  rewrite (call_RW_PTR tx n1 (logs [EvCS true] w) rw Hrw).
  pose proof (exchange_ok rw Hresp (Bus (logs [EvCS true] w)) tx n1) as Hx.
  destruct (exchange rw (Bus (logs [EvCS true] w)) tx n1) as [e1 rx1].
  cbn [fst snd] in *. subst e1. rewrite logs_logs. cbn [app].
  exists rx1.
  match goal with
  | |- exists rx2, _ /\ call_RW PTR [] n2 ?w1 = _ =>
      rewrite (call_RW_PTR [] n2 w1 rw Hrw);
      pose proof (exchange_ok rw Hresp (Bus w1) [] n2) as Hy;
      destruct (exchange rw (Bus w1) [] n2) as [e2 rx2]
  end.
  cbn [fst snd] in *. subst e2. rewrite logs_logs. cbn [app].
  exists rx2. auto.
Qed.

Lemma ReadUID_completes w :
  answering rw c r w ->
  completes [Command_sent S25FL064L_CMD_RUID] (S25FL064L_ReadUID PTR) w.
Proof.
  intros Hw. pose proof Hw as (Hrw & Hcs & _).
  destruct (two_exchanges_answered [S25FL064L_CMD_RUID] 5 8 w Hw)
    as (rx1 & _ & H1 & _).
  unfold S25FL064L_ReadUID, no_transport. cbn [is_null].
  unfold completes, bind at 1, bind at 1, load, ret at 1.
  rewrite Hrw, Hcs. cbn [is_none orb].
  unfold bind at 1. rewrite (call_CS_PTR true w c Hcs).
  unfold bind at 1. rewrite H1. cbn [is_error].
  unfold bind at 1.
  match goal with
  | |- context [call_RW_UID PTR ?w1] =>
      rewrite (call_RW_UID_PTR w1 rw Hrw);
      rewrite (always_ok rw Hresp (Bus w1) [] 8)
  end.
  cbn [is_error]. unfold bind at 1.
  match goal with
  | |- context [call_CS PTR false ?w1] =>
      rewrite (call_CS_PTR false w1 c Hcs)
  end.
  unfold ret. eexists _, _. split; [reflexivity|].
  cbn [Bus Device logs]. rewrite <- !app_assoc.
  split; [reflexivity|]. repeat split.
Qed.

Lemma ReadJEDEC_completes w :
  answering rw c r w ->
  completes [Command_sent S25FL064L_CMD_RSFDP] (S25FL064L_ReadJEDEC PTR) w.
Proof.
  intros Hw. pose proof Hw as (Hrw & Hcs & _).
  destruct (two_exchanges_answered [S25FL064L_CMD_RSFDP; 0; 0; 0; 0] 5
              sizeof_flash_params_t w Hw)
    as (rx1 & rx2 & H1 & H2).
  unfold S25FL064L_ReadJEDEC, no_transport. cbn [is_null].
  unfold completes, bind at 1, bind at 1, load, ret at 1.
  rewrite Hrw, Hcs. cbn [is_none orb].
  unfold bind at 1. rewrite (call_CS_PTR true w c Hcs).
  unfold bind at 1. rewrite H1. cbn [is_error].
  unfold bind at 1. rewrite H2. cbn [is_error].
  unfold bind at 1, store_Params at 1. unfold bind at 1.
  match goal with
  | |- context [call_CS PTR false ?w1] =>
      rewrite (call_CS_PTR false w1 c Hcs)
  end.
  unfold ret. eexists _, _. split; [reflexivity|].
  cbn [Bus Device logs]. rewrite <- app_assoc.
  split; [reflexivity|]. repeat split.
Qed.

Lemma Command_then op tx pd n acts
    (k : s25fl064_error_t * list Z -> M s25fl064_error_t) w :
  answering rw c r w -> is_null pd && (0 <? n) = false ->
  (forall rx w',
      same_callbacks (Device w) (Device w') ->
      completes acts (k (S25FL064_NO_ERROR, rx)) w') ->
  completes (Command_sent op :: acts)
    (bind (S25FL064L_Command PTR (op :: tx) pd n) k) w.
Proof.
  intros Hw Hpd Hk.
  destruct (Command_answered (op :: tx) pd n w Hw Hpd) as (rx & Hc).
  destruct (Hk rx (logs [EvCS true;
                         EvRW (op :: tx) n S25FL064_NO_ERROR rx;
                         EvCS false] w) (same_callbacks_refl _))
    as (evs & w' & H & Hb & Ha & Hs).
  exists ([EvCS true; EvRW (op :: tx) n S25FL064_NO_ERROR rx; EvCS false]
          ++ evs), w'.
  unfold bind. rewrite Hc.
  split; [exact H|].
  split; [rewrite Hb; cbn [logs Bus]; symmetry; apply app_assoc|].
  split; [rewrite actions_app, Ha; reflexivity|exact Hs].
Qed.

Lemma Init_completes polls w :
  answering rw c r w ->
  completes [Command_sent S25FL064L_CMD_RES;
             Command_sent S25FL064L_CMD_RDSR1;
             Chip_reset;
             Command_sent S25FL064L_CMD_RDID;
             Command_sent S25FL064L_CMD_RUID;
             Command_sent S25FL064L_CMD_RSFDP;
             Command_sent S25FL064L_CMD_RDCR2]
    (S25FL064L_Init (S polls) PTR) w.
Proof.
  intros Hw. unfold S25FL064L_Init.
  apply completes_store; [intros d; repeat split|].
  set (w0 := mk_World _ _ _ _).
  assert (Hw0 : answering rw c r w0) by exact Hw. clearbody w0. clear Hw w.
  apply (completes_bind [_; _] [_; _; _; _; _]);
    [now apply LeavePowerDown_completes|].
  intros w1 Hs1. pose proof (answering_kept _ _ Hw0 Hs1) as Hw1.
  cbn [is_error].
  apply (completes_bind [_] [_; _; _; _]); [now apply Reset_completes|].
  intros w2 Hs2. pose proof (answering_kept _ _ Hw1 Hs2) as Hw2.
  cbn [is_error].
  apply (completes_bind [_; _; _] [_]).
  { apply (completes_orelse [_; _] [_]).
    - apply (completes_orelse [_] [_]); [now apply ReadID_completes|].
      intros w3 Hs3. apply ReadUID_completes.
      exact (answering_kept _ _ Hw2 Hs3).
    - intros w3 Hs3. apply ReadJEDEC_completes.
      exact (answering_kept _ _ Hw2 Hs3). }
  intros w3 Hs3. pose proof (answering_kept _ _ Hw2 Hs3) as Hw3.
  cbn [is_error].
  apply Command_then; [exact Hw3|reflexivity|].
  intros rx w4 Hs4. cbn [is_error].
  destruct (negb _);
    (apply completes_store; [intros d; repeat split|]);
  do 7 (apply completes_store; [intros d; repeat split|]);
  apply completes_ret.
Qed.

End Answering.

(** On a chip that answers every exchange and is never busy, through a
    handle with exchange, chip-select and reset function,
    [S25FL064L_Init] returns no error after these steps in this order:
    release from power-down, one status poll, the reset function, the
    identity, the unique identity, the parameter table, configuration
    register 2.  No other command is sent, and the four functions of the
    handle are left as they were. *)
Theorem Init_on_answering_chip polls w rw c r :
  p_RW (Device w) = Some rw -> p_CS (Device w) = Some c ->
  p_Reset (Device w) = Some r -> responsive rw ->
  exists evs w',
    S25FL064L_Init (S polls) PTR w = Return S25FL064_NO_ERROR w' /\
    Bus w' = Bus w ++ evs /\
    actions evs = [Command_sent S25FL064L_CMD_RES;
                   Command_sent S25FL064L_CMD_RDSR1;
                   Chip_reset;
                   Command_sent S25FL064L_CMD_RDID;
                   Command_sent S25FL064L_CMD_RUID;
                   Command_sent S25FL064L_CMD_RSFDP;
                   Command_sent S25FL064L_CMD_RDCR2] /\
    same_callbacks (Device w) (Device w').
Proof.
  intros Hrw Hcs Hr Hresp.
  apply (Init_completes rw c r Hresp polls w). repeat split; assumption.
Qed.

Lemma Init_on_answering_chip_witness :
  let w := used_handle (Some ready_chip) in
  exists evs w',
    S25FL064L_Init 1 PTR w = Return S25FL064_NO_ERROR w' /\
    Bus w' = Bus w ++ evs /\
    actions evs = [Command_sent S25FL064L_CMD_RES;
                   Command_sent S25FL064L_CMD_RDSR1;
                   Chip_reset;
                   Command_sent S25FL064L_CMD_RDID;
                   Command_sent S25FL064L_CMD_RUID;
                   Command_sent S25FL064L_CMD_RSFDP;
                   Command_sent S25FL064L_CMD_RDCR2] /\
    same_callbacks (Device w) (Device w').
Proof.
  intros w.
  exact (Init_on_answering_chip 0 w ready_chip Callback Callback
           eq_refl eq_refl eq_refl ready_chip_responsive).
Defined.
(** ** Write enable *)












(** The same chip stops [S25FL064L_Write] after the status read: two
    frames, no page program. *)
Example write_behind_latch :
  let o := S25FL064L_Write 1 PTR 4096 (Some [1; 2; 3]) 3
             (bench (Some (bench_chip 0 0 0 0x6017))) in
  result_of o = Some S25FL064_WRITE_PROTECTED /\
  page_programs (Bus (world_of o)) = [] /\
  length (Bus (world_of o)) = 6%nat.
Proof. vm_compute. repeat split. Qed.

(** ** The identity read by [S25FL064L_Init] *)

Lemma dt_call_RW_from p tx n d rw
    (Q : s25fl064_error_t * list Z -> s25fl064_t -> Prop) :
  p_RW d = Some rw ->
  (forall tr, Q (exchange rw tr tx n) d) ->
  dt d (call_RW p tx n) Q.
Proof.
  intros Hrw H. unfold call_RW. apply dt_bind, dt_load. rewrite Hrw.
  intros w <-. specialize (H (Bus w)). unfold exchange in H.
  destruct (rw (Bus w) tx n) as [e rx]. exact H.
Qed.

Lemma dt_Command_from p tx pd n d rw
    (Q : s25fl064_error_t * list Z -> s25fl064_t -> Prop) :
  p_RW d = Some rw ->
  Q (S25FL064_INVALID_PARAM, []) d ->
  (forall tr, Q (exchange rw tr tx n) d) ->
  dt d (S25FL064L_Command p tx pd n) Q.
Proof.
  intros Hrw Hi Hf. unfold S25FL064L_Command.
  apply dt_bind, dt_no_transport. intros b.
  destruct (b || _); [now apply dt_ret|].
  apply dt_bind, dt_call_CS, dt_bind.
  apply (dt_call_RW_from p tx n d rw); [exact Hrw|].
  intros tr. specialize (Hf tr).
  destruct (exchange rw tr tx n) as [e rx].
  destruct (is_error e); apply dt_bind, dt_call_CS, dt_ret, Hf.
Qed.

Lemma bench_chip_responsive sr2 cr2 id :
  responsive (bench_chip 0x02 sr2 cr2 id).
Proof.
  constructor.
  - intros tr [|op tx] n; [reflexivity|]. unfold bench_chip.
    repeat match goal with
           | |- context [if ?b then _ else _] => destruct b
           end; reflexivity.
  - intros tr e rx tx. vm_compute. discriminate.
  - intros tr tx. reflexivity.
Qed.

Lemma bench_chip_identity sr1 sr2 cr2 id tr :
  0 <= id < 65536 ->
  256 * idx (snd (exchange (bench_chip sr1 sr2 cr2 id) tr
                    [S25FL064L_CMD_RDID] 4)) 2
  + idx (snd (exchange (bench_chip sr1 sr2 cr2 id) tr
                [S25FL064L_CMD_RDID] 4)) 3
  = id.
Proof.
  intros Hid.
  change (snd (exchange (bench_chip sr1 sr2 cr2 id) tr
                 [S25FL064L_CMD_RDID] 4))
    with [uint8 0; uint8 1; uint8 (Z.shiftr id 8); uint8 (Z.land id 0xFF)].
  cbn [idx nth]. rewrite Z.shiftr_div_pow2 by lia.
  change 0xFF with (Z.ones 8). rewrite Z.land_ones by lia.
  unfold uint8. change (2 ^ 8) with 256.
  rewrite (Z.mod_small (id / 256)) by (split; [apply Z.div_pos; lia|
    apply Z.div_lt_upper_bound; lia]).
  rewrite Z.mod_mod by lia.
  pose proof (Z.div_mod id 256 ltac:(lia)). lia.
Qed.

Ltac dt_step_from rw Hrw :=
  lazymatch goal with
  | |- dt ?d (S25FL064L_Command ?p [S25FL064L_CMD_RDID] ?pd ?n) _ =>
      apply (dt_Command_from p [S25FL064L_CMD_RDID] pd n d rw);
      [ exact Hrw
      | 
      | let tr := fresh "tr" in
        let Hx := fresh "Hx" in
        intros tr;
        destruct (exchange rw tr [S25FL064L_CMD_RDID] n) eqn:Hx ]
  | _ => dt_step
  end.

Lemma dt_Init_identity polls p d rw :
  p_RW d = Some rw ->
  dt d (S25FL064L_Init polls p)
    (fun e d' =>
       is_error e = false ->
       exists tr,
         DID d'
         = uint16 (Z.lor
                     (Z.shiftl
                        (idx (snd (exchange rw tr [S25FL064L_CMD_RDID] 4)) 2)
                        0x08)
                     (idx (snd (exchange rw tr [S25FL064L_CMD_RDID] 4)) 3))).
Proof.
  intros Hrw.
  unfold S25FL064L_Init, S25FL064L_LeavePowerDown, S25FL064L_Reset, orelse,
    S25FL064L_ReadID, S25FL064L_ReadUID, S25FL064L_ReadJEDEC.
  repeat (dt_step_from rw Hrw; cbn beta iota;
          cbn [is_error error_of_bool fst snd]).
  all: intros Hok.
  all: repeat match goal with
         | H : context [error_of_bool (is_error ?e)] |- _ =>
             destruct (is_error e) eqn:?; cbn [error_of_bool is_error] in *
         end.
  all: try congruence.
  all: match goal with
       | Hx : exchange _ ?tr _ _ = _ |- _ => exists tr; rewrite Hx
       end; reflexivity.
Qed.

Lemma Init_stores_identity polls w rw c r :
  answering rw c r w -> responsive rw ->
  exists tr w',
    S25FL064L_Init (S polls) PTR w = Return S25FL064_NO_ERROR w' /\
    DID (Device w')
    = 256 * idx (snd (exchange rw tr [S25FL064L_CMD_RDID] 4)) 2
      + idx (snd (exchange rw tr [S25FL064L_CMD_RDID] 4)) 3 /\
    isInitialized (Device w') = true /\
    BlockSize (Device w') = S25FL064L_SECTOR_SIZE /\
    Blocks (Device w') = S25FL064L_SECTOR_COUNT.
Proof.
  intros Hw Hresp.
  destruct (Init_completes rw c r Hresp polls w Hw) as (evs & w' & H & _).
  pose proof Hw as (Hrw & _).
  pose proof (dt_Init_identity (S polls) PTR (Device w) rw Hrw w eq_refl)
    as Hid.
  pose proof (dt_Init (S polls) PTR (Device w) w eq_refl) as Hfl.
  rewrite H in Hid, Hfl. cbn [is_error] in Hid, Hfl.
  destruct (Hid eq_refl) as (tr & Hd).
  exists tr, w'. split; [exact H|]. split; [|tauto].
  rewrite Hd.
  assert (Hby := rx_store_bytes 4 (snd (rw tr [S25FL064L_CMD_RDID] 4))).
  change (rx_store 4 _)
    with (snd (exchange rw tr [S25FL064L_CMD_RDID] 4)) in Hby.
  pose proof (idx_byte _ 2 Hby). pose proof (idx_byte _ 3 Hby).
  rewrite lor_shiftl_byte by assumption.
  unfold uint16. apply Z.mod_small. lia.
Qed.

(** C6, as the code has it: [S25FL064L_Init] does not look at the device
    identity it has read.  Whenever it returns no error the handle is
    initialized with the block size and count of the S25FL064L, and on a
    chip that answers it returns no error and stores the identity the chip
    has answered, whatever that is: for every 16-bit [id], a chip that
    answers [id] is initialized and its handle holds [id].  The comparison
    with [S25FL064L_DEVICE_ID] is made by the caller, [FileSystem_Init],
    which succeeds exactly when the identity stored is that constant and
    the handle is initialized, so on such a chip exactly when [id] is the
    constant. *)
Theorem Init_ignores_identity polls w :
  (forall p e w',
      S25FL064L_Init polls p w = Return e w' -> is_error e = false ->
      isInitialized (Device w') = true /\
      BlockSize (Device w') = S25FL064L_SECTOR_SIZE /\
      Blocks (Device w') = S25FL064L_SECTOR_COUNT) /\
  (forall rw ec wd r w',
      FileSystem_Init polls rw ec wd w = Return r w' ->
      (r = NRF_SUCCESS <->
       DID (Device w') = S25FL064L_DEVICE_ID /\
       isInitialized (Device w') = true)) /\
  (forall rw c r,
      answering rw c r w -> responsive rw ->
      exists tr w',
        S25FL064L_Init (S polls) PTR w = Return S25FL064_NO_ERROR w' /\
        DID (Device w')
        = 256 * idx (snd (exchange rw tr [S25FL064L_CMD_RDID] 4)) 2
          + idx (snd (exchange rw tr [S25FL064L_CMD_RDID] 4)) 3 /\
        isInitialized (Device w') = true) /\
  (forall id sr2 cr2 c r,
      answering (bench_chip 0x02 sr2 cr2 id) c r w -> 0 <= id < 65536 ->
      exists w',
        S25FL064L_Init (S polls) PTR w = Return S25FL064_NO_ERROR w' /\
        DID (Device w') = id /\
        isInitialized (Device w') = true /\
        BlockSize (Device w') = S25FL064L_SECTOR_SIZE /\
        Blocks (Device w') = S25FL064L_SECTOR_COUNT) /\
  (forall id sr2 cr2 ec wd,
      0 <= id < 65536 ->
      exists w',
        FileSystem_Init (S polls) (bench_chip 0x02 sr2 cr2 id) ec wd w
        = Return (if id =? S25FL064L_DEVICE_ID then NRF_SUCCESS
                  else NRF_ERROR_NO_MEM) w').
Proof.
  split; [|split; [|split; [|split]]].
  - intros p e w' H He.
    pose proof (dt_Init polls p (Device w) w eq_refl) as Hd.
    rewrite H, He in Hd. tauto.
  - intros rw ec wd r w' H.
    pose proof (dt_FileSystem_Init polls rw ec wd (Device w) w eq_refl) as Hd.
    now rewrite H in Hd.
  - intros rw c r Hw Hresp.
    destruct (Init_stores_identity polls w rw c r Hw Hresp)
      as (tr & w' & H & Hd & Hi & _).
    exists tr, w'. auto.
  - intros id sr2 cr2 c r Hw Hid.
    destruct (Init_stores_identity polls w _ c r Hw
                (bench_chip_responsive sr2 cr2 id))
      as (tr & w' & H & Hd & Hi & Hbs & Hbl).
    exists w'. rewrite bench_chip_identity in Hd by exact Hid. auto.
  - intros id sr2 cr2 ec wd Hid. unfold FileSystem_Init.
    unfold bind at 1, store at 1.
    match goal with
    | |- context [bind (S25FL064L_Init _ PTR) _ ?w0] =>
        destruct (Init_stores_identity polls w0
                    (bench_chip 0x02 sr2 cr2 id) Callback Callback)
          as (tr & w' & H & Hd & Hi & _);
        [repeat split | apply bench_chip_responsive |]
    end.
    rewrite bench_chip_identity in Hd by exact Hid.
    unfold bind at 1. rewrite H. unfold bind, load.
    rewrite Hd, Hi. cbn [is_error orb negb].
    destruct (id =? S25FL064L_DEVICE_ID); cbn [negb orb]; eexists;
      reflexivity.
Qed.

Lemma Init_ignores_identity_witness :
  let w := used_handle (Some (bench_chip 0x02 0x00 0x00 0x1234)) in
  answering (bench_chip 0x02 0x00 0x00 0x1234) Callback Callback w /\
  0 <= 0x1234 < 65536 /\
  exists w',
    S25FL064L_Init 1 PTR w = Return S25FL064_NO_ERROR w' /\
    DID (Device w') = 0x1234 /\
    isInitialized (Device w') = true /\
    BlockSize (Device w') = S25FL064L_SECTOR_SIZE /\
    Blocks (Device w') = S25FL064L_SECTOR_COUNT.
Proof.
  intros w.
  assert (Hw : answering (bench_chip 0x02 0x00 0x00 0x1234)
                 Callback Callback w) by (repeat split).
  assert (Hid : 0 <= 0x1234 < 65536) by lia.
  split; [exact Hw|]. split; [exact Hid|].
  exact (proj1 (proj2 (proj2 (proj2 (Init_ignores_identity 0 w))))
           0x1234 0 0 Callback Callback Hw Hid).
Defined.
